(** * Content trust verification pipeline (ARQV30 Enhanced v3.0)

    A shallow embedding of the integrated verifier of
    [src/services/enhanced_synthesis_engine.py] (text normaliser, signal
    extractors, rule engine, confidence aggregation, final decision) and of
    the batch reporting of [src/services/ai_verification_service.py].

    Python values are embedded as follows.
    - [str] is a list of Unicode code points ([pystr]).
    - [float] is a type [R] with the operations of the class [PyFloat]; the
      decision logic is proved for every instance, arithmetic facts are
      proved for the exact rationals ([QFloat]) and evaluated in IEEE
      binary64 ([B64]).
    - a [dict] with a fixed set of keys is a record whose fields are
      options where the code reads them with [.get(key, default)].
    - an exception is the [Raise] outcome of the [outcome] monad. *)

From Stdlib Require Import List ZArith NArith Arith Bool Lia.
From Stdlib Require Import String Ascii.
From Stdlib Require Import QArith Qabs Qround Lqa.
From Stdlib Require Import Floats Uint63.
From Stdlib Require DecimalNat.
Import ListNotations.

Set Implicit Arguments.

(* ================================================================= *)
(** ** Python strings *)

Module PyStr.

(** A [str] is its sequence of code points. *)
Definition pystr : Type := list N.

(** Reads a source literal, stored as UTF-8 bytes, into code points.
    [pending] counts the continuation bytes still expected. *)
Fixpoint decode_from (pending : nat) (acc : N) (s : string) : pystr :=
  match s with
  | EmptyString => []
  | String a rest =>
      let b := N_of_ascii a in
      match pending with
      | O =>
          if (b <? 128)%N then b :: decode_from 0 0 rest
          else if (b <? 224)%N then decode_from 1 (b - 192) rest
          else if (b <? 240)%N then decode_from 2 (b - 224) rest
          else decode_from 3 (b - 240) rest
      | S O => (acc * 64 + (b - 128))%N :: decode_from 0 0 rest
      | S p => decode_from p (acc * 64 + (b - 128))%N rest
      end
  end.

Definition u (s : string) : pystr := decode_from 0 0 s.

(** [len(s)], of a string or of a list *)
Definition len {A : Type} (s : list A) : nat := List.length s.

(** [a == b] *)
Definition streq (a b : pystr) : bool :=
  if list_eq_dec N.eq_dec a b then true else false.

(** [c.isspace()] for a single code point (CPython's
    [_PyUnicode_IsWhitespace]). *)
Definition isspace (c : N) : bool :=
  ((9 <=? c) && (c <=? 13) || (28 <=? c) && (c <=? 32)
   || (c =? 133) || (c =? 160) || (c =? 5760)
   || (8192 <=? c) && (c <=? 8202)
   || (c =? 8232) || (c =? 8233) || (c =? 8239) || (c =? 8287)
   || (c =? 12288))%N.

Fixpoint lstrip (s : pystr) : pystr :=
  match s with
  | [] => []
  | c :: r => if isspace c then lstrip r else s
  end.

Definition rstrip (s : pystr) : pystr := rev (lstrip (rev s)).

(** [s.strip()] *)
Definition strip (s : pystr) : pystr := rstrip (lstrip s).

(** [s.split()]: the maximal runs of non-whitespace; [cur] is the run
    being read, reversed. *)
Fixpoint split_from (cur : pystr) (s : pystr) : list pystr :=
  match s with
  | [] => match cur with [] => [] | _ => [rev cur] end
  | c :: r =>
      if isspace c
      then match cur with [] => split_from [] r | _ => rev cur :: split_from [] r end
      else split_from (c :: cur) r
  end.

Definition split (s : pystr) : list pystr := split_from [] s.

(** [sep.join(parts)] *)
Fixpoint join (sep : pystr) (parts : list pystr) : pystr :=
  match parts with
  | [] => []
  | [p] => p
  | p :: ps => p ++ sep ++ join sep ps
  end.

Fixpoint startswith (s prefix : pystr) : bool :=
  match prefix, s with
  | [], _ => true
  | _ :: _, [] => false
  | p :: ps, c :: cs => (p =? c)%N && startswith cs ps
  end.

(** [needle in hay] *)
Fixpoint contains (needle hay : pystr) : bool :=
  startswith hay needle
  || match hay with
     | [] => false
     | _ :: r => contains needle r
     end.

(** [s.lower()], for the Basic Latin and Latin-1 Supplement blocks (the
    alphabet of the configured Portuguese word lists); code points of
    other blocks are returned unchanged. *)
Definition lower_cp (c : N) : N :=
  if ((65 <=? c) && (c <=? 90))%N then (c + 32)%N
  else if ((192 <=? c) && (c <=? 222) && negb (c =? 215))%N then (c + 32)%N
  else c.

Definition lower (s : pystr) : pystr := map lower_cp s.

(** [str(n)] for a non-negative [int]. *)
Fixpoint of_uint (d : Decimal.uint) : pystr :=
  match d with
  | Decimal.Nil => []
  | Decimal.D0 r => 48%N :: of_uint r
  | Decimal.D1 r => 49%N :: of_uint r
  | Decimal.D2 r => 50%N :: of_uint r
  | Decimal.D3 r => 51%N :: of_uint r
  | Decimal.D4 r => 52%N :: of_uint r
  | Decimal.D5 r => 53%N :: of_uint r
  | Decimal.D6 r => 54%N :: of_uint r
  | Decimal.D7 r => 55%N :: of_uint r
  | Decimal.D8 r => 56%N :: of_uint r
  | Decimal.D9 r => 57%N :: of_uint r
  end.

Definition str_of_nat (n : nat) : pystr := of_uint (Nat.to_uint n).

(** [bool(s)]: a string is truthy when it is not empty. *)
Definition truthy (s : pystr) : bool :=
  match s with [] => false | _ => true end.

End PyStr.

Import PyStr.

(* ================================================================= *)
(** ** Python floats *)

(** The arithmetic the verifier performs on [float] values.  [lit] reads
    a decimal literal of the source ([0.75]); [of_int] is the implicit
    conversion of an [int] operand; [leb x y] is [x <= y] and [ltb x y]
    is [x < y]; [format_2f x] is [f"{x:.2f}"]. *)
Class PyFloat (R : Type) : Type := {
  lit : Q -> R;
  of_int : Z -> R;
  add : R -> R -> R;
  sub : R -> R -> R;
  mul : R -> R -> R;
  div : R -> R -> R;
  fabs : R -> R;
  leb : R -> R -> bool;
  ltb : R -> R -> bool;
  format_2f : R -> pystr
}.

Declare Scope py_scope.
Delimit Scope py_scope with py.
Infix "+" := add : py_scope.
Infix "-" := sub : py_scope.
Infix "*" := mul : py_scope.
Infix "/" := div : py_scope.
Notation "x <= y" := (leb x y = true) : py_scope.
Notation "x < y" := (ltb x y = true) : py_scope.
Notation "x >= y" := (leb y x = true) : py_scope.
Notation "x > y" := (ltb y x = true) : py_scope.
Notation "x <=? y" := (leb x y) (at level 70) : py_scope.
Notation "x <? y" := (ltb x y) (at level 70) : py_scope.
Notation "x >=? y" := (leb y x) (at level 70) : py_scope.
Notation "x >? y" := (ltb y x) (at level 70) : py_scope.

Section Builtins.
Context {R : Type} `{PyFloat R}.

(** [min(a, b)]: the first argument unless the second is smaller. *)
Definition pymin (a b : R) : R := if (b <? a)%py then b else a.

(** [sum(xs)]: left to right, starting from the integer [0]. *)
Definition pysum (xs : list R) : R := fold_left add xs (of_int 0).

(** [d.get(key, default)] on an optional key. *)
Definition get {A : Type} (field : option A) (default : A) : A :=
  match field with Some v => v | None => default end.
End Builtins.

(** *** Exact rationals *)

Module ExactArith.

(** The nearest integer, ties to even. *)
Definition round_half_even (q : Q) : Z :=
  let f := Qfloor q in
  match Qcompare (q - inject_Z f) (1 # 2) with
  | Lt => f
  | Gt => (f + 1)%Z
  | Eq => if Z.even f then f else (f + 1)%Z
  end.

Definition two_digits (n : nat) : pystr :=
  if (n <? 10)%nat then u "0" ++ str_of_nat n else str_of_nat n.

(** [f"{q:.2f}"] with the sign given apart (so that [-0.0] keeps it). *)
Definition format_2f_signed (negative : bool) (q : Q) : pystr :=
  let n := Z.to_nat (round_half_even (Qabs q * 100)) in
  (if negative then u "-" else [])
    ++ str_of_nat (n / 100) ++ u "." ++ two_digits (n mod 100).

Definition format_2f (q : Q) : pystr :=
  format_2f_signed (if Qlt_le_dec q 0 then true else false) q.

End ExactArith.

#[export] Instance QFloat : PyFloat Q := {|
  lit := fun q => q;
  of_int := inject_Z;
  add := Qplus;
  sub := Qminus;
  mul := Qmult;
  div := Qdiv;
  fabs := Qabs;
  leb := Qle_bool;
  ltb := fun x y => negb (Qle_bool y x);
  format_2f := ExactArith.format_2f
|}.

(** *** IEEE binary64 *)

Module Binary64.

(** [float(z)], exact for [|z| < 2^53] and correctly rounded up to
    [2^63]; counts of words and matches stay far below. *)
Definition of_int (z : Z) : float :=
  match z with
  | Z0 => PrimFloat.of_uint63 0
  | Zpos _ => PrimFloat.of_uint63 (Uint63.of_Z z)
  | Zneg p => PrimFloat.opp (PrimFloat.of_uint63 (Uint63.of_Z (Zpos p)))
  end.

(** A decimal literal [n/10^k]: the double nearest to the quotient. *)
Definition lit (q : Q) : float :=
  PrimFloat.div (of_int (Qnum q)) (of_int (Zpos (Qden q))).

(** The exact value of a finite double. *)
Definition to_Q (m : positive) (e : Z) : Q :=
  match e with
  | Z0 => inject_Z (Zpos m)
  | Zpos p => inject_Z (Zpos m * 2 ^ Zpos p)
  | Zneg p => Zpos m # (2 ^ p)
  end.

Definition format_2f (x : float) : pystr :=
  match Prim2SF x with
  | S754_zero s => if s then u "-0.00" else u "0.00"
  | S754_infinity s => if s then u "-inf" else u "inf"
  | S754_nan => u "nan"
  | S754_finite s m e => ExactArith.format_2f_signed s (to_Q m e)
  end.

End Binary64.

#[export] Instance B64 : PyFloat float := {|
  lit := Binary64.lit;
  of_int := Binary64.of_int;
  add := PrimFloat.add;
  sub := PrimFloat.sub;
  mul := PrimFloat.mul;
  div := PrimFloat.div;
  fabs := PrimFloat.abs;
  leb := PrimFloat.leb;
  ltb := PrimFloat.ltb;
  format_2f := Binary64.format_2f
|}.

(* ================================================================= *)
(** ** Exceptions *)

(** The result of a call that may raise; [Raise msg] carries [str(e)]. *)
Inductive outcome (A : Type) : Type :=
| Ok (a : A)
| Raise (message : pystr).

Arguments Ok {A} a.
Arguments Raise {A} message.

Definition bind {A B : Type} (c : outcome A) (k : A -> outcome B) : outcome B :=
  match c with
  | Ok a => k a
  | Raise e => Raise e
  end.

Notation "x <- c ;; k" := (bind c (fun x => k))
  (at level 61, c at next level, right associativity).

(** [try: body / except Exception as e: handler(str(e))] *)
Definition try_except {A : Type} (body : outcome A) (handler : pystr -> A) : A :=
  match body with
  | Ok a => a
  | Raise e => handler e
  end.

(* ================================================================= *)
(** ** Data model *)

(** A mapping the verifier carries along and never inspects. *)
Definition payload : Type := list (pystr * pystr).

(** The text-bearing keys of an item, in the order of [priority_fields]. *)
Module Field.
Inductive t : Type := content | text | description | title | summary.
End Field.

Module Item.
(** [item_data]; [None] is an absent key (or a [None] value). *)
Record t : Type := make {
  id : option pystr;
  content : option pystr;
  text : option pystr;
  description : option pystr;
  title : option pystr;
  summary : option pystr;
  other : payload
}.

(** [item_data[field]] when [field in item_data] *)
Definition lookup (item_data : t) (f : Field.t) : option pystr :=
  match f with
  | Field.content => content item_data
  | Field.text => text item_data
  | Field.description => description item_data
  | Field.title => title item_data
  | Field.summary => summary item_data
  end.
End Item.

Module Sentiment.
Record t (R : Type) : Type := make {
  polarity : option R;
  classification : option pystr;
  confidence : option R
}.
(** the empty dict [{}] *)
Definition empty {R : Type} : t R := make None None None.
End Sentiment.

Module Bias.
Record t (R : Type) : Type := make {
  bias_score : option R;
  disinformation_score : option R;
  overall_risk : option R;
  detected_bias_keywords : option (list pystr);
  detected_disinformation_patterns : option (list pystr);
  confidence : option R
}.
Definition empty {R : Type} : t R := make None None None None None None.
End Bias.

Module Contextual.
Record t (R : Type) : Type := make {
  contextual_confidence : option R;
  consistency_score : option R;
  source_reliability_score : option R;
  temporal_coherence_score : option R;
  context_flags : list pystr
}.
Definition empty {R : Type} : t R := make None None None None [].
End Contextual.

Module Review.
Record breakdown (R : Type) : Type := make_breakdown {
  sentiment_contribution : R;
  bias_contribution : R;
  contextual_contribution : R
}.

(** The [ai_review] dict (the Decision).  The two flags are [true] when
    the key is present with value [True].  [processing_metadata] (a clock
    reading and a version tag) is left out. *)
Record t (R : Type) : Type := make {
  status : option pystr;
  reason : option pystr;
  final_confidence : option R;
  confidence_breakdown : option (breakdown R);
  insufficient_content : bool;
  error : bool
}.
Definition empty {R : Type} : t R := make None None None None false false.
End Review.

Module Analysis.
(** The per-item result dict ([analysis_result]); the elapsed time it
    also records is left out. *)
Record t (R : Type) : Type := make {
  item_id : option pystr;
  original_item : option Item.t;
  sentiment_analysis : option (Sentiment.t R);
  bias_disinformation_analysis : option (Bias.t R);
  contextual_analysis : option (Contextual.t R);
  llm_reasoning_analysis : option (R * pystr);
  ai_review : option (Review.t R)
}.
End Analysis.

Module RuleResult.
Record t : Type := make {
  status : option pystr;
  reason : option pystr;
  triggered_rules : list pystr
}.
End RuleResult.

Module Config.
Record thresholds (R : Type) : Type := make_thresholds {
  approval : option R;
  rejection : option R;
  high_confidence : option R;
  low_confidence : option R;
  bias_high_risk : option R
}.

Record rule : Type := make_rule {
  name : pystr;
  condition : pystr;
  action_status : pystr;
  action_reason : pystr
}.

(** [verifier_config], the keys the components read. *)
Record t (R : Type) : Type := make {
  thresholds_ : thresholds R;
  bias_keywords : list pystr;
  disinformation_patterns : list pystr;
  rules : list rule
}.
End Config.

(** [self.verification_stats] (without its start time). *)
Record verification_stats : Type := make_stats {
  total_verified : nat;
  approved : nat;
  rejected : nat
}.

(** The components [_initialize_verifier_components] installs on the
    engine; each one may be replaced by another implementation. *)
Record engine (R : Type) : Type := make_engine {
  sentiment_analyzer : pystr -> outcome (Sentiment.t R);
  bias_detector : pystr -> outcome (Bias.t R);
  contextual_analyzer : Item.t -> option payload -> outcome (Contextual.t R);
  rule_engine : Analysis.t R -> outcome RuleResult.t;
  confidence_thresholds : Config.thresholds R
}.

(* ================================================================= *)
(** ** The verifier of [EnhancedSynthesisEngine] *)

Section Verifier.
Context {R : Type} `{PyFloat R}.
Local Open Scope py_scope.

(** *** Configuration ([_load_verifier_config]) *)

Definition _load_verifier_config : Config.t R :=
  {| Config.thresholds_ :=
       {| Config.approval := Some (lit 0.75);
          Config.rejection := Some (lit 0.35);
          Config.high_confidence := Some (lit 0.85);
          Config.low_confidence := Some (lit 0.5);
          Config.bias_high_risk := Some (lit 0.7) |};
     Config.bias_keywords :=
       [u "sempre"; u "nunca"; u "todos"; u "ninguém"; u "obviamente";
        u "claramente"];
     Config.disinformation_patterns :=
       [u "fake news"; u "notícia falsa"; u "teoria da conspiração"];
     Config.rules :=
       [ {| Config.name := u "high_confidence_approval";
            Config.condition := u "overall_confidence >= 0.85";
            Config.action_status := u "approved";
            Config.action_reason := u "Alta confiança no conteúdo" |};
         {| Config.name := u "high_risk_bias_rejection";
            Config.condition := u "overall_risk >= 0.7";
            Config.action_status := u "rejected";
            Config.action_reason := u "Alto risco de viés/desinformação" |} ]
  |}.

(** *** [BasicSentimentAnalyzer] *)

Definition positive_words : list pystr :=
  [u "bom"; u "ótimo"; u "excelente"; u "maravilhoso"; u "perfeito";
   u "incrível"; u "fantástico"].

Definition negative_words : list pystr :=
  [u "ruim"; u "péssimo"; u "terrível"; u "horrível"; u "problema";
   u "erro"; u "falha"].

(** [[w for w in words if w in text]] *)
Definition found_in (words : list pystr) (text : pystr) : list pystr :=
  filter (fun w => contains w text) words.

Definition neutral_sentiment : Sentiment.t R :=
  {| Sentiment.polarity := Some (lit 0.0);
     Sentiment.classification := Some (u "neutral");
     Sentiment.confidence := Some (lit 0.5) |}.

(** The quotient of the two integers is taken after their conversion to
    [float], as [int / int] does for operands below [2^53]. *)
Definition analyze_sentiment (text : pystr) : Sentiment.t R :=
  if negb (truthy text) then neutral_sentiment
  else
    let text_lower := lower text in
    let positive_count := len (found_in positive_words text_lower) in
    let negative_count := len (found_in negative_words text_lower) in
    let total_words := len (split text_lower) in
    if (total_words =? 0)%nat then neutral_sentiment
    else
      let polarity :=
        of_int (Z.of_nat positive_count - Z.of_nat negative_count)
        / of_int (Z.of_nat (Nat.max total_words 1)) in
      let classification :=
        if polarity >? lit 0.05 then u "positive"
        else if polarity <? lit (-0.05) then u "negative"
        else u "neutral" in
      let confidence := pymin (fabs polarity * of_int 5 + lit 0.3) (lit 1.0) in
      {| Sentiment.polarity := Some polarity;
         Sentiment.classification := Some classification;
         Sentiment.confidence := Some confidence |}.

(** *** [BasicBiasDetector] *)

Definition detect_bias_disinformation (config : Config.t R) (text : pystr)
  : Bias.t R :=
  if negb (truthy text) then
    {| Bias.bias_score := None;
       Bias.disinformation_score := None;
       Bias.overall_risk := Some (lit 0.0);
       Bias.detected_bias_keywords := Some [];
       Bias.detected_disinformation_patterns := Some [];
       Bias.confidence := None |}
  else
    let text_lower := lower text in
    let detected_bias := found_in (Config.bias_keywords config) text_lower in
    let detected_disinfo :=
      found_in (Config.disinformation_patterns config) text_lower in
    let bias_score :=
      pymin (of_int (Z.of_nat (len detected_bias)) * lit 0.1) (lit 1.0) in
    let disinfo_score :=
      pymin (of_int (Z.of_nat (len detected_disinfo)) * lit 0.2) (lit 1.0) in
    let overall_risk := bias_score * lit 0.4 + disinfo_score * lit 0.6 in
    {| Bias.bias_score := Some bias_score;
       Bias.disinformation_score := Some disinfo_score;
       Bias.overall_risk := Some overall_risk;
       Bias.detected_bias_keywords := Some detected_bias;
       Bias.detected_disinformation_patterns := Some detected_disinfo;
       Bias.confidence :=
         Some (if match detected_bias with [] => false | _ => true end
                  || match detected_disinfo with [] => false | _ => true end
               then lit 0.7 else lit 0.5) |}.

(** *** [BasicContextualAnalyzer] *)

Definition analyze_context (item_data : Item.t) (massive_data : option payload)
  : Contextual.t R :=
  let consistency_score := lit 0.7 in
  let source_reliability := lit 0.6 in
  let temporal_coherence := lit 0.7 in
  let contextual_confidence :=
    consistency_score * lit 0.4 + source_reliability * lit 0.4
    + temporal_coherence * lit 0.2 in
  {| Contextual.contextual_confidence := Some contextual_confidence;
     Contextual.consistency_score := Some consistency_score;
     Contextual.source_reliability_score := Some source_reliability;
     Contextual.temporal_coherence_score := Some temporal_coherence;
     Contextual.context_flags := [] |}.

(** *** [BasicRuleEngine]

    [rules] is the list the engine keeps in [self.rules]. *)

Definition apply_rules (rules : list Config.rule) (analysis_result : Analysis.t R)
  : RuleResult.t :=
  let bias := get (Analysis.bias_disinformation_analysis analysis_result)
                  Bias.empty in
  let overall_risk := get (Bias.overall_risk bias) (lit 0.0) in
  if overall_risk >=? lit 0.7 then
    {| RuleResult.status := Some (u "rejected");
       RuleResult.reason := Some (u "Alto risco de viés/desinformação");
       RuleResult.triggered_rules := [u "high_risk_bias_rejection"] |}
  else
    {| RuleResult.status := Some (u "approved");
       RuleResult.reason := Some (u "Análise padrão aprovada");
       RuleResult.triggered_rules := [] |}.

(** *** [BasicConfidenceThresholds] *)

Definition should_approve (thresholds : Config.thresholds R) (confidence : R)
  : bool :=
  confidence >=? get (Config.approval thresholds) (lit 0.75).

Definition should_reject (thresholds : Config.thresholds R) (confidence : R)
  : bool :=
  confidence <=? get (Config.rejection thresholds) (lit 0.35).

(** *** The engine built by [__init__] *)

Definition EnhancedSynthesisEngine (verifier_config : Config.t R) : engine R :=
  {| sentiment_analyzer := fun text => Ok (analyze_sentiment text);
     bias_detector :=
       fun text => Ok (detect_bias_disinformation verifier_config text);
     contextual_analyzer :=
       fun item_data massive_data => Ok (analyze_context item_data massive_data);
     rule_engine :=
       fun analysis_result =>
         Ok (apply_rules (Config.rules verifier_config) analysis_result);
     confidence_thresholds := Config.thresholds_ verifier_config |}.

(** *** [_extract_text_content] *)

Definition priority_fields : list Field.t :=
  [Field.content; Field.text; Field.description; Field.title; Field.summary].

(** One turn of the loop over [priority_fields]. *)
Definition collect_field (item_data : Item.t) (text_parts : list pystr)
           (f : Field.t) : list pystr :=
  match Item.lookup item_data f with
  | Some value =>
      if truthy value then
        let content := strip value in
        if truthy content then text_parts ++ [content] else text_parts
      else text_parts
  | None => text_parts
  end.

Definition _extract_text_content (item_data : Item.t) : pystr :=
  let text_parts := fold_left (collect_field item_data) priority_fields [] in
  strip (join (u " ") text_parts).

(** *** [_make_final_decision] *)

(** [value in candidates] for an optional string. *)
Definition is_one_of (value : option pystr) (candidates : list pystr) : bool :=
  match value with
  | Some v => existsb (streq v) candidates
  | None => false
  end.

Definition _make_final_decision (self : engine R)
           (analysis_result : Analysis.t R) (rule_result : RuleResult.t)
  : Review.t R :=
  let sentiment := get (Analysis.sentiment_analysis analysis_result)
                       Sentiment.empty in
  let bias := get (Analysis.bias_disinformation_analysis analysis_result)
                  Bias.empty in
  let contextual := get (Analysis.contextual_analysis analysis_result)
                        Contextual.empty in
  let confidences :=
    [ get (Sentiment.confidence sentiment) (lit 0.5) * lit 0.2;
      (lit 1.0 - get (Bias.overall_risk bias) (lit 0.5)) * lit 0.3;
      get (Contextual.contextual_confidence contextual) (lit 0.5) * lit 0.5 ] in
  let final_confidence := pysum confidences in
  let verdict : outcome (option pystr * pystr) :=
    if is_one_of (RuleResult.status rule_result) [u "approved"; u "rejected"]
    then
      match RuleResult.reason rule_result with
      | Some reason => Ok (RuleResult.status rule_result, reason)
      | None => Raise (u "'reason'")
      end
    else if should_approve (confidence_thresholds self) final_confidence then
      Ok (Some (u "approved"), u "Aprovado com base na análise combinada")
    else if should_reject (confidence_thresholds self) final_confidence then
      Ok (Some (u "rejected"), u "Rejeitado com base na análise combinada")
    else
      Ok (Some (u "rejected"),
          u "Rejeitado por ambiguidade - política de segurança") in
  try_except
    (v <- verdict ;;
     Ok {| Review.status := fst v;
           Review.reason := Some (snd v);
           Review.final_confidence := Some final_confidence;
           Review.confidence_breakdown :=
             Some {| Review.sentiment_contribution :=
                       get (Sentiment.confidence sentiment) (lit 0.5) * lit 0.2;
                     Review.bias_contribution :=
                       (lit 1.0 - get (Bias.overall_risk bias) (lit 0.5))
                       * lit 0.3;
                     Review.contextual_contribution :=
                       get (Contextual.contextual_confidence contextual)
                           (lit 0.5) * lit 0.5 |};
           Review.insufficient_content := false;
           Review.error := false |})
    (fun e =>
       {| Review.status := Some (u "rejected");
          Review.reason := Some (u "Erro no processamento: " ++ e);
          Review.final_confidence := Some (lit 0.0);
          Review.confidence_breakdown := None;
          Review.insufficient_content := false;
          Review.error := true |}).

(** *** Short-circuit results *)

Definition _create_insufficient_content_result (item_data : Item.t)
  : Analysis.t R :=
  {| Analysis.item_id := Some (get (Item.id item_data) (u "sem_id"));
     Analysis.original_item := None;
     Analysis.sentiment_analysis := None;
     Analysis.bias_disinformation_analysis := None;
     Analysis.contextual_analysis := None;
     Analysis.llm_reasoning_analysis := None;
     Analysis.ai_review :=
       Some {| Review.status := Some (u "rejected");
               Review.reason := Some (u "Conteúdo textual insuficiente");
               Review.final_confidence := Some (lit 0.0);
               Review.confidence_breakdown := None;
               Review.insufficient_content := true;
               Review.error := false |} |}.

Definition _create_error_result (item_data : Item.t) (error_message : pystr)
  : Analysis.t R :=
  {| Analysis.item_id := Some (get (Item.id item_data) (u "sem_id"));
     Analysis.original_item := None;
     Analysis.sentiment_analysis := None;
     Analysis.bias_disinformation_analysis := None;
     Analysis.contextual_analysis := None;
     Analysis.llm_reasoning_analysis := None;
     Analysis.ai_review :=
       Some {| Review.status := Some (u "rejected");
               Review.reason := Some (u "Erro: " ++ error_message);
               Review.final_confidence := Some (lit 0.0);
               Review.confidence_breakdown := None;
               Review.insufficient_content := false;
               Review.error := true |} |}.

(** *** [_update_verification_stats]

    The processing time the method also receives is not used by it. *)

(** [status == literal] for an optional string. *)
Definition status_is (status : option pystr) (literal : pystr) : bool :=
  match status with
  | Some s => streq s literal
  | None => false
  end.

Definition _update_verification_stats (stats : verification_stats)
           (status : option pystr) : verification_stats :=
  let total := S (total_verified stats) in
  if status_is status (u "approved") then
    {| total_verified := total;
       approved := S (approved stats);
       rejected := rejected stats |}
  else if status_is status (u "rejected") then
    {| total_verified := total;
       approved := approved stats;
       rejected := S (rejected stats) |}
  else
    {| total_verified := total;
       approved := approved stats;
       rejected := rejected stats |}.

(** *** [verify_content_item]

    The counters of the engine are threaded through explicitly; the
    [try] block is a computation in [outcome] and the [except] clause its
    handler. *)

Definition verify_content_item (self : engine R) (stats : verification_stats)
           (item_data : Item.t) (massive_data : option payload)
  : Analysis.t R * verification_stats :=
  try_except
    (let item_id :=
       get (Item.id item_data) (u "item_" ++ str_of_nat (total_verified stats)) in
     let text_content := _extract_text_content item_data in
     if negb (truthy text_content) || (len (strip text_content) <? 5)%nat then
       Ok (_create_insufficient_content_result item_data, stats)
     else
       sentiment_result <- sentiment_analyzer self text_content ;;
       bias_result <- bias_detector self text_content ;;
       contextual_result <- contextual_analyzer self item_data massive_data ;;
       let llm_result := (lit 0.5, u "NÃO_EXECUTADO") in
       let analysis_result :=
         {| Analysis.item_id := Some item_id;
            Analysis.original_item := Some item_data;
            Analysis.sentiment_analysis := Some sentiment_result;
            Analysis.bias_disinformation_analysis := Some bias_result;
            Analysis.contextual_analysis := Some contextual_result;
            Analysis.llm_reasoning_analysis := Some llm_result;
            Analysis.ai_review := None |} in
       rule_result <- rule_engine self analysis_result ;;
       let final_decision :=
         _make_final_decision self analysis_result rule_result in
       let stats' :=
         _update_verification_stats stats (Review.status final_decision) in
       Ok ({| Analysis.item_id := Some item_id;
              Analysis.original_item := Some item_data;
              Analysis.sentiment_analysis := Some sentiment_result;
              Analysis.bias_disinformation_analysis := Some bias_result;
              Analysis.contextual_analysis := Some contextual_result;
              Analysis.llm_reasoning_analysis := Some llm_result;
              Analysis.ai_review := Some final_decision |}, stats'))
    (fun e => (_create_error_result item_data e, stats)).

(** *** [_verify_all_data]

    The batch loop of the engine over the collected web entries. *)

(** An entry of [dados_web]; [relevancia] holds [str] of the value. *)
Record web_entry : Type := make_web_entry {
  titulo : option pystr;
  url : option pystr;
  relevancia : option pystr
}.

(** [f"{n:03d}"] *)
Definition format_03d (n : nat) : pystr :=
  let digits := str_of_nat n in
  repeat 48%N (3 - len digits) ++ digits.

(** The [item_data] the loop prepares for the entry at index [idx]. *)
Definition prepare_item (idx : nat) (item : web_entry) : Item.t :=
  {| Item.id := Some (u "web_" ++ format_03d (idx + 1));
     Item.content := Some (get (titulo item) []);
     Item.text := None;
     Item.description := Some (get (relevancia item) []);
     Item.title := Some (get (titulo item) []);
     Item.summary := None;
     Item.other := [(u "source", get (url item) [])] |}.

(** The state of the loop: the two output lists and the counters.  The
    counts and rates of the returned dict are computed from these lists. *)
Record verified_data : Type := make_verified_data {
  approved_data : list web_entry;
  rejected_data : list web_entry;
  stats_after : verification_stats
}.

Definition verify_entry (self : engine R) (acc : verified_data)
           (indexed : nat * web_entry) : verified_data :=
  let (idx, item) := indexed in
  let item_data := prepare_item idx item in
  let (verification_result, stats') :=
    verify_content_item self (stats_after acc) item_data None in
  if status_is
       (Review.status (get (Analysis.ai_review verification_result) Review.empty))
       (u "approved")
  then {| approved_data := approved_data acc ++ [item];
          rejected_data := rejected_data acc;
          stats_after := stats' |}
  else {| approved_data := approved_data acc;
          rejected_data := rejected_data acc ++ [item];
          stats_after := stats' |}.

(** [enumerate(xs)] *)
Definition enumerate {A : Type} (xs : list A) : list (nat * A) :=
  combine (seq 0 (len xs)) xs.

Definition _verify_all_data (self : engine R) (stats : verification_stats)
           (dados_web : list web_entry) : verified_data :=
  fold_left (verify_entry self) (enumerate dados_web)
            {| approved_data := []; rejected_data := []; stats_after := stats |}.

End Verifier.

(* ================================================================= *)
(** ** Batch reporting of [AIVerificationService] *)

Module Issue.
(** An entry of [main_issues]; [confidence] is present on rejection
    entries and [details] on bias entries. *)
Record t (R : Type) : Type := make {
  item_id : option pystr;
  issue_type : pystr;
  reason : pystr;
  confidence : option R;
  details : option (list pystr)
}.
End Issue.

Module Statistics.
Record t (R : Type) : Type := make {
  total_items_analyzed : nat;
  items_approved : nat;
  items_rejected : nat;
  items_with_errors : nat;
  approval_rate : R;
  average_confidence : R
}.
End Statistics.

Section Reporting.
Context {R : Type} `{PyFloat R}.
Local Open Scope py_scope.

(** [result.get('ai_review', {})] *)
Definition review_of (result : Analysis.t R) : Review.t R :=
  get (Analysis.ai_review result) Review.empty.

(** [result.get('bias_disinformation_analysis', {})] *)
Definition bias_of (result : Analysis.t R) : Bias.t R :=
  get (Analysis.bias_disinformation_analysis result) Bias.empty.

(** *** [_identify_main_issues] *)

(** One turn of the loop: the entries appended for [result]. *)
Definition note_issues (issues : list (Issue.t R)) (result : Analysis.t R)
  : list (Issue.t R) :=
  let ai_review := review_of result in
  let issues :=
    if status_is (Review.status ai_review) (u "rejected") then
      issues ++
        [ {| Issue.item_id := Analysis.item_id result;
             Issue.issue_type := u "rejection";
             Issue.reason :=
               get (Review.reason ai_review) (u "Motivo não especificado");
             Issue.confidence :=
               Some (get (Review.final_confidence ai_review) (lit 0.0));
             Issue.details := None |} ]
    else issues in
  let bias_analysis := bias_of result in
  if get (Bias.overall_risk bias_analysis) (of_int 0) >? lit 0.6 then
    issues ++
      [ {| Issue.item_id := Analysis.item_id result;
           Issue.issue_type := u "high_bias_risk";
           Issue.reason :=
             u "Alto risco de viés detectado: "
               ++ format_2f (get (Bias.overall_risk bias_analysis) (of_int 0));
           Issue.confidence := None;
           Issue.details :=
             Some (get (Bias.detected_bias_keywords bias_analysis) []) |} ]
  else issues.

Definition _identify_main_issues (results : list (Analysis.t R))
  : list (Issue.t R) :=
  let issues := fold_left note_issues results [] in
  firstn 10 issues.

(** *** The [statistics] entry of [_compile_verification_result] *)

(** [sum(1 for r in results if p(r))] *)
Definition count_where {A : Type} (p : A -> bool) (xs : list A) : nat :=
  len (filter p xs).

Definition has_status (literal : pystr) (r : Analysis.t R) : bool :=
  status_is (Review.status (review_of r)) literal.

Definition statistics (results : list (Analysis.t R)) : Statistics.t R :=
  let total_items := len results in
  let approved_items := count_where (has_status (u "approved")) results in
  let rejected_items := count_where (has_status (u "rejected")) results in
  let error_items := count_where (has_status (u "error")) results in
  let confidences :=
    map (fun r => get (Review.final_confidence (review_of r)) (lit 0.0))
        results in
  let avg_confidence :=
    match confidences with
    | [] => lit 0.0
    | _ => pysum confidences / of_int (Z.of_nat (len confidences))
    end in
  {| Statistics.total_items_analyzed := total_items;
     Statistics.items_approved := approved_items;
     Statistics.items_rejected := rejected_items;
     Statistics.items_with_errors := error_items;
     Statistics.approval_rate :=
       if (0 <? total_items)%nat
       then of_int (Z.of_nat approved_items) / of_int (Z.of_nat total_items)
            * of_int 100
       else of_int 0;
     Statistics.average_confidence := avg_confidence |}.

End Reporting.

(* ================================================================= *)
(** ** Auxiliary notions used by the statements *)

Section Notions.
Context {R : Type} `{PyFloat R}.
Local Open Scope py_scope.

(** The rule engine [_create_rule_engine] installs, for a declared list. *)
Definition basic_rule_engine (rules : list Config.rule)
  : Analysis.t R -> outcome RuleResult.t :=
  fun analysis_result => Ok (apply_rules rules analysis_result).

(** A call that raises [e] on the inputs where [failure] answers
    [Some e] and returns [f x] on the others. *)
Definition failing_on {A B : Type} (failure : A -> option pystr) (f : A -> B)
  : A -> outcome B :=
  fun x => match failure x with
           | Some e => Raise e
           | None => Ok (f x)
           end.

(** An engine with the three basic extractors, each of which may fail on
    some inputs, and an arbitrary rule engine and thresholds. *)
Definition engine_with_basic_extractors (verifier_config : Config.t R)
           (sentiment_failure bias_failure : pystr -> option pystr)
           (contextual_failure : Item.t * option payload -> option pystr)
           (rules : Analysis.t R -> outcome RuleResult.t)
           (thresholds : Config.thresholds R) : engine R :=
  {| sentiment_analyzer := failing_on sentiment_failure analyze_sentiment;
     bias_detector :=
       failing_on bias_failure (detect_bias_disinformation verifier_config);
     contextual_analyzer :=
       fun item_data massive_data =>
         failing_on contextual_failure
                    (fun x => analyze_context (fst x) (snd x))
                    (item_data, massive_data);
     rule_engine := rules;
     confidence_thresholds := thresholds |}.

(** The three extractor calls of [verify_content_item], in its order. *)
Definition extract_signals (self : engine R) (item_data : Item.t)
           (massive_data : option payload)
  : outcome (Sentiment.t R * Bias.t R * Contextual.t R) :=
  let text_content := _extract_text_content item_data in
  sentiment_result <- sentiment_analyzer self text_content ;;
  bias_result <- bias_detector self text_content ;;
  contextual_result <- contextual_analyzer self item_data massive_data ;;
  Ok (sentiment_result, bias_result, contextual_result).

(** The [analysis_result] dict [verify_content_item] assembles before the
    rules are applied. *)
Definition assemble (stats : verification_stats) (item_data : Item.t)
           (sentiment_result : Sentiment.t R) (bias_result : Bias.t R)
           (contextual_result : Contextual.t R) : Analysis.t R :=
  {| Analysis.item_id :=
       Some (get (Item.id item_data)
                 (u "item_" ++ str_of_nat (total_verified stats)));
     Analysis.original_item := Some item_data;
     Analysis.sentiment_analysis := Some sentiment_result;
     Analysis.bias_disinformation_analysis := Some bias_result;
     Analysis.contextual_analysis := Some contextual_result;
     Analysis.llm_reasoning_analysis := Some (lit 0.5, u "NÃO_EXECUTADO");
     Analysis.ai_review := None |}.

(** The Decision [verify_content_item] reports for an item. *)
Definition decision (self : engine R) (stats : verification_stats)
           (item_data : Item.t) (massive_data : option payload) : Review.t R :=
  review_of (fst (verify_content_item self stats item_data massive_data)).

(** The weighted terms of the composite confidence. *)
Definition sentiment_term (s : Sentiment.t R) : R :=
  get (Sentiment.confidence s) (lit 0.5) * lit 0.2.

Definition bias_term (b : Bias.t R) : R :=
  (lit 1.0 - get (Bias.overall_risk b) (lit 0.5)) * lit 0.3.

Definition contextual_term (c : Contextual.t R) : R :=
  get (Contextual.contextual_confidence c) (lit 0.5) * lit 0.5.

(** The risk [apply_rules] reads from the bias analysis. *)
Definition rule_risk (b : Bias.t R) : R := get (Bias.overall_risk b) (lit 0.0).

(** The entries one result contributes to [main_issues]. *)
Definition issues_of (result : Analysis.t R) : list (Issue.t R) :=
  note_issues [] result.

(** The entry appended for a rejected result. *)
Definition rejection_entry (result : Analysis.t R) : Issue.t R :=
  {| Issue.item_id := Analysis.item_id result;
     Issue.issue_type := u "rejection";
     Issue.reason :=
       get (Review.reason (review_of result)) (u "Motivo não especificado");
     Issue.confidence :=
       Some (get (Review.final_confidence (review_of result)) (lit 0.0));
     Issue.details := None |}.

(** The entry appended for a result with a high bias risk. *)
Definition bias_entry (result : Analysis.t R) : Issue.t R :=
  {| Issue.item_id := Analysis.item_id result;
     Issue.issue_type := u "high_bias_risk";
     Issue.reason :=
       u "Alto risco de viés detectado: "
         ++ format_2f (get (Bias.overall_risk (bias_of result)) (of_int 0));
     Issue.confidence := None;
     Issue.details :=
       Some (get (Bias.detected_bias_keywords (bias_of result)) []) |}.

Definition is_rejection (i : Issue.t R) : bool :=
  streq (Issue.issue_type i) (u "rejection").

Definition is_high_bias_risk (i : Issue.t R) : bool :=
  streq (Issue.issue_type i) (u "high_bias_risk").

(** The risk [_identify_main_issues] reads from a result. *)
Definition reported_risk (result : Analysis.t R) : R :=
  get (Bias.overall_risk (bias_of result)) (of_int 0).

(** *** Readings of the specification that the code is compared with *)

(** Modelled from the spec: the normalized text of spec 4.1, read word
    for word: the non-empty values of the priority-ordered fields, joined
    by a space, the whole trimmed (the code also trims each value and
    drops a value that is blank). *)
Definition present_values (item_data : Item.t) : list pystr :=
  flat_map (fun f => match Item.lookup item_data f with
                     | Some value => if truthy value then [value] else []
                     | None => []
                     end)
           priority_fields.

Definition normalized_text (item_data : Item.t) : pystr :=
  strip (join (u " ") (present_values item_data)).

(** Modelled from the spec: the predicate of a declared rule, a
    comparison of a named signal with a literal (spec 4.5; the code keeps
    the conditions as text and never evaluates them). *)
Definition rule_matches (overall_confidence overall_risk : R)
           (rule : Config.rule) : bool :=
  if streq (Config.condition rule) (u "overall_confidence >= 0.85")
  then overall_confidence >=? lit 0.85
  else if streq (Config.condition rule) (u "overall_risk >= 0.7")
  then overall_risk >=? lit 0.7
  else false.

(** Modelled from the spec: the first declared rule that matches. *)
Definition spec_first_match (rules : list Config.rule)
           (overall_confidence overall_risk : R) : option Config.rule :=
  find (rule_matches overall_confidence overall_risk) rules.

(** Modelled from the spec: the ranking "rejection entries before
    high-bias-risk entries": no rejection entry after a bias entry. *)
Fixpoint rejections_ranked_first (issues : list (Issue.t R)) : bool :=
  match issues with
  | [] => true
  | i :: rest =>
      (if is_high_bias_risk i then negb (existsb is_rejection rest) else true)
      && rejections_ranked_first rest
  end.

(** Modelled from the spec: the handling of a failing extractor of spec 7,
    which replaces the signal by a neutral value ([confidence = 0.5],
    [risk = 0.5]) and lets the evaluation go on. *)
Definition neutral_on_failure (self : engine R) : engine R :=
  {| sentiment_analyzer :=
       fun text =>
         Ok (try_except (sentiment_analyzer self text)
               (fun _ => {| Sentiment.polarity := None;
                            Sentiment.classification := None;
                            Sentiment.confidence := Some (lit 0.5) |}));
     bias_detector :=
       fun text =>
         Ok (try_except (bias_detector self text)
               (fun _ => {| Bias.bias_score := None;
                            Bias.disinformation_score := None;
                            Bias.overall_risk := Some (lit 0.5);
                            Bias.detected_bias_keywords := None;
                            Bias.detected_disinformation_patterns := None;
                            Bias.confidence := Some (lit 0.5) |}));
     contextual_analyzer :=
       fun item_data massive_data =>
         Ok (try_except (contextual_analyzer self item_data massive_data)
               (fun _ => {| Contextual.contextual_confidence := Some (lit 0.5);
                            Contextual.consistency_score := None;
                            Contextual.source_reliability_score := None;
                            Contextual.temporal_coherence_score := None;
                            Contextual.context_flags := [] |}));
     rule_engine := rule_engine self;
     confidence_thresholds := confidence_thresholds self |}.

End Notions.

(* ================================================================= *)
(** ** Sample inputs *)

Module Samples.

Definition no_stats : verification_stats := make_stats 0 0 0.

Definition item_with_content (content : string) : Item.t :=
  Item.make None (Some (u content)) None None None None [].

(** An ordinary item: no sentiment word, no bias term. *)
Definition plain : Item.t := item_with_content "hello world".

(** Four characters of text. *)
Definition short : Item.t := item_with_content "  abcd  ".

(** A configuration with five disinformation phrases. *)
Definition strict_config {R : Type} `{PyFloat R} : Config.t R :=
  {| Config.thresholds_ := Config.thresholds_ _load_verifier_config;
     Config.bias_keywords := Config.bias_keywords (R:=R) _load_verifier_config;
     Config.disinformation_patterns :=
       Config.disinformation_patterns (R:=R) _load_verifier_config
         ++ [u "farsa"; u "boato"];
     Config.rules := Config.rules (R:=R) _load_verifier_config |}.

(** A text with three bias terms and the five phrases of [strict_config]. *)
Definition risky : Item.t :=
  item_with_content
    "Sempre e nunca: todos repetem fake news, notícia falsa, teoria da conspiração, farsa e boato".

(** A text with the six bias terms and the three phrases of the default
    configuration. *)
Definition saturated : Item.t :=
  item_with_content
    "sempre nunca todos ninguém obviamente claramente fake news notícia falsa teoria da conspiração".

(** An engine whose sentiment analyzer raises. *)
Definition broken_sentiment {R : Type} `{PyFloat R} : engine R :=
  {| sentiment_analyzer := fun _ => Raise (u "sentiment unavailable");
     bias_detector :=
       fun text => Ok (detect_bias_disinformation _load_verifier_config text);
     contextual_analyzer :=
       fun item_data massive_data => Ok (analyze_context item_data massive_data);
     rule_engine := basic_rule_engine (Config.rules (R:=R) _load_verifier_config);
     confidence_thresholds := Config.thresholds_ _load_verifier_config |}.

(** A hand-made analysis: every signal at the given value. *)
Definition analysis_of {R : Type} (id : string)
           (sentiment_confidence overall_risk contextual_confidence : R)
  : Analysis.t R :=
  {| Analysis.item_id := Some (u id);
     Analysis.original_item := None;
     Analysis.sentiment_analysis :=
       Some {| Sentiment.polarity := None;
               Sentiment.classification := None;
               Sentiment.confidence := Some sentiment_confidence |};
     Analysis.bias_disinformation_analysis :=
       Some {| Bias.bias_score := None;
               Bias.disinformation_score := None;
               Bias.overall_risk := Some overall_risk;
               Bias.detected_bias_keywords := Some [];
               Bias.detected_disinformation_patterns := Some [];
               Bias.confidence := None |};
     Analysis.contextual_analysis :=
       Some {| Contextual.contextual_confidence := Some contextual_confidence;
               Contextual.consistency_score := None;
               Contextual.source_reliability_score := None;
               Contextual.temporal_coherence_score := None;
               Contextual.context_flags := [] |};
     Analysis.llm_reasoning_analysis := None;
     Analysis.ai_review := None |}.

(** The same analysis with the Decision of the default engine attached. *)
Definition decided {R : Type} `{PyFloat R} (a : Analysis.t R) : Analysis.t R :=
  let self := EnhancedSynthesisEngine _load_verifier_config in
  {| Analysis.item_id := Analysis.item_id a;
     Analysis.original_item := Analysis.original_item a;
     Analysis.sentiment_analysis := Analysis.sentiment_analysis a;
     Analysis.bias_disinformation_analysis :=
       Analysis.bias_disinformation_analysis a;
     Analysis.contextual_analysis := Analysis.contextual_analysis a;
     Analysis.llm_reasoning_analysis := Analysis.llm_reasoning_analysis a;
     Analysis.ai_review :=
       Some (_make_final_decision self a
               (apply_rules (Config.rules (R:=R) _load_verifier_config) a)) |}.

(** The second rule of the default configuration. *)
Definition high_risk_bias_rejection : Config.rule :=
  {| Config.name := u "high_risk_bias_rejection";
     Config.condition := u "overall_risk >= 0.7";
     Config.action_status := u "rejected";
     Config.action_reason := u "Alto risco de viés/desinformação" |}.

(** A declared list whose first rule approves what the second rejects. *)
Definition tolerant_rules : list Config.rule :=
  [ {| Config.name := u "risk_tolerated";
       Config.condition := u "overall_risk >= 0.7";
       Config.action_status := u "approved";
       Config.action_reason := u "Risco tolerado" |};
    high_risk_bias_rejection ].

(** [strict_config] with [tolerant_rules] declared. *)
Definition tolerant_config {R : Type} `{PyFloat R} : Config.t R :=
  {| Config.thresholds_ := Config.thresholds_ strict_config;
     Config.bias_keywords := Config.bias_keywords (R:=R) strict_config;
     Config.disinformation_patterns :=
       Config.disinformation_patterns (R:=R) strict_config;
     Config.rules := tolerant_rules |}.

(** A batch of two results: an approved item with an overall risk of
    0.65, then a rejected item without bias. *)
Definition mixed_batch {R : Type} `{PyFloat R} : list (Analysis.t R) :=
  [ decided (analysis_of "first" (lit 0.3) (lit 0.65) (lit 0.66));
    fst (verify_content_item (EnhancedSynthesisEngine _load_verifier_config)
           no_stats short None) ].

(** The results of the default engine for [saturated] and for [short]. *)
Definition engine_batch {R : Type} `{PyFloat R} : list (Analysis.t R) :=
  let self := EnhancedSynthesisEngine _load_verifier_config in
  let first := verify_content_item self no_stats saturated None in
  let second := verify_content_item self (snd first) short None in
  [fst first; fst second].

(** Three entries of [dados_web]. *)
Definition web_batch : list web_entry :=
  [ {| titulo := Some (u "hello world"); url := None; relevancia := None |};
    {| titulo := Some (u "abc"); url := None; relevancia := None |};
    {| titulo := None; url := Some (u "http://example.org");
       relevancia := Some (u "0.9") |} ].

End Samples.

(* ================================================================= *)
(** ** Further code of the engine and of the service *)

Module EngineStats.
(** The dict of [get_verification_stats] (without its running time). *)
Record t (R : Type) : Type := make {
  total_verified : nat;
  approved : nat;
  rejected : nat;
  approval_rate : R
}.
End EngineStats.

Module VerifiedReport.
(** The dict [_verify_all_data] returns; its [stats] entry repeats the
    three counts and the rate and is left out. *)
Record t (R : Type) : Type := make {
  total_items : nat;
  approved_items : nat;
  rejected_items : nat;
  approval_rate : R;
  approved_data : list web_entry;
  rejected_data : list web_entry
}.
End VerifiedReport.

Module Summary.
(** The [verification_summary] entry of the batch report. *)
Record t : Type := make {
  high_confidence_items : nat;
  medium_confidence_items : nat;
  low_confidence_items : nat
}.
End Summary.

Module Report.
(** The dict of [_compile_verification_result], without the session id
    and the clock readings. *)
Record t (R : Type) : Type := make {
  statistics : Statistics.t R;
  main_issues : list (Issue.t R);
  recommendations : list pystr;
  detailed_results : list (Analysis.t R);
  overall_status : pystr;
  quality_score : R;
  verification_summary : Summary.t
}.
End Report.

Section FurtherCode.
Context {R : Type} `{PyFloat R}.
Local Open Scope py_scope.

(** *** [get_verification_stats] *)

Definition get_verification_stats (stats : verification_stats)
  : EngineStats.t R :=
  let total := total_verified stats in
  {| EngineStats.total_verified := total;
     EngineStats.approved := approved stats;
     EngineStats.rejected := rejected stats;
     EngineStats.approval_rate :=
       of_int (Z.of_nat (approved stats)) / of_int (Z.of_nat (Nat.max total 1)) |}.

(** *** The dict returned by [_verify_all_data] *)

Definition verified_report (self : engine R) (stats : verification_stats)
           (dados_web : list web_entry) : VerifiedReport.t R :=
  let verified := _verify_all_data self stats dados_web in
  let total := len dados_web in
  let approved_count := len (approved_data verified) in
  let rejected_count := len (rejected_data verified) in
  {| VerifiedReport.total_items := total;
     VerifiedReport.approved_items := approved_count;
     VerifiedReport.rejected_items := rejected_count;
     VerifiedReport.approval_rate :=
       of_int (Z.of_nat approved_count) / of_int (Z.of_nat (Nat.max total 1));
     VerifiedReport.approved_data := approved_data verified;
     VerifiedReport.rejected_data := rejected_data verified |}.

(** *** [_generate_recommendations] *)

Definition rejection_warning : pystr := u "⚠️ Alta taxa de rejeição detectada. Revisar qualidade dos dados coletados.".

Definition negative_sentiment_note : pystr := u "📊 Alto volume de conteúdo com sentimento negativo. Considerar ajustar estratégia de coleta.".

Definition high_bias_note (high_bias_count : nat) : pystr :=
  u "🎯 " ++ str_of_nat high_bias_count ++ u " itens com alto risco de viés detectados. Revisar fontes de dados.".

Definition low_confidence_note : pystr := u "🔍 Muitos itens com baixa confiança. Considerar coleta de dados adicionais.".

Definition approval_note : pystr := u "✅ Dados aprovados na verificação AI. Qualidade adequada para prosseguir.".

(** [result.get('sentiment_analysis', {})] *)
Definition sentiment_of (result : Analysis.t R) : Sentiment.t R :=
  get (Analysis.sentiment_analysis result) Sentiment.empty.

(** [recommendations.append(note)] when [condition] holds. *)
Definition append_if (condition : bool) (note : pystr)
           (recommendations : list pystr) : list pystr :=
  if condition then recommendations ++ [note] else recommendations.

Definition _generate_recommendations (results : list (Analysis.t R))
  : list pystr :=
  let recommendations := [] in
  let rejected_count := count_where (has_status (u "rejected")) results in
  let total_count := len results in
  let recommendations :=
    append_if (of_int (Z.of_nat rejected_count)
               >? of_int (Z.of_nat total_count) * lit 0.5)
              rejection_warning recommendations in
  let negative_sentiment_count :=
    count_where
      (fun r => status_is (Sentiment.classification (sentiment_of r))
                          (u "negative"))
      results in
  let recommendations :=
    append_if (of_int (Z.of_nat negative_sentiment_count)
               >? of_int (Z.of_nat total_count) * lit 0.3)
              negative_sentiment_note recommendations in
  let high_bias_count :=
    count_where
      (fun r => get (Bias.overall_risk (bias_of r)) (of_int 0) >? lit 0.6)
      results in
  let recommendations :=
    append_if (0 <? high_bias_count)%nat (high_bias_note high_bias_count)
              recommendations in
  let low_confidence_count :=
    count_where
      (fun r => get (Review.final_confidence (review_of r)) (of_int 0)
                <? lit 0.5)
      results in
  let recommendations :=
    append_if (of_int (Z.of_nat low_confidence_count)
               >? of_int (Z.of_nat total_count) * lit 0.3)
              low_confidence_note recommendations in
  match recommendations with
  | [] => [approval_note]
  | _ => recommendations
  end.

(** *** [_compile_verification_result] *)

(** The confidence the summary reads from a result. *)
Definition summary_confidence (result : Analysis.t R) : R :=
  get (Review.final_confidence (review_of result)) (of_int 0).

Definition verification_summary (results : list (Analysis.t R)) : Summary.t :=
  {| Summary.high_confidence_items :=
       count_where (fun r => summary_confidence r >? lit 0.8) results;
     Summary.medium_confidence_items :=
       count_where (fun r => (lit 0.5 <=? summary_confidence r)
                             && (summary_confidence r <=? lit 0.8))
                   results;
     Summary.low_confidence_items :=
       count_where (fun r => summary_confidence r <? lit 0.5) results |}.

Definition _compile_verification_result (results : list (Analysis.t R))
  : Report.t R :=
  let stats := statistics results in
  {| Report.statistics := stats;
     Report.main_issues := _identify_main_issues results;
     Report.recommendations := _generate_recommendations results;
     Report.detailed_results := results;
     Report.overall_status :=
       if (Statistics.items_rejected stats <? Statistics.items_approved stats)%nat
       then u "approved" else u "rejected";
     Report.quality_score := Statistics.average_confidence stats * of_int 100;
     Report.verification_summary := verification_summary results |}.

(** *** Notions used by the further statements *)

(** The overall risk of the basic detector as a function of the numbers
    of detected terms and phrases. *)
Definition risk_of_counts (bias_matches disinfo_matches : nat) : R :=
  pymin (of_int (Z.of_nat bias_matches) * lit 0.1) (lit 1.0) * lit 0.4
  + pymin (of_int (Z.of_nat disinfo_matches) * lit 0.2) (lit 1.0) * lit 0.6.

(** A result whose status is none of the three the report counts. *)
Definition has_other_status (r : Analysis.t R) : bool :=
  negb (has_status (u "approved") r || has_status (u "rejected") r
        || has_status (u "error") r).

(** The test of the batch loop on one prepared entry. *)
Definition entry_is_approved (self : engine R) (indexed : nat * web_entry)
  : bool :=
  status_is
    (Review.status
       (decision self (make_stats 0 0 0)
                 (prepare_item (fst indexed) (snd indexed)) None))
    (u "approved").

(** A result produced by [verify_content_item]. *)
Definition from_engine (result : Analysis.t R) : Prop :=
  exists (self : engine R) (stats : verification_stats) (item_data : Item.t)
         (massive_data : option payload),
    result = fst (verify_content_item self stats item_data massive_data).

(** A rule engine that never decides: its result carries no status. *)
Definition undecided_rule_engine : Analysis.t R -> outcome RuleResult.t :=
  fun _ => Ok {| RuleResult.status := None;
                 RuleResult.reason := None;
                 RuleResult.triggered_rules := [] |}.

(** A rule engine whose result carries a status and no reason. *)
Definition reasonless_rule_engine : Analysis.t R -> outcome RuleResult.t :=
  fun _ => Ok {| RuleResult.status := Some (u "approved");
                 RuleResult.reason := None;
                 RuleResult.triggered_rules := [] |}.

(** The default engine with another rule engine. *)
Definition default_engine_with (rules : Analysis.t R -> outcome RuleResult.t)
  : engine R :=
  {| sentiment_analyzer := fun text => Ok (analyze_sentiment text);
     bias_detector :=
       fun text => Ok (detect_bias_disinformation _load_verifier_config text);
     contextual_analyzer :=
       fun item_data massive_data => Ok (analyze_context item_data massive_data);
     rule_engine := rules;
     confidence_thresholds := Config.thresholds_ _load_verifier_config |}.

End FurtherCode.

(** The number a run of decimal digits denotes ([int(s)]), read from the
    left; any other character counts as the digit 0. *)
Definition digit_value (c : N) : nat :=
  if ((48 <=? c) && (c <=? 57))%N then N.to_nat (c - 48) else 0%nat.

Definition int_of_digits (s : pystr) : nat :=
  fold_left (fun acc c => (10 * acc + digit_value c)%nat) s 0%nat.

(* ================================================================= *)
(** ** JSON data *)

(** The values [json.load] produces; an object is kept as the list of
    its entries in insertion order. *)
#[warnings="-register-all"]
Inductive json : Type :=
| JNull
| JBool (b : bool)
| JNum (q : Q)
| JStr (s : pystr)
| JList (items : list json)
| JDict (entries : list (pystr * json)).

Module PyDict.

Definition t : Type := list (pystr * json).

(** [d[key]] when [key in d] *)
Fixpoint lookup (d : t) (key : pystr) : option json :=
  match d with
  | [] => None
  | (k, v) :: rest => if streq k key then Some v else lookup rest key
  end.

(** [key in d] *)
Definition mem (key : pystr) (d : t) : bool :=
  match lookup d key with Some _ => true | None => false end.

(** [d[key] = value]: a present key keeps its place, a new one goes
    last. *)
Fixpoint set (d : t) (key : pystr) (value : json) : t :=
  match d with
  | [] => [(key, value)]
  | (k, v) :: rest =>
      if streq k key then (k, value) :: rest else (k, v) :: set rest key value
  end.

(** [list(d.keys())] *)
Definition keys (d : t) : list pystr := map fst d.

End PyDict.

(** [bool(value)] *)
Definition json_truthy (value : json) : bool :=
  match value with
  | JNull => false
  | JBool b => b
  | JNum q => negb (Qeq_bool q 0)
  | JStr s => truthy s
  | JList items => match items with [] => false | _ => true end
  | JDict entries => match entries with [] => false | _ => true end
  end.

(* ================================================================= *)
(** ** [AIVerificationService]: from session data to the report *)

Module Prepared.
(** An item of [items_to_analyze]; [title] is absent for the items of
    [content_analysis] and [market_insights]. *)
Record t : Type := make {
  id : pystr;
  source : pystr;
  type_ : pystr;
  content : json;
  title : option json;
  original_data : json
}.
End Prepared.

Module SessionStats.
(** [self.session_stats], without its clock readings. *)
Record t : Type := make {
  items_processed : nat;
  items_approved : nat;
  items_rejected : nat
}.
End SessionStats.

Module ServiceResult.
(** What [process_session_data] returns: a report, with an [error] key
    when the verification failed. *)
Record t (R : Type) : Type := make {
  report : Report.t R;
  error : option pystr
}.
End ServiceResult.

Module Service.
Section Service.
Context {R : Type} `{PyFloat R}.
Local Open Scope py_scope.

(** [str(value)] of a value that is not a string, and [json.dumps]. *)
Variable repr : json -> pystr.
Variable json_dumps : json -> pystr.

(** The external review agent: [self.review_agent.process_item]. *)
Variable process_item : Prepared.t -> PyDict.t -> outcome (Analysis.t R).

(** [str(value)] *)
Definition py_str (value : json) : pystr :=
  match value with
  | JStr s => s
  | _ => repr value
  end.

(** *** [_prepare_data_for_analysis] *)

(** The items of the section [analysis_results]. *)
Definition analysis_items (data : PyDict.t) : list Prepared.t :=
  match PyDict.lookup data (u "analysis_results") with
  | Some (JList analysis_data) =>
      flat_map
        (fun indexed : nat * json =>
           let (i, item) := indexed in
           match item with
           | JDict ((_ :: _) as fields) =>
               [ {| Prepared.id := u "analysis_" ++ str_of_nat i;
                    Prepared.source := u "analysis_results";
                    Prepared.type_ := u "analysis_item";
                    Prepared.content :=
                      get (PyDict.lookup fields (u "content"))
                          (JStr (py_str item));
                    Prepared.title :=
                      Some (get (PyDict.lookup fields (u "title"))
                                (JStr (u "Item " ++ str_of_nat (i + 1))));
                    Prepared.original_data := item |} ]
           | _ => []
           end)
        (enumerate analysis_data)
  | _ => []
  end.

(** The items of the section [content_analysis]. *)
Definition content_items (data : PyDict.t) : list Prepared.t :=
  match PyDict.lookup data (u "content_analysis") with
  | Some (JDict content_data) =>
      flat_map
        (fun entry : pystr * json =>
           let (key, value) := entry in
           match value with
           | JStr ((_ :: _) as s) =>
               [ {| Prepared.id := u "content_" ++ key;
                    Prepared.source := u "content_analysis";
                    Prepared.type_ := key;
                    Prepared.content := JStr s;
                    Prepared.title := None;
                    Prepared.original_data := value |} ]
           | JDict (_ :: _) =>
               [ {| Prepared.id := u "content_" ++ key;
                    Prepared.source := u "content_analysis";
                    Prepared.type_ := key;
                    Prepared.content := JStr (json_dumps value);
                    Prepared.title := None;
                    Prepared.original_data := value |} ]
           | _ => []
           end)
        content_data
  | _ => []
  end.

(** The items of the section [competitor_analysis]. *)
Definition competitor_items (data : PyDict.t) : list Prepared.t :=
  match PyDict.lookup data (u "competitor_analysis") with
  | Some (JDict comp_data) =>
      flat_map
        (fun entry : pystr * json =>
           let (comp_name, comp_info) := entry in
           match comp_info with
           | JDict (_ :: _) =>
               [ {| Prepared.id := u "competitor_" ++ comp_name;
                    Prepared.source := u "competitor_analysis";
                    Prepared.type_ := u "competitor_data";
                    Prepared.content := JStr (json_dumps comp_info);
                    Prepared.title := Some (JStr comp_name);
                    Prepared.original_data := comp_info |} ]
           | _ => []
           end)
        comp_data
  | _ => []
  end.

(** The items of the section [market_insights], a list or a dict. *)
Definition insight_items (data : PyDict.t) : list Prepared.t :=
  match PyDict.lookup data (u "market_insights") with
  | Some (JList insights) =>
      map (fun indexed : nat * json =>
             let (i, insight) := indexed in
             {| Prepared.id := u "insight_" ++ str_of_nat i;
                Prepared.source := u "market_insights";
                Prepared.type_ := u "market_insight";
                Prepared.content := JStr (py_str insight);
                Prepared.title := None;
                Prepared.original_data := insight |})
          (enumerate insights)
  | Some (JDict insights) =>
      map (fun entry : pystr * json =>
             let (key, value) := entry in
             {| Prepared.id := u "insight_" ++ key;
                Prepared.source := u "market_insights";
                Prepared.type_ := key;
                Prepared.content := JStr (py_str value);
                Prepared.title := None;
                Prepared.original_data := value |})
          insights
  | _ => []
  end.

(** The items of the section [web_research]. *)
Definition web_items (data : PyDict.t) : list Prepared.t :=
  match PyDict.lookup data (u "web_research") with
  | Some (JDict web_data) =>
      flat_map
        (fun entry : pystr * json =>
           let (source, content) := entry in
           if json_truthy content then
             [ {| Prepared.id := u "web_" ++ source;
                  Prepared.source := u "web_research";
                  Prepared.type_ := u "web_content";
                  Prepared.content := JStr (py_str content);
                  Prepared.title := Some (JStr source);
                  Prepared.original_data := content |} ]
           else [])
        web_data
  | _ => []
  end.

Definition _prepare_data_for_analysis (data : PyDict.t) : list Prepared.t :=
  let items := [] in
  let items := items ++ analysis_items data in
  let items := items ++ content_items data in
  let items := items ++ competitor_items data in
  let items := items ++ insight_items data in
  let items := items ++ web_items data in
  items.

(** *** [_create_empty_result] and [_create_error_result] *)

Definition no_statistics (error_items : nat) : Statistics.t R :=
  {| Statistics.total_items_analyzed := 0;
     Statistics.items_approved := 0;
     Statistics.items_rejected := 0;
     Statistics.items_with_errors := error_items;
     Statistics.approval_rate := of_int 0;
     Statistics.average_confidence := lit 0.0 |}.

Definition no_summary : Summary.t :=
  {| Summary.high_confidence_items := 0;
     Summary.medium_confidence_items := 0;
     Summary.low_confidence_items := 0 |}.

Definition no_data_note : pystr := u "⚠️ Nenhum dado encontrado para verificação. Execute as etapas anteriores primeiro.".

Definition system_error_note : pystr := u "❌ Erro no sistema de verificação. Contate o suporte técnico.".

Definition _create_empty_result : ServiceResult.t R :=
  {| ServiceResult.report :=
       {| Report.statistics := no_statistics 0;
          Report.main_issues := [];
          Report.recommendations := [no_data_note];
          Report.detailed_results := [];
          Report.overall_status := u "no_data";
          Report.quality_score := lit 0.0;
          Report.verification_summary := no_summary |};
     ServiceResult.error := None |}.

Definition _create_error_result (error_message : pystr) : ServiceResult.t R :=
  {| ServiceResult.report :=
       {| Report.statistics := no_statistics 1;
          Report.main_issues :=
            [ {| Issue.item_id := None;
                 Issue.issue_type := u "system_error";
                 Issue.reason := error_message;
                 Issue.confidence := None;
                 Issue.details := None |} ];
          Report.recommendations := [system_error_note];
          Report.detailed_results := [];
          Report.overall_status := u "error";
          Report.quality_score := lit 0.0;
          Report.verification_summary := no_summary |};
     ServiceResult.error := Some error_message |}.

(** *** [process_session_data] *)

(** The update of [session_stats] after one item. *)
Definition count_item (stats : SessionStats.t) (result : Analysis.t R)
  : SessionStats.t :=
  let status := get (Review.status (review_of result)) (u "error") in
  let stats :=
    if streq status (u "approved") then
      {| SessionStats.items_processed := SessionStats.items_processed stats;
         SessionStats.items_approved := S (SessionStats.items_approved stats);
         SessionStats.items_rejected := SessionStats.items_rejected stats |}
    else if streq status (u "rejected") then
      {| SessionStats.items_processed := SessionStats.items_processed stats;
         SessionStats.items_approved := SessionStats.items_approved stats;
         SessionStats.items_rejected := S (SessionStats.items_rejected stats) |}
    else stats in
  {| SessionStats.items_processed := S (SessionStats.items_processed stats);
     SessionStats.items_approved := SessionStats.items_approved stats;
     SessionStats.items_rejected := SessionStats.items_rejected stats |}.

(** The loop over [items_to_analyze]; the counters keep what was counted
    before a call of the agent raises. *)
Fixpoint process_items (items : list Prepared.t) (data_to_verify : PyDict.t)
         (verification_results : list (Analysis.t R)) (stats : SessionStats.t)
  : outcome (list (Analysis.t R)) * SessionStats.t :=
  match items with
  | [] => (Ok verification_results, stats)
  | item :: rest =>
      match process_item item data_to_verify with
      | Ok result =>
          process_items rest data_to_verify (verification_results ++ [result])
                        (count_item stats result)
      | Raise e => (Raise e, stats)
      end
  end.

Definition process_session_data (data_to_verify : PyDict.t)
           (stats : SessionStats.t) : ServiceResult.t R * SessionStats.t :=
  let items_to_analyze := _prepare_data_for_analysis data_to_verify in
  match items_to_analyze with
  | [] => (_create_empty_result, stats)
  | _ :: _ =>
      let (verification_results, stats) :=
        process_items items_to_analyze data_to_verify [] stats in
      (try_except
         (verification_results <- verification_results ;;
          Ok {| ServiceResult.report :=
                  _compile_verification_result verification_results;
                ServiceResult.error := None |})
         _create_error_result,
       stats)
  end.

(** The counters after the results of a run have been counted. *)
Definition counted (stats : SessionStats.t) (results : list (Analysis.t R))
  : SessionStats.t :=
  {| SessionStats.items_processed :=
       SessionStats.items_processed stats + len results;
     SessionStats.items_approved :=
       SessionStats.items_approved stats
       + count_where (has_status (u "approved")) results;
     SessionStats.items_rejected :=
       SessionStats.items_rejected stats
       + count_where (has_status (u "rejected")) results |}.

End Service.
End Service.

(* ================================================================= *)
(** ** The loader of the verification route *)

Module Routes.

Definition data_sources : list (pystr * pystr) :=
  [ (u "modules", u "modules"); (u "reports", u "reports");
    (u "raw_data", u "raw_data") ].

(** One turn of the loop over [data_sources]. *)
Definition load_source (found : pystr -> option PyDict.t)
           (session_data : PyDict.t) (source : pystr * pystr) : PyDict.t :=
  let (source_dir, key) := source in
  match found source_dir with
  | Some source_data =>
      match source_data with
      | [] => session_data
      | _ :: _ => PyDict.set session_data key (JDict source_data)
      end
  | None => session_data
  end.

(** [_load_session_data], from the point where the session directory
    exists: [session_found] is false when neither the directory nor the
    stored session could be found, and [found dir] is the content of the
    JSON files of a source directory that could be read, by file name
    without its extension ([None] for a missing directory). *)
Definition _load_session_data (session_found : bool)
           (found : pystr -> option PyDict.t) : option PyDict.t :=
  if negb session_found then None
  else
    let session_data := fold_left (load_source found) data_sources [] in
    match session_data with
    | [] => None
    | _ :: _ => Some session_data
    end.

End Routes.

(* ================================================================= *)
(** ** [_process_synthesis_result] *)

Module Synthesis.

(** [hay.find(needle)] from position [i] on, as an index of the whole
    string. *)
Fixpoint find_from (needle hay : pystr) (i : nat) : option nat :=
  if startswith hay needle then Some i
  else match hay with
       | [] => None
       | _ :: rest => find_from needle rest (S i)
       end.

(** [hay.find(needle)] *)
Definition find (needle hay : pystr) : Z :=
  match find_from needle hay 0 with
  | Some i => Z.of_nat i
  | None => (-1)%Z
  end.

(** The last position at which [needle] occurs, from position [i] on. *)
Fixpoint rfind_from (needle hay : pystr) (i : nat) : option nat :=
  let later := match hay with
               | [] => None
               | _ :: rest => rfind_from needle rest (S i)
               end in
  match later with
  | Some j => Some j
  | None => if startswith hay needle then Some i else None
  end.

(** [hay.rfind(needle)] *)
Definition rfind (needle hay : pystr) : Z :=
  match rfind_from needle hay 0 with
  | Some i => Z.of_nat i
  | None => (-1)%Z
  end.

(** The position a slice bound denotes in a string of length [n]. *)
Definition slice_bound (n : nat) (i : Z) : nat :=
  if (i <? 0)%Z then Z.to_nat (Z.max (Z.of_nat n + i) 0)
  else Nat.min (Z.to_nat i) n.

(** [s[start:stop]] *)
Definition slice (s : pystr) (start stop : Z) : pystr :=
  let a := slice_bound (len s) start in
  let b := slice_bound (len s) stop in
  firstn (b - a) (skipn a s).

Definition opening_fence : pystr := u "```json".

Definition fence : pystr := u "```".

Section Synthesis.

(** [json.loads], the message of the [TypeError] an item assignment
    raises on a value that is not a dict, and the clock reading. *)
Variable json_loads : pystr -> outcome json.
Variable item_assignment_error : json -> pystr.
Variable generated_at : pystr.

Definition metadata_sintese : json :=
  JDict [ (u "generated_at", JStr generated_at);
          (u "engine", JStr (u "Enhanced Synthesis Engine v3.0 with AI Verifier"));
          (u "verified", JBool true) ].

Definition fallback_result (synthesis_result : pystr) : json :=
  JDict [ (u "raw_synthesis", JStr synthesis_result);
          (u "fallback_mode", JBool true) ].

Definition error_result (synthesis_result e : pystr) : json :=
  JDict [ (u "error", JStr e); (u "raw_synthesis", JStr synthesis_result) ].

(** The text between the fences. *)
Definition fenced_text (synthesis_result : pystr) : pystr :=
  let start := (find opening_fence synthesis_result + 7)%Z in
  let end_ := rfind fence synthesis_result in
  strip (slice synthesis_result start end_).

Definition _process_synthesis_result (synthesis_result : pystr) : json :=
  try_except
    (if contains opening_fence synthesis_result then
       let json_text := fenced_text synthesis_result in
       parsed_data <- json_loads json_text ;;
       match parsed_data with
       | JDict entries =>
           Ok (JDict (PyDict.set entries (u "metadata_sintese")
                                 metadata_sintese))
       | _ => Raise (item_assignment_error parsed_data)
       end
     else
       Ok (try_except (json_loads synthesis_result)
                      (fun _ => fallback_result synthesis_result)))
    (error_result synthesis_result).

End Synthesis.

(** A parser that knows the empty text and one object only. *)
Definition sample_loads (text : pystr) : outcome json :=
  if streq text (u "{}") then Ok (JDict [])
  else Raise (u "Expecting value: line 1 column 1 (char 0)").

(** A parser that knows one array only. *)
Definition sample_loads_array (text : pystr) : outcome json :=
  if streq text (u "[]") then Ok (JList [])
  else Raise (u "Expecting value: line 1 column 1 (char 0)").

(** [isinstance(value, dict)]: the values an item assignment accepts. *)
Definition is_object (value : json) : bool :=
  match value with
  | JDict _ => true
  | _ => false
  end.

End Synthesis.

(* ================================================================= *)
(** ** Facts about strings *)

Unset Implicit Arguments.

Lemma lstrip_idempotent (s : pystr) : lstrip (lstrip s) = lstrip s.
Proof.
  induction s as [|c r IH]; simpl; [reflexivity|].
  destruct (isspace c) eqn:Hc; [exact IH|].
  simpl. rewrite Hc. reflexivity.
Qed.

Lemma lstrip_snoc (l : pystr) (c : N) :
  isspace c = false -> lstrip (l ++ [c]) = lstrip l ++ [c].
Proof.
  intros Hc. induction l as [|d r IH]; simpl.
  - rewrite Hc. reflexivity.
  - destruct (isspace d); [exact IH | reflexivity].
Qed.

Lemma rstrip_cons (c : N) (r : pystr) :
  isspace c = false -> rstrip (c :: r) = c :: rstrip r.
Proof.
  intros Hc. unfold rstrip. simpl.
  rewrite lstrip_snoc by assumption.
  rewrite rev_app_distr. reflexivity.
Qed.

Lemma rstrip_idempotent (s : pystr) : rstrip (rstrip s) = rstrip s.
Proof.
  unfold rstrip. rewrite rev_involutive, lstrip_idempotent. reflexivity.
Qed.

Lemma lstrip_rstrip_lstrip (s : pystr) :
  lstrip (rstrip (lstrip s)) = rstrip (lstrip s).
Proof.
  induction s as [|c r IH]; [reflexivity|].
  simpl. destruct (isspace c) eqn:Hc; [exact IH|].
  rewrite rstrip_cons by assumption. simpl. rewrite Hc. reflexivity.
Qed.

Lemma strip_idempotent (s : pystr) : strip (strip s) = strip s.
Proof.
  unfold strip. rewrite lstrip_rstrip_lstrip. apply rstrip_idempotent.
Qed.

(** *** Stripping a concatenation *)

Lemma lstrip_blank_iff (x : pystr) : lstrip x = [] <-> forallb isspace x = true.
Proof.
  induction x as [|c r IH]; simpl; [tauto|].
  destruct (isspace c); simpl; [exact IH|]. split; discriminate.
Qed.

Lemma blank_rev (x : pystr) : forallb isspace (rev x) = forallb isspace x.
Proof.
  induction x as [|c r IH]; [reflexivity|].
  simpl. rewrite forallb_app, IH. simpl.
  destruct (isspace c), (forallb isspace r); reflexivity.
Qed.

Lemma lstrip_app_blank (x y : pystr) :
  lstrip x = [] -> lstrip (x ++ y) = lstrip y.
Proof.
  induction x as [|c r IH]; simpl; [reflexivity|].
  destruct (isspace c); [exact IH | discriminate].
Qed.

Lemma lstrip_app_nonblank (x y : pystr) :
  lstrip x <> [] -> lstrip (x ++ y) = lstrip x ++ y.
Proof.
  induction x as [|c r IH]; simpl; [congruence|].
  destruct (isspace c); [exact IH | reflexivity].
Qed.

Lemma rstrip_app_blank (x y : pystr) :
  lstrip y = [] -> rstrip (x ++ y) = rstrip x.
Proof.
  intros Hy. unfold rstrip. rewrite rev_app_distr.
  rewrite lstrip_app_blank; [reflexivity|].
  apply lstrip_blank_iff. rewrite blank_rev. apply lstrip_blank_iff. exact Hy.
Qed.

Lemma rstrip_app_nonblank (x y : pystr) :
  lstrip y <> [] -> rstrip (x ++ y) = x ++ rstrip y.
Proof.
  intros Hy. unfold rstrip. rewrite rev_app_distr.
  rewrite lstrip_app_nonblank.
  - rewrite rev_app_distr, rev_involutive. reflexivity.
  - intros Hblank. apply Hy.
    apply lstrip_blank_iff. rewrite <- blank_rev. apply lstrip_blank_iff.
    exact Hblank.
Qed.

Lemma lstrip_length (x : pystr) : (len (lstrip x) <= len x)%nat.
Proof.
  unfold len. induction x as [|c r IH]; simpl; [lia|].
  destruct (isspace c); simpl; lia.
Qed.

Lemma rstrip_length (x : pystr) : (len (rstrip x) <= len x)%nat.
Proof.
  unfold rstrip. pose proof (lstrip_length (rev x)) as Hle.
  unfold len in *. rewrite length_rev in *. exact Hle.
Qed.

Lemma strip_length (x : pystr) : (len (strip x) <= len x)%nat.
Proof.
  unfold strip. pose proof (rstrip_length (lstrip x)).
  pose proof (lstrip_length x). lia.
Qed.

Lemma strip_blank_iff (x : pystr) : strip x = [] <-> lstrip x = [].
Proof.
  unfold strip. split.
  - destruct (lstrip x) as [|c r] eqn:Hx; [reflexivity|].
    assert (Hc : isspace c = false).
    { destruct x as [|d q]; [discriminate|].
      clear -Hx. revert c r Hx.
      induction (d :: q) as [|e t IH]; intros c r Hx; [discriminate|].
      simpl in Hx. destruct (isspace e) eqn:He; [eapply IH; eassumption|].
      injection Hx as <- _. exact He. }
    rewrite rstrip_cons by exact Hc. discriminate.
  - intros ->. reflexivity.
Qed.

Lemma rstrip_grows (x y : pystr) : (len (rstrip x) <= len (rstrip (x ++ y)))%nat.
Proof.
  destruct (lstrip y) as [|c r] eqn:Hy.
  - rewrite rstrip_app_blank by exact Hy. lia.
  - rewrite rstrip_app_nonblank by congruence.
    pose proof (rstrip_length x). unfold len in *. rewrite length_app. lia.
Qed.

Lemma lstrip_is_suffix (x : pystr) : exists pre, x = pre ++ lstrip x.
Proof.
  induction x as [|c r [pre IH]]; [exists []; reflexivity|].
  simpl. destruct (isspace c).
  - exists (c :: pre). simpl. rewrite <- IH. reflexivity.
  - exists []. reflexivity.
Qed.

Lemma strip_within_rstrip (x : pystr) : (len (strip x) <= len (rstrip x))%nat.
Proof.
  destruct (lstrip x) as [|c r] eqn:Hx.
  - unfold strip. rewrite Hx. unfold len. simpl. lia.
  - destruct (lstrip_is_suffix x) as [pre Hpre].
    rewrite Hpre at 2. rewrite rstrip_app_nonblank.
    + unfold strip, len. rewrite length_app. lia.
    + rewrite lstrip_idempotent. congruence.
Qed.

(** *** Joining trimmed values *)

Lemma join_cons (sep p : pystr) (ps : list pystr) :
  join sep (p :: ps)
  = match ps with [] => p | _ :: _ => p ++ sep ++ join sep ps end.
Proof. destruct ps; reflexivity. Qed.

Lemma join_of_nonempty_parts (sep k : pystr) (ks : list pystr) :
  truthy k = true -> (1 <= len (join sep (k :: ks)))%nat.
Proof.
  intros Hk. rewrite join_cons. destruct k as [|c r]; [discriminate|].
  destruct ks; unfold len; simpl; lia.
Qed.

(** The trimmed non-blank values, joined, are no longer than the trimmed
    join of the values. *)
Lemma trimmed_parts_within_trimmed_join (vs : list pystr) :
  (len (join [32%N] (filter truthy (map strip vs)))
   <= len (strip (join [32%N] vs)))%nat.
Proof.
  induction vs as [|v vs' IH]; [reflexivity|].
  rewrite (join_cons [32%N] v vs').
  destruct vs' as [|w ws].
  { cbn [map filter]. destruct (truthy (strip v)) eqn:Hv.
    - cbn [join]. lia.
    - unfold len. simpl. lia. }
  set (J' := join [32%N] (w :: ws)) in *.
  set (K' := filter truthy (map strip (w :: ws))) in *.
  change (filter truthy (map strip (v :: w :: ws)))
    with (if truthy (strip v) then strip v :: K' else K').
  destruct (truthy (strip v)) eqn:Hv.
  - assert (Hnonblank : lstrip v <> []).
    { intros Hblank. apply strip_blank_iff in Hblank.
      rewrite Hblank in Hv. discriminate. }
    unfold strip at 2. rewrite lstrip_app_nonblank by exact Hnonblank.
    destruct K' as [|k ks] eqn:HK.
    + cbn [join]. apply rstrip_grows.
    + assert (Hk : truthy k = true).
      { assert (Hin : In k K') by (rewrite HK; left; reflexivity).
        apply filter_In in Hin. tauto. }
      pose proof (join_of_nonempty_parts [32%N] k ks Hk) as Hone.
      assert (HJ' : lstrip J' <> []).
      { intros Hblank. apply strip_blank_iff in Hblank.
        rewrite Hblank in IH. unfold len in IH, Hone.
        change (List.length (@nil N)) with 0%nat in IH. lia. }
      rewrite (join_cons [32%N] (strip v) (k :: ks)).
      rewrite rstrip_app_nonblank by (simpl; exact HJ').
      rewrite (rstrip_app_nonblank [32%N] J' HJ').
      pose proof (strip_within_rstrip J') as HsJ.
      pose proof (rstrip_length (lstrip v)) as Hsv.
      unfold strip at 1. unfold len in *.
      rewrite !length_app.
      change (List.length [32%N]) with 1%nat. lia.
  - assert (Hblank : lstrip v = []).
    { apply strip_blank_iff. destruct (strip v); [reflexivity | discriminate]. }
    unfold strip at 1. rewrite lstrip_app_blank by exact Hblank.
    exact IH.
Qed.

Lemma streq_true_iff (a b : pystr) : streq a b = true <-> a = b.
Proof.
  unfold streq. destruct (list_eq_dec N.eq_dec a b); split; congruence.
Qed.

(* ================================================================= *)
(** ** The course of [verify_content_item] *)

Section Course.
Context {R : Type} `{PyFloat R}.
Local Open Scope py_scope.

Variable self : engine R.
Variable stats : verification_stats.
Variable item_data : Item.t.
Variable massive_data : option payload.

(** The extracted text is already stripped, so the length test of
    [verify_content_item] is a test on the extracted text itself. *)
Lemma extracted_text_is_stripped :
  strip (_extract_text_content item_data) = _extract_text_content item_data.
Proof. unfold _extract_text_content. apply strip_idempotent. Qed.

Lemma length_test :
  negb (truthy (_extract_text_content item_data))
  || (len (strip (_extract_text_content item_data)) <? 5)%nat
  = (len (_extract_text_content item_data) <? 5)%nat.
Proof.
  rewrite extracted_text_is_stripped.
  destruct (_extract_text_content item_data); reflexivity.
Qed.

(** The Decision attached to the assembled analysis. *)
Lemma verify_unfold :
  verify_content_item self stats item_data massive_data
  = if (len (_extract_text_content item_data) <? 5)%nat
    then (_create_insufficient_content_result item_data, stats)
    else
      try_except
        (signals <- extract_signals self item_data massive_data ;;
         let a := assemble stats item_data (fst (fst signals))
                           (snd (fst signals)) (snd signals) in
         rule_result <- rule_engine self a ;;
         let d := _make_final_decision self a rule_result in
         Ok ({| Analysis.item_id := Analysis.item_id a;
                Analysis.original_item := Analysis.original_item a;
                Analysis.sentiment_analysis := Analysis.sentiment_analysis a;
                Analysis.bias_disinformation_analysis :=
                  Analysis.bias_disinformation_analysis a;
                Analysis.contextual_analysis := Analysis.contextual_analysis a;
                Analysis.llm_reasoning_analysis :=
                  Analysis.llm_reasoning_analysis a;
                Analysis.ai_review := Some d |},
             _update_verification_stats stats (Review.status d)))
        (fun e => (_create_error_result item_data e, stats)).
Proof.
  unfold verify_content_item. rewrite length_test.
  destruct (len (_extract_text_content item_data) <? 5)%nat; [reflexivity|].
  unfold extract_signals.
  destruct (sentiment_analyzer self (_extract_text_content item_data));
    [|reflexivity].
  destruct (bias_detector self (_extract_text_content item_data));
    [|reflexivity].
  destruct (contextual_analyzer self item_data massive_data); reflexivity.
Qed.

Lemma verify_insufficient :
  (len (_extract_text_content item_data) < 5)%nat ->
  verify_content_item self stats item_data massive_data
  = (_create_insufficient_content_result item_data, stats).
Proof.
  intros Hlen. rewrite verify_unfold.
  apply Nat.ltb_lt in Hlen. rewrite Hlen. reflexivity.
Qed.

Lemma verify_raises (e : pystr) :
  (5 <= len (_extract_text_content item_data))%nat ->
  extract_signals self item_data massive_data = Raise e ->
  verify_content_item self stats item_data massive_data
  = (_create_error_result item_data e, stats).
Proof.
  intros Hlen Hsig. rewrite verify_unfold.
  apply Nat.ltb_ge in Hlen. rewrite Hlen, Hsig. reflexivity.
Qed.

Lemma verify_rule_engine_raises (s : Sentiment.t R) (b : Bias.t R)
      (c : Contextual.t R) (e : pystr) :
  (5 <= len (_extract_text_content item_data))%nat ->
  extract_signals self item_data massive_data = Ok (s, b, c) ->
  rule_engine self (assemble stats item_data s b c) = Raise e ->
  verify_content_item self stats item_data massive_data
  = (_create_error_result item_data e, stats).
Proof.
  intros Hlen Hsig Hrule. rewrite verify_unfold.
  apply Nat.ltb_ge in Hlen. rewrite Hlen, Hsig.
  unfold bind at 1. cbv zeta. unfold fst, snd.
  rewrite Hrule. reflexivity.
Qed.

Lemma decision_of_signals (s : Sentiment.t R) (b : Bias.t R)
      (c : Contextual.t R) (rule_result : RuleResult.t) :
  (5 <= len (_extract_text_content item_data))%nat ->
  extract_signals self item_data massive_data = Ok (s, b, c) ->
  rule_engine self (assemble stats item_data s b c) = Ok rule_result ->
  decision self stats item_data massive_data
  = _make_final_decision self (assemble stats item_data s b c) rule_result.
Proof.
  intros Hlen Hsig Hrule. unfold decision. rewrite verify_unfold.
  apply Nat.ltb_ge in Hlen. rewrite Hlen, Hsig.
  unfold bind at 1. cbv zeta. unfold fst, snd.
  rewrite Hrule. reflexivity.
Qed.

End Course.

(* ================================================================= *)
(** ** The extracted text and the normalized text of the specification *)

Lemma collect_field_appends (item_data : Item.t) (text_parts : list pystr)
      (f : Field.t) :
  collect_field item_data text_parts f
  = text_parts
      ++ filter truthy
           (map strip
                match Item.lookup item_data f with
                | Some value => if truthy value then [value] else []
                | None => []
                end).
Proof.
  unfold collect_field.
  destruct (Item.lookup item_data f) as [value|];
    [|rewrite app_nil_r; reflexivity].
  destruct (truthy value); [|rewrite app_nil_r; reflexivity].
  cbn [map filter]. destruct (truthy (strip value));
    [reflexivity | rewrite app_nil_r; reflexivity].
Qed.

Lemma text_parts_loop (item_data : Item.t) (fields : list Field.t)
      (text_parts : list pystr) :
  fold_left (collect_field item_data) fields text_parts
  = text_parts
      ++ filter truthy
           (map strip
                (flat_map
                   (fun f => match Item.lookup item_data f with
                             | Some value => if truthy value then [value] else []
                             | None => []
                             end)
                   fields)).
Proof.
  revert text_parts. induction fields as [|f rest IH]; intros text_parts.
  - cbn. rewrite app_nil_r. reflexivity.
  - cbn [fold_left flat_map].
    rewrite IH, collect_field_appends, map_app, filter_app, app_assoc.
    reflexivity.
Qed.

(** The text the code extracts is never longer than the normalized text
    of the specification read word for word: an item that is short in the
    sense of the specification is short for the code. *)
Lemma extracted_text_within_normalized_text (item_data : Item.t) :
  (len (_extract_text_content item_data) <= len (normalized_text item_data))%nat.
Proof.
  unfold _extract_text_content, normalized_text, present_values.
  rewrite text_parts_loop. cbn [app].
  change (u " ") with [32%N].
  eapply Nat.le_trans; [apply strip_length|].
  apply trimmed_parts_within_trimmed_join.
Qed.

(* ================================================================= *)
(** ** Decisions of the basic rule engine *)

Section BasicRules.
Context {R : Type} `{PyFloat R}.
Local Open Scope py_scope.

(** With the basic rule engine the Decision is the rule result, together
    with the composite confidence and its three terms. *)
Lemma basic_decision (self : engine R) (rules : list Config.rule)
      (stats : verification_stats) (item_data : Item.t)
      (s : Sentiment.t R) (b : Bias.t R) (c : Contextual.t R) :
  let a := assemble stats item_data s b c in
  _make_final_decision self a (apply_rules rules a)
  = {| Review.status :=
         Some (if rule_risk b >=? lit 0.7 then u "rejected" else u "approved");
       Review.reason :=
         Some (if rule_risk b >=? lit 0.7
               then u "Alto risco de viés/desinformação"
               else u "Análise padrão aprovada");
       Review.final_confidence :=
         Some (pysum [sentiment_term s; bias_term b; contextual_term c]);
       Review.confidence_breakdown :=
         Some {| Review.sentiment_contribution := sentiment_term s;
                 Review.bias_contribution := bias_term b;
                 Review.contextual_contribution := contextual_term c |};
       Review.insufficient_content := false;
       Review.error := false |}.
Proof.
  unfold _make_final_decision, apply_rules, assemble, rule_risk. cbn [Analysis.bias_disinformation_analysis Analysis.sentiment_analysis Analysis.contextual_analysis get].
  destruct (leb (lit 0.7) (get (Bias.overall_risk b) (lit 0.0))); reflexivity.
Qed.

Lemma basic_decision_of_item (self : engine R) (rules : list Config.rule)
      (stats : verification_stats) (item_data : Item.t)
      (massive_data : option payload)
      (s : Sentiment.t R) (b : Bias.t R) (c : Contextual.t R) :
  rule_engine self = basic_rule_engine rules ->
  (5 <= len (_extract_text_content item_data))%nat ->
  extract_signals self item_data massive_data = Ok (s, b, c) ->
  decision self stats item_data massive_data
  = _make_final_decision self (assemble stats item_data s b c)
      (apply_rules rules (assemble stats item_data s b c)).
Proof.
  intros Hrules Hlen Hsig.
  apply decision_of_signals; [assumption | assumption |].
  rewrite Hrules. reflexivity.
Qed.

End BasicRules.

(* ================================================================= *)
(** ** Claims about the per-item decision *)

Local Open Scope py_scope.

(** C6.  An item whose normalized text (the non-empty values of
    [content], [text], [description], [title], [summary], joined by a
    space and trimmed) has fewer than 5 characters, and more generally
    every item whose extracted text has fewer than 5 characters, is
    rejected with the reason "Conteúdo textual insuficiente" and a final
    confidence of 0; the result is the same for every engine, so no
    extractor takes part; in the batch statistics the result adds one
    rejection and no error. *)
Theorem insufficient_content_short_circuit
        {R : Type} `{PyFloat R} (self : engine R) (stats : verification_stats)
        (item_data : Item.t) (massive_data : option payload) :
  (len (normalized_text item_data) < 5)%nat
  \/ (len (_extract_text_content item_data) < 5)%nat ->
  let result := fst (verify_content_item self stats item_data massive_data) in
  let d := decision self stats item_data massive_data in
  Review.status d = Some (u "rejected")
  /\ Review.reason d = Some (u "Conteúdo textual insuficiente")
  /\ Review.final_confidence d = Some (lit 0.0)
  /\ Review.insufficient_content d = true
  /\ Review.error d = false
  /\ snd (verify_content_item self stats item_data massive_data) = stats
  /\ (forall (other : engine R) (stats' : verification_stats)
             (massive_data' : option payload),
         fst (verify_content_item other stats' item_data massive_data')
         = result)
  /\ (forall results : list (Analysis.t R),
         Statistics.items_rejected (statistics (result :: results))
         = S (Statistics.items_rejected (statistics results))
         /\ Statistics.items_with_errors (statistics (result :: results))
            = Statistics.items_with_errors (statistics results)
         /\ Statistics.items_approved (statistics (result :: results))
            = Statistics.items_approved (statistics results)).
Proof.
  intros Hshort result d.
  assert (Hlen : (len (_extract_text_content item_data) < 5)%nat).
  { destruct Hshort as [Hspec|Hcode]; [|exact Hcode].
    pose proof (extracted_text_within_normalized_text item_data). lia. }
  subst result d. unfold decision.
  rewrite (verify_insufficient self stats item_data massive_data Hlen).
  repeat split.
  intros other stats' massive_data'.
  rewrite (verify_insufficient other stats' item_data massive_data' Hlen).
  reflexivity.
Qed.

Lemma insufficient_content_short_circuit_witness :
  (len (normalized_text Samples.short) < 5)%nat
  /\ Review.reason
       (decision (R:=Q) (EnhancedSynthesisEngine _load_verifier_config)
                 Samples.no_stats Samples.short None)
     = Some (u "Conteúdo textual insuficiente").
Proof.
  assert (Hlen : (len (normalized_text Samples.short) < 5)%nat)
    by (vm_compute; lia).
  split; [exact Hlen|].
  exact (proj1 (proj2 (insufficient_content_short_circuit
                         (EnhancedSynthesisEngine _load_verifier_config)
                         Samples.no_stats Samples.short None
                         (or_introl Hlen)))).
Defined.

(** C3.  When the text has at least 5 characters, the extractors return
    and the bias analysis reports an overall risk of at least 0.7 (read as
    [apply_rules] reads it), the basic rule engine makes the Decision rejected with the reason "Alto
    risco de viés/desinformação", whatever the sentiment and contextual
    results (hence whatever the composite confidence). *)
Theorem high_risk_is_rejected
        {R : Type} `{PyFloat R} (self : engine R) (rules : list Config.rule)
        (stats : verification_stats) (item_data : Item.t)
        (massive_data : option payload)
        (s : Sentiment.t R) (b : Bias.t R) (c : Contextual.t R) :
  rule_engine self = basic_rule_engine rules ->
  (5 <= len (_extract_text_content item_data))%nat ->
  extract_signals self item_data massive_data = Ok (s, b, c) ->
  rule_risk b >= lit 0.7 ->
  Review.status (decision self stats item_data massive_data)
  = Some (u "rejected")
  /\ Review.reason (decision self stats item_data massive_data)
     = Some (u "Alto risco de viés/desinformação").
Proof.
  intros Hrules Hlen Hsig Hge.
  rewrite (basic_decision_of_item self rules stats item_data
             massive_data s b c Hrules Hlen Hsig).
  rewrite basic_decision. cbn [Review.status Review.reason].
  rewrite Hge. split; reflexivity.
Qed.

Lemma high_risk_is_rejected_witness :
  (5 <= len (_extract_text_content Samples.risky))%nat
  /\ rule_risk (detect_bias_disinformation (R:=Q) Samples.strict_config
                  (_extract_text_content Samples.risky)) >= lit 0.7
  /\ Review.status
       (decision (R:=Q) (EnhancedSynthesisEngine Samples.strict_config)
                 Samples.no_stats Samples.risky None)
     = Some (u "rejected")
  /\ Review.reason
       (decision (R:=Q) (EnhancedSynthesisEngine Samples.strict_config)
                 Samples.no_stats Samples.risky None)
     = Some (u "Alto risco de viés/desinformação").
Proof.
  assert (Hlen : (5 <= len (_extract_text_content Samples.risky))%nat)
    by (vm_compute; lia).
  assert (Hrisk : rule_risk (detect_bias_disinformation (R:=Q)
                               Samples.strict_config
                               (_extract_text_content Samples.risky))
                  >= lit 0.7)
    by (vm_compute; reflexivity).
  split; [exact Hlen|]. split; [exact Hrisk|].
  exact (high_risk_is_rejected
           (EnhancedSynthesisEngine (R:=Q) Samples.strict_config)
           (Config.rules (R:=Q) Samples.strict_config)
           Samples.no_stats Samples.risky None
           (analyze_sentiment (_extract_text_content Samples.risky))
           (detect_bias_disinformation Samples.strict_config
              (_extract_text_content Samples.risky))
           (analyze_context Samples.risky None)
           eq_refl Hlen eq_refl Hrisk).
Defined.

(** C4.  When the text has at least 5 characters and the extractors
    return, the status is rejected exactly when the overall risk read by
    the basic rule engine is at least 0.7 and approved otherwise; the rule
    engine always answers approved or rejected, the three reasons of the
    threshold branch never appear, and two evaluations with the same bias
    analysis have the same status whatever their other signals and
    thresholds are. *)
Theorem status_is_decided_by_risk_alone
        {R : Type} `{PyFloat R} (self : engine R) (rules : list Config.rule)
        (stats : verification_stats) (item_data : Item.t)
        (massive_data : option payload)
        (s : Sentiment.t R) (b : Bias.t R) (c : Contextual.t R) :
  rule_engine self = basic_rule_engine rules ->
  (5 <= len (_extract_text_content item_data))%nat ->
  extract_signals self item_data massive_data = Ok (s, b, c) ->
  let d := decision self stats item_data massive_data in
  (Review.status d = Some (u "rejected") <-> rule_risk b >= lit 0.7)
  /\ (Review.status d = Some (u "approved")
      <-> (rule_risk b >=? lit 0.7) = false)
  /\ Review.reason d
     = Some (if rule_risk b >=? lit 0.7
             then u "Alto risco de viés/desinformação"
             else u "Análise padrão aprovada")
  /\ (forall (rules' : list Config.rule) (a : Analysis.t R),
         is_one_of (RuleResult.status (apply_rules rules' a))
                   [u "approved"; u "rejected"] = true)
  /\ Review.reason d <> Some (u "Aprovado com base na análise combinada")
  /\ Review.reason d <> Some (u "Rejeitado com base na análise combinada")
  /\ Review.reason d
     <> Some (u "Rejeitado por ambiguidade - política de segurança")
  /\ (forall (self' : engine R) (rules' : list Config.rule)
             (stats' : verification_stats) (massive_data' : option payload)
             (s' : Sentiment.t R) (c' : Contextual.t R),
         rule_engine self' = basic_rule_engine rules' ->
         extract_signals self' item_data massive_data' = Ok (s', b, c') ->
         Review.status (decision self' stats' item_data massive_data')
         = Review.status d).
Proof.
  intros Hrules Hlen Hsig d. subst d.
  rewrite (basic_decision_of_item self rules stats item_data
             massive_data s b c Hrules Hlen Hsig).
  rewrite basic_decision. cbn [Review.status Review.reason].
  repeat split.
  - destruct (rule_risk b >=? lit 0.7); [reflexivity|].
    intros Heq. vm_compute in Heq. discriminate.
  - intros ->. reflexivity.
  - destruct (rule_risk b >=? lit 0.7); [|reflexivity].
    intros Heq. vm_compute in Heq. discriminate.
  - intros ->. reflexivity.
  - intros rules' a. unfold apply_rules.
    destruct (get (Bias.overall_risk _) (lit 0.0) >=? lit 0.7); reflexivity.
  - destruct (rule_risk b >=? lit 0.7);
      intros Heq; vm_compute in Heq; discriminate.
  - destruct (rule_risk b >=? lit 0.7);
      intros Heq; vm_compute in Heq; discriminate.
  - destruct (rule_risk b >=? lit 0.7);
      intros Heq; vm_compute in Heq; discriminate.
  - intros self' rules' stats' massive_data' s' c' Hrules' Hsig'.
    rewrite (basic_decision_of_item self' rules' stats' item_data
               massive_data' s' b c' Hrules' Hlen Hsig').
    rewrite basic_decision. reflexivity.
Qed.

Lemma status_is_decided_by_risk_alone_witness :
  (5 <= len (_extract_text_content Samples.plain))%nat
  /\ Review.reason
       (decision (R:=Q) (EnhancedSynthesisEngine _load_verifier_config)
                 Samples.no_stats Samples.plain None)
     <> Some (u "Rejeitado por ambiguidade - política de segurança").
Proof.
  assert (Hlen : (5 <= len (_extract_text_content Samples.plain))%nat)
    by (vm_compute; lia).
  split; [exact Hlen|].
  exact (proj1 (proj2 (proj2 (proj2 (proj2 (proj2 (proj2
    (status_is_decided_by_risk_alone
       (EnhancedSynthesisEngine (R:=Q) _load_verifier_config)
       (Config.rules (R:=Q) _load_verifier_config)
       Samples.no_stats Samples.plain None
       (analyze_sentiment (_extract_text_content Samples.plain))
       (detect_bias_disinformation _load_verifier_config
          (_extract_text_content Samples.plain))
       (analyze_context Samples.plain None)
       eq_refl Hlen eq_refl)))))))).
Defined.

(** C1.  The item with content "hello world" has 11 characters of text
    and matches no declared rule (composite confidence 0.69, overall risk
    0); its confidence is neither at least the approval threshold 0.75 nor
    at most the rejection threshold 0.35.  The engine approves it with the
    reason "Análise padrão aprovada", in exact arithmetic and in binary64
    alike, where the threshold evaluation would reject it for ambiguity. *)
Theorem ambiguous_item_is_approved :
  (let result := fst (verify_content_item
                        (EnhancedSynthesisEngine (R:=Q) _load_verifier_config)
                        Samples.no_stats Samples.plain None) in
   let d := review_of result in
   len (_extract_text_content Samples.plain) = 11%nat
   /\ (exists confidence : Q,
          Review.final_confidence d = Some confidence
          /\ (confidence == 0.69)%Q
          /\ spec_first_match (Config.rules (R:=Q) _load_verifier_config)
                              confidence (rule_risk (bias_of result)) = None
          /\ should_approve (Config.thresholds_ _load_verifier_config)
                            confidence = false
          /\ should_reject (Config.thresholds_ _load_verifier_config)
                           confidence = false)
   /\ Review.status d = Some (u "approved")
   /\ Review.reason d = Some (u "Análise padrão aprovada"))
  /\
  (let result := fst (verify_content_item
                        (EnhancedSynthesisEngine (R:=float) _load_verifier_config)
                        Samples.no_stats Samples.plain None) in
   let d := review_of result in
   Review.final_confidence d = Some (lit 0.69)
   /\ spec_first_match (Config.rules (R:=float) _load_verifier_config)
                       (lit 0.69) (rule_risk (bias_of result)) = None
   /\ should_approve (R:=float) (Config.thresholds_ _load_verifier_config)
                     (lit 0.69) = false
   /\ should_reject (R:=float) (Config.thresholds_ _load_verifier_config)
                    (lit 0.69) = false
   /\ Review.status d = Some (u "approved")
   /\ Review.reason d = Some (u "Análise padrão aprovada")).
Proof.
  split.
  - cbv zeta. split; [vm_compute; reflexivity|]. split.
    + eexists. split; [vm_compute; reflexivity|].
      repeat split; vm_compute; reflexivity.
    + split; vm_compute; reflexivity.
  - cbv zeta. repeat split; vm_compute; reflexivity.
Qed.

(* ================================================================= *)
(** ** Confidence aggregation *)

(** On the path that aggregates (the rule result, when it carries a
    status, also carries its reason) the Decision reports the sum of the
    three weighted terms and the terms themselves. *)
Lemma aggregated_decision
      {R : Type} `{PyFloat R} (self : engine R) (a : Analysis.t R)
      (rule_result : RuleResult.t) :
  (is_one_of (RuleResult.status rule_result) [u "approved"; u "rejected"] = true ->
   RuleResult.reason rule_result <> None) ->
  let d := _make_final_decision self a rule_result in
  let s := get (Analysis.sentiment_analysis a) Sentiment.empty in
  let b := get (Analysis.bias_disinformation_analysis a) Bias.empty in
  let c := get (Analysis.contextual_analysis a) Contextual.empty in
  Review.final_confidence d
  = Some (pysum [sentiment_term s; bias_term b; contextual_term c])
  /\ Review.confidence_breakdown d
     = Some {| Review.sentiment_contribution := sentiment_term s;
               Review.bias_contribution := bias_term b;
               Review.contextual_contribution := contextual_term c |}
  /\ Review.error d = false.
Proof.
  intros Hreason. cbv zeta. unfold _make_final_decision.
  destruct (is_one_of (RuleResult.status rule_result)
                      [u "approved"; u "rejected"]).
  - destruct (RuleResult.reason rule_result) as [reason|].
    + repeat split.
    + exfalso. apply Hreason; reflexivity.
  - destruct (should_approve _ _); [repeat split|].
    destruct (should_reject _ _); repeat split.
Qed.

Lemma apply_rules_has_reason
      {R : Type} `{PyFloat R} (rules : list Config.rule) (a : Analysis.t R) :
  RuleResult.reason (apply_rules rules a) <> None.
Proof.
  unfold apply_rules.
  destruct (get (Bias.overall_risk _) (lit 0.0) >=? lit 0.7); discriminate.
Qed.

(** C5.  For an item that reaches the aggregation (at least 5 characters
    of text, the extractors and the rule engine return, and a rule result
    with a status carries its reason), the final confidence is
    [sentiment.confidence * 0.2 + (1 - bias.overall_risk) * 0.3 +
    contextual.contextual_confidence * 0.5], summed from left to right as
    [sum] does from its initial 0, with 0.5 for an absent signal value; the
    recorded breakdown holds these three terms and their sum is the final
    confidence. *)
Theorem final_confidence_is_weighted_sum
        {R : Type} `{PyFloat R} (self : engine R) (stats : verification_stats)
        (item_data : Item.t) (massive_data : option payload)
        (s : Sentiment.t R) (b : Bias.t R) (c : Contextual.t R)
        (rule_result : RuleResult.t) :
  (5 <= len (_extract_text_content item_data))%nat ->
  extract_signals self item_data massive_data = Ok (s, b, c) ->
  rule_engine self (assemble stats item_data s b c) = Ok rule_result ->
  (is_one_of (RuleResult.status rule_result) [u "approved"; u "rejected"] = true ->
   RuleResult.reason rule_result <> None) ->
  let d := decision self stats item_data massive_data in
  Review.final_confidence d
  = Some (of_int 0
          + get (Sentiment.confidence s) (lit 0.5) * lit 0.2
          + (lit 1.0 - get (Bias.overall_risk b) (lit 0.5)) * lit 0.3
          + get (Contextual.contextual_confidence c) (lit 0.5) * lit 0.5)
  /\ exists terms : Review.breakdown R,
       Review.confidence_breakdown d = Some terms
       /\ Review.sentiment_contribution terms
          = get (Sentiment.confidence s) (lit 0.5) * lit 0.2
       /\ Review.bias_contribution terms
          = (lit 1.0 - get (Bias.overall_risk b) (lit 0.5)) * lit 0.3
       /\ Review.contextual_contribution terms
          = get (Contextual.contextual_confidence c) (lit 0.5) * lit 0.5
       /\ Review.final_confidence d
          = Some (pysum [Review.sentiment_contribution terms;
                         Review.bias_contribution terms;
                         Review.contextual_contribution terms]).
Proof.
  intros Hlen Hsig Hrule Hreason d. subst d.
  rewrite (decision_of_signals self stats item_data massive_data s b c
             rule_result Hlen Hsig Hrule).
  destruct (aggregated_decision self (assemble stats item_data s b c)
              rule_result Hreason) as (Hfinal & Hterms & _).
  cbn [assemble Analysis.sentiment_analysis
       Analysis.bias_disinformation_analysis Analysis.contextual_analysis get]
    in Hfinal, Hterms.
  split; [exact Hfinal|].
  eexists. split; [exact Hterms|].
  repeat split. exact Hfinal.
Qed.

Lemma final_confidence_is_weighted_sum_witness :
  (5 <= len (_extract_text_content Samples.plain))%nat
  /\ exists terms : Review.breakdown float,
       Review.confidence_breakdown
         (decision (EnhancedSynthesisEngine _load_verifier_config)
                   Samples.no_stats Samples.plain None) = Some terms
       /\ Review.final_confidence
            (decision (EnhancedSynthesisEngine _load_verifier_config)
                      Samples.no_stats Samples.plain None)
          = Some (pysum [Review.sentiment_contribution terms;
                         Review.bias_contribution terms;
                         Review.contextual_contribution terms]).
Proof.
  assert (Hlen : (5 <= len (_extract_text_content Samples.plain))%nat)
    by (vm_compute; lia).
  split; [exact Hlen|].
  destruct (final_confidence_is_weighted_sum
              (EnhancedSynthesisEngine (R:=float) _load_verifier_config)
              Samples.no_stats Samples.plain None
              (analyze_sentiment (_extract_text_content Samples.plain))
              (detect_bias_disinformation _load_verifier_config
                 (_extract_text_content Samples.plain))
              (analyze_context Samples.plain None)
              (apply_rules (Config.rules (R:=float) _load_verifier_config)
                 (assemble Samples.no_stats Samples.plain
                    (analyze_sentiment (_extract_text_content Samples.plain))
                    (detect_bias_disinformation _load_verifier_config
                       (_extract_text_content Samples.plain))
                    (analyze_context Samples.plain None)))
              Hlen eq_refl eq_refl
              (fun _ => apply_rules_has_reason _ _))
    as (_ & terms & Hterms & _ & _ & _ & Hsum).
  exists terms. split; assumption.
Defined.

(* ================================================================= *)
(** ** Bounds in exact arithmetic *)

Section ExactBounds.
Local Open Scope Q_scope.

Lemma pymin_exact_bounds (lo a b : Q) :
  lo <= a -> lo <= b -> lo <= pymin a b /\ pymin a b <= b.
Proof.
  intros Ha Hb. unfold pymin. cbn [ltb QFloat].
  destruct (Qle_bool a b) eqn:Hab; cbn [negb].
  - apply Qle_bool_iff in Hab. split; assumption.
  - split; [assumption | apply Qle_refl].
Qed.

Lemma count_is_nonnegative (n : nat) : 0 <= inject_Z (Z.of_nat n).
Proof.
  change 0 with (inject_Z 0). rewrite <- Zle_Qle. apply Nat2Z.is_nonneg.
Qed.

Lemma sentiment_confidence_bounds (text : pystr) :
  exists c : Q,
    Sentiment.confidence (analyze_sentiment text) = Some c /\ 0.3 <= c <= 1.
Proof.
  unfold analyze_sentiment.
  destruct (negb (truthy text)).
  { exists 0.5. split; [reflexivity | split; discriminate]. }
  destruct (len (split (lower text)) =? 0)%nat.
  { exists 0.5. split; [reflexivity | split; discriminate]. }
  eexists. split; [reflexivity|].
  cbn [lit of_int add mul div fabs QFloat].
  match goal with
  | |- _ <= pymin (Qabs ?p * _ + _) _ <= _ =>
      pose proof (Qabs_nonneg p) as Hp;
      destruct (pymin_exact_bounds 0.3 (Qabs p * inject_Z 5 + 0.3) 1.0)
        as [Hlo Hhi]
  end.
  - change (inject_Z 5) with 5. lra.
  - discriminate.
  - split; [exact Hlo|].
    eapply Qle_trans; [exact Hhi|]. discriminate.
Qed.

Lemma overall_risk_bounds (config : Config.t Q) (text : pystr) :
  exists r : Q,
    Bias.overall_risk (detect_bias_disinformation config text) = Some r
    /\ 0 <= r <= 1.
Proof.
  unfold detect_bias_disinformation.
  destruct (negb (truthy text)).
  { exists 0.0. split; [reflexivity | split; discriminate]. }
  eexists. split; [reflexivity|].
  cbn [lit of_int add mul QFloat].
  set (n := inject_Z (Z.of_nat (len (found_in (Config.bias_keywords config)
                                              (lower text))))).
  set (m := inject_Z (Z.of_nat (len (found_in
                                       (Config.disinformation_patterns config)
                                       (lower text))))).
  assert (Hn : 0 <= n) by apply count_is_nonnegative.
  assert (Hm : 0 <= m) by apply count_is_nonnegative.
  destruct (pymin_exact_bounds 0 (n * 0.1) 1.0) as [Hb0 Hb1];
    [lra | discriminate |].
  destruct (pymin_exact_bounds 0 (m * 0.2) 1.0) as [Hd0 Hd1];
    [lra | discriminate |].
  split; lra.
Qed.

Lemma pymin_exact_le_first (a b : Q) : pymin a b <= a.
Proof.
  unfold pymin. cbn [ltb QFloat].
  destruct (Qle_bool a b) eqn:Hab; cbn [negb]; [apply Qle_refl|].
  destruct (Qlt_le_dec b a) as [Hlt|Hle]; [apply Qlt_le_weak; exact Hlt|].
  pose proof (Qle_bool_iff a b) as Hiff.
  destruct (Q_dec a b) as [[Hlt|Hgt]|Heq].
  - apply Qlt_le_weak in Hlt. apply Hiff in Hlt. congruence.
  - apply Qlt_le_weak. exact Hgt.
  - rewrite Heq. apply Qle_refl.
Qed.

Lemma found_in_count (words : list pystr) (text : pystr) :
  inject_Z (Z.of_nat (len (found_in words text)))
  <= inject_Z (Z.of_nat (len words)).
Proof.
  rewrite <- Zle_Qle. apply Nat2Z.inj_le.
  unfold found_in, len. apply filter_length_le.
Qed.

(** With the word lists of the default configuration (six bias terms,
    three phrases) the overall risk is at most 0.6 in exact arithmetic:
    the rule [high_risk_bias_rejection] needs other word lists, or another
    detector, to fire. *)
Lemma default_risk_at_most_six_tenths (text : pystr) :
  exists r : Q,
    Bias.overall_risk (detect_bias_disinformation _load_verifier_config text)
    = Some r
    /\ r <= 0.6.
Proof.
  unfold detect_bias_disinformation.
  destruct (negb (truthy text)).
  { exists 0.0. split; [reflexivity | discriminate]. }
  eexists. split; [reflexivity|].
  cbn [lit of_int add mul QFloat].
  pose proof (found_in_count
                (Config.bias_keywords (R:=Q) _load_verifier_config)
                (lower text)) as Hn.
  pose proof (found_in_count
                (Config.disinformation_patterns (R:=Q) _load_verifier_config)
                (lower text)) as Hm.
  set (n := inject_Z (Z.of_nat (len (found_in _ (lower text))))) in *.
  set (m := inject_Z (Z.of_nat (len (found_in
              (Config.disinformation_patterns (R:=Q) _load_verifier_config)
              (lower text))))) in *.
  change (inject_Z (Z.of_nat (len (Config.bias_keywords
                                     (R:=Q) _load_verifier_config))))
    with 6 in Hn.
  change (inject_Z (Z.of_nat (len (Config.disinformation_patterns
                                     (R:=Q) _load_verifier_config))))
    with 3 in Hm.
  pose proof (pymin_exact_le_first (n * 0.1) 1.0) as Hb.
  pose proof (pymin_exact_le_first (m * 0.2) 1.0) as Hd.
  lra.
Qed.

Lemma contextual_confidence_exact (item_data : Item.t)
      (massive_data : option payload) :
  exists c : Q,
    Contextual.contextual_confidence (analyze_context item_data massive_data)
    = Some c /\ c == 0.66.
Proof. eexists. split; reflexivity. Qed.

Lemma pysum_three_exact (a b c : Q) : pysum [a; b; c] == a + b + c.
Proof.
  unfold pysum. cbn [fold_left add of_int QFloat].
  change (inject_Z 0) with 0. ring.
Qed.

(** The composite confidence of three signals inside [0, 1]. *)
Lemma composite_bounds (s r c : Q) :
  0 <= s <= 1 -> 0 <= r <= 1 -> 0 <= c <= 1 ->
  0 <= pysum [s * 0.2; (1.0 - r) * 0.3; c * 0.5] <= 1.
Proof.
  intros Hs Hr Hc. rewrite pysum_three_exact.
  split; lra.
Qed.

(** The composite confidence of the three basic extractors keeps a
    distance of more than 0.1 from both ends of [0, 1]. *)
Lemma basic_composite_margin (config : Config.t Q) (text : pystr)
      (item_data : Item.t) (massive_data : option payload) :
  0.39 <= pysum [sentiment_term (analyze_sentiment text);
                 bias_term (detect_bias_disinformation config text);
                 contextual_term (analyze_context item_data massive_data)]
  <= 0.83.
Proof.
  destruct (sentiment_confidence_bounds text) as (sc & Hsc & Hs).
  destruct (overall_risk_bounds config text) as (r & Hr & Hb).
  destruct (contextual_confidence_exact item_data massive_data)
    as (c & Hc & Hcv).
  unfold sentiment_term, bias_term, contextual_term.
  rewrite Hsc, Hr, Hc. cbn [get]. rewrite pysum_three_exact.
  cbn [lit add sub mul QFloat]. rewrite Hcv. split; lra.
Qed.

(** Whatever the rule result, signals inside [0, 1] give a final
    confidence inside [0, 1]: the aggregate, or 0 on the error path. *)
Lemma final_decision_bounds (self : engine Q) (stats : verification_stats)
      (item_data : Item.t) (s : Sentiment.t Q) (b : Bias.t Q)
      (c : Contextual.t Q) (rule_result : RuleResult.t) :
  0 <= get (Sentiment.confidence s) 0.5 <= 1 ->
  0 <= get (Bias.overall_risk b) 0.5 <= 1 ->
  0 <= get (Contextual.contextual_confidence c) 0.5 <= 1 ->
  exists x : Q,
    Review.final_confidence
      (_make_final_decision self (assemble stats item_data s b c) rule_result)
    = Some x /\ 0 <= x <= 1.
Proof.
  intros Hs Hb Hc.
  pose proof (composite_bounds _ _ _ Hs Hb Hc) as Hsum.
  unfold _make_final_decision.
  cbn [assemble Analysis.sentiment_analysis
       Analysis.bias_disinformation_analysis Analysis.contextual_analysis get].
  destruct (is_one_of (RuleResult.status rule_result) _).
  - destruct (RuleResult.reason rule_result).
    + eexists. split; [reflexivity | exact Hsum].
    + exists 0.0. split; [reflexivity | split; discriminate].
  - destruct (should_approve _ _);
      [eexists; split; [reflexivity | exact Hsum]|].
    destruct (should_reject _ _);
      eexists; (split; [reflexivity | exact Hsum]).
Qed.

End ExactBounds.

(** C8.  In exact arithmetic, with the three basic extractors (for any
    word lists, each of them possibly failing on some inputs), any rule
    engine (one that answers approved or rejected, one that leaves the
    decision to the thresholds, one that raises) and any thresholds,
    every item gets a final confidence between 0 and 1: the aggregate on
    the rule and threshold paths, 0 on the insufficient-content path and
    on the error paths. *)
Theorem final_confidence_in_unit_interval
        (verifier_config : Config.t Q)
        (sentiment_failure bias_failure : pystr -> option pystr)
        (contextual_failure : Item.t * option payload -> option pystr)
        (rules : Analysis.t Q -> outcome RuleResult.t)
        (thresholds : Config.thresholds Q)
        (stats : verification_stats) (item_data : Item.t)
        (massive_data : option payload) :
  exists confidence : Q,
    Review.final_confidence
      (decision (engine_with_basic_extractors verifier_config
                   sentiment_failure bias_failure contextual_failure
                   rules thresholds)
                stats item_data massive_data)
    = Some confidence
    /\ (0 <= confidence <= 1)%Q.
Proof.
  set (self := engine_with_basic_extractors verifier_config sentiment_failure
                 bias_failure contextual_failure rules thresholds).
  assert (Hzero : exists confidence : Q,
             Some (lit (R:=Q) 0.0) = Some confidence
             /\ (0 <= confidence <= 1)%Q).
  { exists 0.0%Q. split; [reflexivity | split; discriminate]. }
  unfold decision. rewrite verify_unfold.
  destruct (len (_extract_text_content item_data) <? 5)%nat; [exact Hzero|].
  unfold extract_signals, self, engine_with_basic_extractors, failing_on.
  cbn [sentiment_analyzer bias_detector contextual_analyzer].
  destruct (sentiment_failure _); [exact Hzero|].
  destruct (bias_failure _); [exact Hzero|].
  destruct (contextual_failure _); [exact Hzero|].
  unfold bind at 1 2 3 4. cbv zeta. unfold fst, snd.
  destruct (rule_engine _ _) as [rule_result|e] eqn:Hrule; [|exact Hzero].
  unfold bind, try_except, review_of.
  cbn [Analysis.ai_review get].
  destruct (sentiment_confidence_bounds (_extract_text_content item_data))
    as (sc & Hsc & Hs).
  destruct (overall_risk_bounds verifier_config
              (_extract_text_content item_data)) as (r & Hr & Hb).
  destruct (contextual_confidence_exact item_data massive_data)
    as (c & Hc & Hcv).
  apply final_decision_bounds.
  - rewrite Hsc. cbn [get]. split; lra.
  - rewrite Hr. exact Hb.
  - rewrite Hc. cbn [get]. rewrite Hcv. split; discriminate.
Qed.

(* ================================================================= *)
(** ** Rule precedence *)

(** For signals inside [0, 1], an overall risk of at least 0.7 keeps the
    composite confidence below 0.85: the two default conditions exclude
    each other. *)
Lemma default_conditions_exclusive (s r c : Q) :
  (0 <= s <= 1)%Q -> (0.7 <= r <= 1)%Q -> (0 <= c <= 1)%Q ->
  (pysum [s * 0.2; (1.0 - r) * 0.3; c * 0.5] < 0.85)%Q.
Proof.
  intros Hs Hr Hc. rewrite pysum_three_exact. lra.
Qed.

(** C2, as stated, fails.  Under a declared list whose first rule
    approves on an overall risk of at least 0.7 and whose second rule is
    [high_risk_bias_rejection], both rules match the item
    [Samples.risky] (three bias terms and five phrases, overall risk
    0.72).  The first declared rule that matches approves; the Decision
    of [verify_content_item] is rejected, the action of the later rule.
    In exact arithmetic and in binary64. *)
Lemma first_declared_rule_does_not_win :
  (let result := fst (verify_content_item
                        (EnhancedSynthesisEngine (R:=Q) Samples.tolerant_config)
                        Samples.no_stats Samples.risky None) in
   exists (confidence : Q) (first_rule : Config.rule),
     Review.final_confidence (review_of result) = Some confidence
     /\ spec_first_match Samples.tolerant_rules confidence
                         (rule_risk (bias_of result)) = Some first_rule
     /\ Config.action_status first_rule = u "approved"
     /\ rule_matches confidence (rule_risk (bias_of result))
                     Samples.high_risk_bias_rejection = true
     /\ Review.status (review_of result) = Some (u "rejected")
     /\ Review.status (review_of result)
        <> Some (Config.action_status first_rule))
  /\
  (let result := fst (verify_content_item
                        (EnhancedSynthesisEngine (R:=float)
                                                 Samples.tolerant_config)
                        Samples.no_stats Samples.risky None) in
   exists (confidence : float) (first_rule : Config.rule),
     Review.final_confidence (review_of result) = Some confidence
     /\ spec_first_match Samples.tolerant_rules confidence
                         (rule_risk (bias_of result)) = Some first_rule
     /\ Config.action_status first_rule = u "approved"
     /\ rule_matches confidence (rule_risk (bias_of result))
                     Samples.high_risk_bias_rejection = true
     /\ Review.status (review_of result) = Some (u "rejected")
     /\ Review.status (review_of result)
        <> Some (Config.action_status first_rule)).
Proof.
  split; cbv zeta.
  - eexists. eexists. split; [vm_compute; reflexivity|].
    split; [vm_compute; reflexivity|].
    repeat split; try (vm_compute; reflexivity).
    vm_compute. discriminate.
  - eexists. eexists. split; [vm_compute; reflexivity|].
    split; [vm_compute; reflexivity|].
    repeat split; try (vm_compute; reflexivity).
    vm_compute. discriminate.
Qed.

(** C2, amended.  The declared rule list is not consulted: the engine
    built from a configuration returns the same result and the same
    counters whatever list the configuration declares, and [apply_rules]
    gives the same answer for every list.  An analysis whose overall risk
    is at least 0.7 gets the Decision rejected, with the reason and the
    triggered rule of [high_risk_bias_rejection], also under a list whose
    earlier rules match it. *)
Theorem declared_rules_are_not_consulted
        {R : Type} `{PyFloat R} (config : Config.t R)
        (declared : list Config.rule) (stats : verification_stats)
        (item_data : Item.t) (massive_data : option payload)
        (a : Analysis.t R) :
  let redeclared :=
    {| Config.thresholds_ := Config.thresholds_ config;
       Config.bias_keywords := Config.bias_keywords config;
       Config.disinformation_patterns := Config.disinformation_patterns config;
       Config.rules := declared |} in
  verify_content_item (EnhancedSynthesisEngine redeclared) stats item_data
                      massive_data
  = verify_content_item (EnhancedSynthesisEngine config) stats item_data
                        massive_data
  /\ apply_rules declared a = apply_rules (Config.rules config) a
  /\ (rule_risk (bias_of a) >= lit 0.7 ->
      let d := _make_final_decision (EnhancedSynthesisEngine redeclared) a
                                    (apply_rules declared a) in
      Review.status d = Some (u "rejected")
      /\ Review.reason d = Some (u "Alto risco de viés/desinformação")
      /\ RuleResult.triggered_rules (apply_rules declared a)
         = [u "high_risk_bias_rejection"]).
Proof.
  cbv zeta. split; [reflexivity|]. split; [reflexivity|].
  intros Hrisk.
  unfold _make_final_decision, apply_rules.
  unfold rule_risk, bias_of in Hrisk. rewrite Hrisk.
  repeat split.
Qed.

Lemma declared_rules_are_not_consulted_witness :
  let a := fst (verify_content_item
                  (EnhancedSynthesisEngine (R:=Q) Samples.strict_config)
                  Samples.no_stats Samples.risky None) in
  rule_risk (bias_of a) >= lit 0.7
  /\ Review.status
       (_make_final_decision
          (EnhancedSynthesisEngine (R:=Q) Samples.tolerant_config) a
          (apply_rules Samples.tolerant_rules a))
     = Some (u "rejected").
Proof.
  cbv zeta.
  assert (Hrisk : rule_risk
                    (bias_of
                       (fst (verify_content_item
                               (EnhancedSynthesisEngine (R:=Q)
                                                        Samples.strict_config)
                               Samples.no_stats Samples.risky None)))
                  >= lit 0.7)
    by (vm_compute; reflexivity).
  split; [exact Hrisk|].
  exact (proj1 (proj2 (proj2 (declared_rules_are_not_consulted
                                (R:=Q) Samples.strict_config
                                Samples.tolerant_rules Samples.no_stats
                                Samples.risky None _)) Hrisk)).
Defined.

(* ================================================================= *)
(** ** Failing extractors *)

(** Every turn of the batch loop files its entry in one of the two
    lists. *)
Lemma verify_entry_files_one
      {R : Type} `{PyFloat R} (self : engine R) (acc : verified_data)
      (indexed : nat * web_entry) :
  (len (approved_data (verify_entry self acc indexed))
   + len (rejected_data (verify_entry self acc indexed))
   = S (len (approved_data acc) + len (rejected_data acc)))%nat.
Proof.
  unfold verify_entry. destruct indexed as [idx item].
  destruct (verify_content_item self (stats_after acc) (prepare_item idx item)
              None) as [verification_result stats'].
  destruct (status_is _ _); cbn [approved_data rejected_data];
    unfold len; rewrite length_app; simpl; lia.
Qed.

Lemma batch_loop_files_all
      {R : Type} `{PyFloat R} (self : engine R)
      (entries : list (nat * web_entry)) (acc : verified_data) :
  (len (approved_data (fold_left (verify_entry self) entries acc))
   + len (rejected_data (fold_left (verify_entry self) entries acc))
   = len entries + (len (approved_data acc) + len (rejected_data acc)))%nat.
Proof.
  revert acc. induction entries as [|e rest IH]; intros acc.
  - reflexivity.
  - cbn [fold_left]. rewrite IH, verify_entry_files_one.
    unfold len. simpl. lia.
Qed.

Lemma enumerate_length {A : Type} (xs : list A) : len (enumerate xs) = len xs.
Proof.
  unfold enumerate, len. rewrite length_combine, length_seq. apply Nat.min_id.
Qed.

(** C7, as stated, fails.  With a sentiment analyzer that raises, the
    reading of the specification (the signal replaced by the neutral 0.5)
    gives the item "hello world" the composite confidence 0.73 and the
    status approved, with its signals recorded; the code gives it the
    confidence 0, the status rejected and no signal at all. *)
Lemma failing_signal_is_not_defaulted :
  let self := Samples.broken_sentiment (R:=Q) in
  let code := verify_content_item self Samples.no_stats Samples.plain None in
  let spec := verify_content_item (neutral_on_failure self) Samples.no_stats
                                  Samples.plain None in
  extract_signals self Samples.plain None = Raise (u "sentiment unavailable")
  /\ (exists confidence : Q,
         Review.final_confidence (review_of (fst spec)) = Some confidence
         /\ (confidence == 0.73)%Q)
  /\ Review.status (review_of (fst spec)) = Some (u "approved")
  /\ Analysis.bias_disinformation_analysis (fst spec) <> None
  /\ Review.final_confidence (review_of (fst code)) = Some (lit 0.0)
  /\ Review.status (review_of (fst code)) = Some (u "rejected")
  /\ Analysis.sentiment_analysis (fst code) = None
  /\ Analysis.bias_disinformation_analysis (fst code) = None
  /\ Analysis.contextual_analysis (fst code) = None
  /\ Review.status (review_of (fst code)) <> Review.status (review_of (fst spec)).
Proof.
  cbv zeta. split; [reflexivity|]. split.
  { eexists. split; vm_compute; reflexivity. }
  repeat split; try (vm_compute; reflexivity); vm_compute; discriminate.
Qed.

(** C7, amended.  When an extractor raises with message [e] on an item
    with at least 5 characters of text, the item still receives a
    Decision: rejected, reason "Erro: e", final confidence 0, the [error]
    flag set; no signal result is recorded and the counters stay as they
    were.  The batch loop goes on: every entry of the batch ends in the
    approved or in the rejected list. *)
Theorem failing_extractor_rejects_item
        {R : Type} `{PyFloat R} (self : engine R) (stats : verification_stats)
        (item_data : Item.t) (massive_data : option payload) (e : pystr) :
  (5 <= len (_extract_text_content item_data))%nat ->
  extract_signals self item_data massive_data = Raise e ->
  let result := fst (verify_content_item self stats item_data massive_data) in
  let d := decision self stats item_data massive_data in
  Review.status d = Some (u "rejected")
  /\ Review.reason d = Some (u "Erro: " ++ e)
  /\ Review.final_confidence d = Some (lit 0.0)
  /\ Review.error d = true
  /\ Analysis.sentiment_analysis result = None
  /\ Analysis.bias_disinformation_analysis result = None
  /\ Analysis.contextual_analysis result = None
  /\ snd (verify_content_item self stats item_data massive_data) = stats
  /\ forall dados_web : list web_entry,
       (len (approved_data (_verify_all_data self stats dados_web))
        + len (rejected_data (_verify_all_data self stats dados_web))
        = len dados_web)%nat.
Proof.
  intros Hlen Hsig result d. subst result d. unfold decision.
  rewrite (verify_raises self stats item_data massive_data e Hlen Hsig).
  repeat split.
  intros dados_web. unfold _verify_all_data.
  rewrite batch_loop_files_all, enumerate_length.
  cbn [approved_data rejected_data]. unfold len. simpl. lia.
Qed.

Lemma failing_extractor_rejects_item_witness :
  (5 <= len (_extract_text_content Samples.plain))%nat
  /\ extract_signals (Samples.broken_sentiment (R:=Q)) Samples.plain None
     = Raise (u "sentiment unavailable")
  /\ Review.reason
       (decision (Samples.broken_sentiment (R:=Q)) Samples.no_stats
                 Samples.plain None)
     = Some (u "Erro: " ++ u "sentiment unavailable").
Proof.
  assert (Hlen : (5 <= len (_extract_text_content Samples.plain))%nat)
    by (vm_compute; lia).
  split; [exact Hlen|]. split; [reflexivity|].
  exact (proj1 (proj2 (failing_extractor_rejects_item
                         (Samples.broken_sentiment (R:=Q)) Samples.no_stats
                         Samples.plain None (u "sentiment unavailable")
                         Hlen eq_refl))).
Defined.

(* ================================================================= *)
(** ** Main issues of a batch *)

Section MainIssues.
Context {R : Type} `{PyFloat R}.
Local Open Scope py_scope.

Lemma issues_of_entries (result : Analysis.t R) :
  issues_of result
  = (if has_status (u "rejected") result then [rejection_entry result] else [])
      ++ (if reported_risk result >? lit 0.6 then [bias_entry result] else []).
Proof.
  unfold issues_of, note_issues, has_status, reported_risk,
    rejection_entry, bias_entry.
  destruct (status_is (Review.status (review_of result)) (u "rejected"));
    destruct (get (Bias.overall_risk (bias_of result)) (of_int 0) >? lit 0.6);
    reflexivity.
Qed.

Lemma note_issues_appends (issues : list (Issue.t R)) (result : Analysis.t R) :
  note_issues issues result = issues ++ issues_of result.
Proof.
  unfold issues_of, note_issues.
  destruct (status_is (Review.status (review_of result)) (u "rejected"));
    destruct (get (Bias.overall_risk (bias_of result)) (of_int 0) >? lit 0.6);
    cbn [app]; rewrite <- ?app_assoc, ?app_nil_r; reflexivity.
Qed.

Lemma issue_loop (results : list (Analysis.t R)) (issues : list (Issue.t R)) :
  fold_left note_issues results issues = issues ++ flat_map issues_of results.
Proof.
  revert issues. induction results as [|r rest IH]; intros issues.
  - cbn. rewrite app_nil_r. reflexivity.
  - cbn [fold_left flat_map]. rewrite IH, note_issues_appends, app_assoc.
    reflexivity.
Qed.

Lemma in_firstn {A : Type} (n : nat) (x : A) (xs : list A) :
  In x (firstn n xs) -> In x xs.
Proof.
  revert xs. induction n as [|n IH]; intros [|y ys]; simpl; try tauto.
  intros [Heq|Hin]; [left; exact Heq | right; apply IH; exact Hin].
Qed.

End MainIssues.

(** C9, as stated, fails.  For an approved result with overall risk 0.65
    followed by a rejected result, the list holds the high-bias entry of
    the first before the rejection entry of the second.  The default
    engine produces such a batch in binary64: the text of
    [Samples.saturated] gets the risk 0.6000000000000001 and is
    approved. *)
Lemma rejections_are_not_ranked_first :
  (map (@Issue.issue_type Q) (_identify_main_issues Samples.mixed_batch)
   = [u "high_bias_risk"; u "rejection"]
   /\ rejections_ranked_first (_identify_main_issues (R:=Q) Samples.mixed_batch)
      = false)
  /\ (map (fun r => Review.status (review_of r)) (Samples.engine_batch (R:=float))
      = [Some (u "approved"); Some (u "rejected")]
      /\ map (@Issue.issue_type float)
             (_identify_main_issues Samples.engine_batch)
         = [u "high_bias_risk"; u "rejection"]
      /\ rejections_ranked_first
           (_identify_main_issues (R:=float) Samples.engine_batch) = false).
Proof. repeat split; vm_compute; reflexivity. Qed.

(** C9, amended.  The list is the first 10 entries of the concatenation,
    in item order, of the entries of each result: its rejection entry when
    its status is rejected, then its high-bias entry when its overall risk
    exceeds 0.6.  It has at most 10 entries, each of them the entry of a
    rejected or of a risky result, and it holds all of them when they are
    at most 10. *)
Theorem main_issues_follow_item_order
        {R : Type} `{PyFloat R} (results : list (Analysis.t R)) :
  _identify_main_issues results = firstn 10 (flat_map issues_of results)
  /\ (forall result : Analysis.t R,
         issues_of result
         = (if has_status (u "rejected") result
            then [rejection_entry result] else [])
             ++ (if reported_risk result >? lit 0.6
                 then [bias_entry result] else []))
  /\ (len (_identify_main_issues results) <= 10)%nat
  /\ (forall i : Issue.t R,
         In i (_identify_main_issues results) ->
         exists result : Analysis.t R,
           In result results
           /\ ((i = rejection_entry result
                /\ has_status (u "rejected") result = true)
               \/ (i = bias_entry result
                   /\ reported_risk result > lit 0.6)))
  /\ ((len (flat_map issues_of results) <= 10)%nat ->
      forall result : Analysis.t R,
        In result results ->
        (has_status (u "rejected") result = true ->
         In (rejection_entry result) (_identify_main_issues results))
        /\ (reported_risk result > lit 0.6 ->
            In (bias_entry result) (_identify_main_issues results))).
Proof.
  assert (Heq : _identify_main_issues results
                = firstn 10 (flat_map issues_of results)).
  { unfold _identify_main_issues. rewrite issue_loop. reflexivity. }
  split; [exact Heq|].
  split; [exact issues_of_entries|].
  split; [rewrite Heq; unfold len; apply firstn_le_length|].
  split.
  - intros i Hin. rewrite Heq in Hin. apply in_firstn in Hin.
    apply in_flat_map in Hin. destruct Hin as (result & Hres & Hi).
    exists result. split; [exact Hres|].
    rewrite issues_of_entries in Hi.
    destruct (has_status (u "rejected") result) eqn:Hrej;
      destruct (reported_risk result >? lit 0.6) eqn:Hrisk;
      cbn in Hi; intuition congruence.
  - intros Hfew result Hres. rewrite Heq.
    rewrite firstn_all2 by exact Hfew.
    split; intros Hcond; apply in_flat_map; exists result;
      (split; [exact Hres|]); rewrite issues_of_entries, Hcond.
    + left. reflexivity.
    + apply in_or_app. right. left. reflexivity.
Qed.

Lemma main_issues_follow_item_order_witness :
  (len (flat_map issues_of (Samples.mixed_batch (R:=Q))) <= 10)%nat
  /\ In (bias_entry (Samples.decided
                       (Samples.analysis_of "first" 0.3%Q 0.65%Q 0.66%Q)))
        (_identify_main_issues Samples.mixed_batch).
Proof.
  assert (Hfew : (len (flat_map issues_of (Samples.mixed_batch (R:=Q))) <= 10)%nat)
    by (vm_compute; lia).
  split; [exact Hfew|].
  refine (proj2 (proj2 (proj2 (proj2 (proj2
            (main_issues_follow_item_order Samples.mixed_batch)))) Hfew
            _ (or_introl eq_refl)) _).
  vm_compute. reflexivity.
Defined.

(* ================================================================= *)
(** ** The contextual signal *)



(* ================================================================= *)
(** ** Further properties of the per-item decision *)

Lemma is_one_of_two (value : option pystr) (a b : pystr) :
  is_one_of value [a; b] = true -> value = Some a \/ value = Some b.
Proof.
  destruct value as [v|]; [|discriminate].
  cbn [is_one_of existsb]. intros Hv.
  apply orb_true_iff in Hv. destruct Hv as [Hv|Hv].
  - left. apply streq_true_iff in Hv. now subst.
  - rewrite orb_false_r in Hv. right. apply streq_true_iff in Hv. now subst.
Qed.

(** Whatever the rule result, [_make_final_decision] answers approved or
    rejected, with a reason and a confidence. *)
Lemma final_decision_is_complete
      {R : Type} `{PyFloat R} (self : engine R) (a : Analysis.t R)
      (rule_result : RuleResult.t) :
  let d := _make_final_decision self a rule_result in
  (Review.status d = Some (u "approved")
   \/ Review.status d = Some (u "rejected"))
  /\ Review.reason d <> None
  /\ Review.final_confidence d <> None.
Proof.
  cbv zeta. unfold _make_final_decision.
  destruct (is_one_of (RuleResult.status rule_result) _) eqn:Hstatus.
  - destruct (RuleResult.reason rule_result) as [reason|].
    + cbn [try_except bind fst snd Review.status Review.reason
           Review.final_confidence].
      split; [apply is_one_of_two; exact Hstatus|]. split; discriminate.
    + split; [right; reflexivity|]. split; discriminate.
  - destruct (should_approve _ _);
      [split; [left; reflexivity | split; discriminate]|].
    destruct (should_reject _ _);
      (split; [right; reflexivity | split; discriminate]).
Qed.

(** X1.  Every call of [verify_content_item], with any components,
    yields a Decision whose status is approved or rejected (never absent,
    never a third value) and which carries a reason and a final
    confidence. *)
Theorem every_item_gets_a_binary_decision
        {R : Type} `{PyFloat R} (self : engine R) (stats : verification_stats)
        (item_data : Item.t) (massive_data : option payload) :
  let result := fst (verify_content_item self stats item_data massive_data) in
  exists d : Review.t R,
    Analysis.ai_review result = Some d
    /\ (Review.status d = Some (u "approved")
        \/ Review.status d = Some (u "rejected"))
    /\ Review.reason d <> None
    /\ Review.final_confidence d <> None.
Proof.
  cbv zeta. rewrite verify_unfold.
  destruct (len (_extract_text_content item_data) <? 5)%nat.
  { eexists. split; [reflexivity|].
    split; [right; reflexivity | split; discriminate]. }
  destruct (extract_signals self item_data massive_data) as [[[s b] c]|e].
  - unfold bind at 1. cbv zeta. unfold fst at 2 3, snd at 1 2.
    destruct (rule_engine self _) as [rule_result|e].
    + eexists. split; [reflexivity|]. apply final_decision_is_complete.
    + eexists. split; [reflexivity|].
      split; [right; reflexivity | split; discriminate].
  - eexists. split; [reflexivity|].
    split; [right; reflexivity | split; discriminate].
Qed.

(** The result of [verify_content_item] when every component returns. *)
Lemma verify_decided
      {R : Type} `{PyFloat R} (self : engine R) (stats : verification_stats)
      (item_data : Item.t) (massive_data : option payload)
      (s : Sentiment.t R) (b : Bias.t R) (c : Contextual.t R)
      (rule_result : RuleResult.t) :
  (5 <= len (_extract_text_content item_data))%nat ->
  extract_signals self item_data massive_data = Ok (s, b, c) ->
  rule_engine self (assemble stats item_data s b c) = Ok rule_result ->
  let a := assemble stats item_data s b c in
  let d := _make_final_decision self a rule_result in
  verify_content_item self stats item_data massive_data
  = ({| Analysis.item_id := Analysis.item_id a;
        Analysis.original_item := Some item_data;
        Analysis.sentiment_analysis := Some s;
        Analysis.bias_disinformation_analysis := Some b;
        Analysis.contextual_analysis := Some c;
        Analysis.llm_reasoning_analysis := Analysis.llm_reasoning_analysis a;
        Analysis.ai_review := Some d |},
     _update_verification_stats stats (Review.status d)).
Proof.
  intros Hlen Hsig Hrule. cbv zeta. rewrite verify_unfold.
  apply Nat.ltb_ge in Hlen. rewrite Hlen, Hsig.
  unfold bind at 1. cbv zeta. unfold fst, snd.
  rewrite Hrule. reflexivity.
Qed.

(** The step of the counters for one item. *)
Lemma counters_step
        {R : Type} `{PyFloat R} (self : engine R) (stats : verification_stats)
        (item_data : Item.t) (massive_data : option payload) :
  let d := decision self stats item_data massive_data in
  let stats' := snd (verify_content_item self stats item_data massive_data) in
  (Review.status d = Some (u "approved")
   /\ stats' = {| total_verified := S (total_verified stats);
                  approved := S (approved stats);
                  rejected := rejected stats |})
  \/ (Review.status d = Some (u "rejected")
      /\ stats' = {| total_verified := S (total_verified stats);
                     approved := approved stats;
                     rejected := S (rejected stats) |})
  \/ (Review.status d = Some (u "rejected")
      /\ (Review.insufficient_content d = true \/ Review.error d = true)
      /\ stats' = stats).
Proof.
  cbv zeta. unfold decision.
  destruct (Nat.ltb_spec (len (_extract_text_content item_data)) 5)
    as [Hshort|Hlong].
  { rewrite (verify_insufficient self stats item_data massive_data Hshort).
    right. right. split; [reflexivity|]. split; [left|]; reflexivity. }
  destruct (extract_signals self item_data massive_data)
    as [[[s b] c]|e] eqn:Hsig.
  2:{ rewrite (verify_raises self stats item_data massive_data e Hlong Hsig).
      right. right. split; [reflexivity|]. split; [right|]; reflexivity. }
  destruct (rule_engine self (assemble stats item_data s b c))
    as [rule_result|e] eqn:Hrule.
  2:{ rewrite (verify_rule_engine_raises self stats item_data massive_data
                 s b c e Hlong Hsig Hrule).
      right. right. split; [reflexivity|]. split; [right|]; reflexivity. }
  rewrite (verify_decided self stats item_data massive_data s b c rule_result
             Hlong Hsig Hrule).
  cbn [fst snd review_of Analysis.ai_review get].
  destruct (final_decision_is_complete self
              (assemble stats item_data s b c) rule_result)
    as ([Hstatus|Hstatus] & _ & _).
  - left. split; [exact Hstatus|].
    unfold _update_verification_stats. rewrite Hstatus. reflexivity.
  - right. left. split; [exact Hstatus|].
    unfold _update_verification_stats. rewrite Hstatus. reflexivity.
Qed.


(** X3.  When the rule engine returns a result without an approved or
    rejected status, the Decision is taken by the thresholds on the
    composite confidence: approved exactly when [should_approve] holds,
    rejected otherwise, with the ambiguity reason exactly when neither
    [should_approve] nor [should_reject] holds; the item is counted. *)
Theorem undecided_rules_leave_the_thresholds
        {R : Type} `{PyFloat R} (self : engine R) (stats : verification_stats)
        (item_data : Item.t) (massive_data : option payload)
        (s : Sentiment.t R) (b : Bias.t R) (c : Contextual.t R)
        (rule_result : RuleResult.t) :
  (5 <= len (_extract_text_content item_data))%nat ->
  extract_signals self item_data massive_data = Ok (s, b, c) ->
  rule_engine self (assemble stats item_data s b c) = Ok rule_result ->
  is_one_of (RuleResult.status rule_result) [u "approved"; u "rejected"]
  = false ->
  let d := decision self stats item_data massive_data in
  let confidence := pysum [sentiment_term s; bias_term b; contextual_term c] in
  let thresholds := confidence_thresholds self in
  Review.final_confidence d = Some confidence
  /\ Review.status d
     = Some (if should_approve thresholds confidence
             then u "approved" else u "rejected")
  /\ Review.reason d
     = Some (if should_approve thresholds confidence
             then u "Aprovado com base na análise combinada"
             else if should_reject thresholds confidence
                  then u "Rejeitado com base na análise combinada"
                  else u "Rejeitado por ambiguidade - política de segurança")
  /\ Review.error d = false
  /\ total_verified
       (snd (verify_content_item self stats item_data massive_data))
     = S (total_verified stats).
Proof.
  intros Hlen Hsig Hrule Hstatus. cbv zeta.
  assert (Hd : _make_final_decision self (assemble stats item_data s b c)
                 rule_result
               = {| Review.status :=
                      Some (if should_approve (confidence_thresholds self)
                                 (pysum [sentiment_term s; bias_term b;
                                         contextual_term c])
                            then u "approved" else u "rejected");
                    Review.reason :=
                      Some (if should_approve (confidence_thresholds self)
                                 (pysum [sentiment_term s; bias_term b;
                                         contextual_term c])
                            then u "Aprovado com base na análise combinada"
                            else if should_reject (confidence_thresholds self)
                                      (pysum [sentiment_term s; bias_term b;
                                              contextual_term c])
                                 then u "Rejeitado com base na análise combinada"
                                 else u "Rejeitado por ambiguidade - política de segurança");
                    Review.final_confidence :=
                      Some (pysum [sentiment_term s; bias_term b;
                                   contextual_term c]);
                    Review.confidence_breakdown :=
                      Some {| Review.sentiment_contribution := sentiment_term s;
                              Review.bias_contribution := bias_term b;
                              Review.contextual_contribution :=
                                contextual_term c |};
                    Review.insufficient_content := false;
                    Review.error := false |}).
  { unfold _make_final_decision. rewrite Hstatus.
    cbn [assemble Analysis.sentiment_analysis
         Analysis.bias_disinformation_analysis Analysis.contextual_analysis
         get].
    fold (sentiment_term s). fold (bias_term b). fold (contextual_term c).
    destruct (should_approve _ _); [reflexivity|].
    destruct (should_reject _ _); reflexivity. }
  rewrite (decision_of_signals self stats item_data massive_data s b c
             rule_result Hlen Hsig Hrule).
  rewrite Hd. repeat split.
  rewrite (verify_decided self stats item_data massive_data s b c rule_result
             Hlen Hsig Hrule).
  cbn [snd]. unfold _update_verification_stats.
  destruct (status_is _ _); [reflexivity|].
  destruct (status_is _ _); reflexivity.
Qed.

Lemma undecided_rules_leave_the_thresholds_witness :
  (5 <= len (_extract_text_content Samples.plain))%nat
  /\ Review.reason
       (decision (R:=float) (default_engine_with undecided_rule_engine)
                 Samples.no_stats Samples.plain None)
     = Some (u "Rejeitado por ambiguidade - política de segurança").
Proof.
  assert (Hlen : (5 <= len (_extract_text_content Samples.plain))%nat)
    by (vm_compute; lia).
  split; [exact Hlen|].
  destruct (undecided_rules_leave_the_thresholds
              (default_engine_with (R:=float) undecided_rule_engine)
              Samples.no_stats Samples.plain None
              (analyze_sentiment (_extract_text_content Samples.plain))
              (detect_bias_disinformation _load_verifier_config
                 (_extract_text_content Samples.plain))
              (analyze_context Samples.plain None)
              {| RuleResult.status := None;
                 RuleResult.reason := None;
                 RuleResult.triggered_rules := [] |}
              Hlen eq_refl eq_refl eq_refl) as (_ & _ & Hreason & _).
  rewrite Hreason. vm_compute. reflexivity.
Defined.

(** X4.  When the rule result carries an approved or rejected status and
    no reason, the lookup of the reason fails inside
    [_make_final_decision]: the Decision is rejected with the reason
    "Erro no processamento: 'reason'", confidence 0 and the [error] flag.
    Unlike an exception raised by an extractor, this failure keeps the
    signal results in the analysis and counts the item as a rejection. *)
Theorem missing_reason_is_a_counted_rejection
        {R : Type} `{PyFloat R} (self : engine R) (stats : verification_stats)
        (item_data : Item.t) (massive_data : option payload)
        (s : Sentiment.t R) (b : Bias.t R) (c : Contextual.t R)
        (rule_result : RuleResult.t) :
  (5 <= len (_extract_text_content item_data))%nat ->
  extract_signals self item_data massive_data = Ok (s, b, c) ->
  rule_engine self (assemble stats item_data s b c) = Ok rule_result ->
  is_one_of (RuleResult.status rule_result) [u "approved"; u "rejected"]
  = true ->
  RuleResult.reason rule_result = None ->
  let outcome := verify_content_item self stats item_data massive_data in
  let d := decision self stats item_data massive_data in
  Review.status d = Some (u "rejected")
  /\ Review.reason d = Some (u "Erro no processamento: 'reason'")
  /\ Review.final_confidence d = Some (lit 0.0)
  /\ Review.confidence_breakdown d = None
  /\ Review.error d = true
  /\ Analysis.sentiment_analysis (fst outcome) = Some s
  /\ Analysis.bias_disinformation_analysis (fst outcome) = Some b
  /\ Analysis.contextual_analysis (fst outcome) = Some c
  /\ snd outcome = {| total_verified := S (total_verified stats);
                      approved := approved stats;
                      rejected := S (rejected stats) |}.
Proof.
  intros Hlen Hsig Hrule Hstatus Hreason. cbv zeta.
  assert (Hd : _make_final_decision self (assemble stats item_data s b c)
                 rule_result
               = {| Review.status := Some (u "rejected");
                    Review.reason :=
                      Some (u "Erro no processamento: " ++ u "'reason'");
                    Review.final_confidence := Some (lit 0.0);
                    Review.confidence_breakdown := None;
                    Review.insufficient_content := false;
                    Review.error := true |}).
  { unfold _make_final_decision. rewrite Hstatus, Hreason. reflexivity. }
  unfold decision.
  rewrite (verify_decided self stats item_data massive_data s b c rule_result
             Hlen Hsig Hrule).
  cbn [fst snd review_of Analysis.ai_review get Analysis.sentiment_analysis
       Analysis.bias_disinformation_analysis Analysis.contextual_analysis].
  rewrite Hd. cbn [Review.status Review.reason Review.final_confidence
                   Review.confidence_breakdown Review.error].
  repeat split.
Qed.

Lemma missing_reason_is_a_counted_rejection_witness :
  (5 <= len (_extract_text_content Samples.plain))%nat
  /\ snd (verify_content_item (R:=Q)
            (default_engine_with reasonless_rule_engine)
            Samples.no_stats Samples.plain None)
     = {| total_verified := 1; approved := 0; rejected := 1 |}.
Proof.
  assert (Hlen : (5 <= len (_extract_text_content Samples.plain))%nat)
    by (vm_compute; lia).
  split; [exact Hlen|].
  apply (missing_reason_is_a_counted_rejection
           (default_engine_with (R:=Q) reasonless_rule_engine)
           Samples.no_stats Samples.plain None
           (analyze_sentiment (_extract_text_content Samples.plain))
           (detect_bias_disinformation _load_verifier_config
              (_extract_text_content Samples.plain))
           (analyze_context Samples.plain None)
           {| RuleResult.status := Some (u "approved");
              RuleResult.reason := None;
              RuleResult.triggered_rules := [] |}
           Hlen eq_refl eq_refl eq_refl eq_refl).
Defined.

(* ================================================================= *)
(** ** The batch loop of the engine *)

(** An item that carries an id gets the same result whatever the
    counters are. *)
Lemma result_ignores_counters
      {R : Type} `{PyFloat R} (self : engine R)
      (stats stats' : verification_stats) (item_data : Item.t)
      (massive_data : option payload) (id : pystr) :
  Item.id item_data = Some id ->
  fst (verify_content_item self stats item_data massive_data)
  = fst (verify_content_item self stats' item_data massive_data).
Proof.
  intros Hid.
  assert (Hassemble : forall s b c,
             assemble stats item_data s b c = assemble stats' item_data s b c).
  { intros s b c. unfold assemble. rewrite Hid. reflexivity. }
  destruct (Nat.ltb_spec (len (_extract_text_content item_data)) 5)
    as [Hshort|Hlong].
  { rewrite !(verify_insufficient _ _ item_data massive_data Hshort).
    reflexivity. }
  destruct (extract_signals self item_data massive_data)
    as [[[s b] c]|e] eqn:Hsig.
  2:{ rewrite !(verify_raises self _ item_data massive_data e Hlong Hsig).
      reflexivity. }
  destruct (rule_engine self (assemble stats item_data s b c))
    as [rule_result|e] eqn:Hrule.
  - rewrite (verify_decided self stats item_data massive_data s b c
               rule_result Hlong Hsig Hrule).
    rewrite Hassemble in Hrule.
    rewrite (verify_decided self stats' item_data massive_data s b c
               rule_result Hlong Hsig Hrule).
    cbn [fst]. rewrite Hassemble. reflexivity.
  - rewrite (verify_rule_engine_raises self stats item_data massive_data
               s b c e Hlong Hsig Hrule).
    rewrite Hassemble in Hrule.
    rewrite (verify_rule_engine_raises self stats' item_data massive_data
               s b c e Hlong Hsig Hrule).
    reflexivity.
Qed.

Lemma verify_entry_step
      {R : Type} `{PyFloat R} (self : engine R) (acc : verified_data)
      (indexed : nat * web_entry) :
  approved_data (verify_entry self acc indexed)
  = approved_data acc
      ++ (if entry_is_approved self indexed then [snd indexed] else [])
  /\ rejected_data (verify_entry self acc indexed)
     = rejected_data acc
         ++ (if entry_is_approved self indexed then [] else [snd indexed])
  /\ stats_after (verify_entry self acc indexed)
     = snd (verify_content_item self (stats_after acc)
              (prepare_item (fst indexed) (snd indexed)) None).
Proof.
  destruct indexed as [idx item]. unfold verify_entry, entry_is_approved.
  cbn [fst snd]. unfold decision, review_of.
  rewrite (result_ignores_counters self (make_stats 0 0 0) (stats_after acc)
             (prepare_item idx item) None _ eq_refl).
  destruct (verify_content_item self (stats_after acc) (prepare_item idx item)
              None) as [verification_result stats'].
  cbn [fst snd].
  destruct (status_is _ _); cbn [approved_data rejected_data stats_after];
    rewrite ?app_nil_r; repeat split.
Qed.

Lemma batch_loop_partition
      {R : Type} `{PyFloat R} (self : engine R)
      (entries : list (nat * web_entry)) (acc : verified_data) :
  approved_data (fold_left (verify_entry self) entries acc)
  = approved_data acc ++ map snd (filter (entry_is_approved self) entries)
  /\ rejected_data (fold_left (verify_entry self) entries acc)
     = rejected_data acc
         ++ map snd (filter (fun p => negb (entry_is_approved self p)) entries).
Proof.
  revert acc. induction entries as [|e rest IH]; intros acc.
  - cbn. rewrite !app_nil_r. split; reflexivity.
  - cbn [fold_left filter].
    destruct (IH (verify_entry self acc e)) as [Ha Hr].
    destruct (verify_entry_step self acc e) as (Hsa & Hsr & _).
    rewrite Ha, Hr, Hsa, Hsr.
    destruct (entry_is_approved self e); cbn [negb map];
      rewrite <- ?app_assoc, ?app_nil_r; split; reflexivity.
Qed.

Lemma batch_is_a_stable_partition_aux
      {R : Type} `{PyFloat R} (self : engine R) (stats : verification_stats)
      (dados_web : list web_entry) :
  approved_data (_verify_all_data self stats dados_web)
  = map snd (filter (entry_is_approved self) (enumerate dados_web))
  /\ rejected_data (_verify_all_data self stats dados_web)
     = map snd (filter (fun p => negb (entry_is_approved self p))
                       (enumerate dados_web)).
Proof.
  unfold _verify_all_data.
  destruct (batch_loop_partition self (enumerate dados_web)
              {| approved_data := []; rejected_data := [];
                 stats_after := stats |}) as [Ha Hr].
  split; [exact Ha | exact Hr].
Qed.

(** X5.  The batch loop is a stable partition of its input: the approved
    list holds, in their original order, exactly the entries whose prepared
    item the engine approves, and the rejected list the others; the
    verdict on an entry does not depend on the entries before it. *)
Theorem batch_is_a_stable_partition
        {R : Type} `{PyFloat R} (self : engine R) (stats : verification_stats)
        (dados_web : list web_entry) :
  approved_data (_verify_all_data self stats dados_web)
  = map snd (filter (entry_is_approved self) (enumerate dados_web))
  /\ rejected_data (_verify_all_data self stats dados_web)
     = map snd (filter (fun p => negb (entry_is_approved self p))
                       (enumerate dados_web)).
Proof. exact (batch_is_a_stable_partition_aux self stats dados_web). Qed.

Lemma status_approved_is_not_rejected (status : option pystr) :
  status = Some (u "rejected") -> status_is status (u "approved") = false.
Proof. intros ->. reflexivity. Qed.

Lemma verify_entry_counters
      {R : Type} `{PyFloat R} (self : engine R) (acc : verified_data)
      (indexed : nat * web_entry) :
  let before := stats_after acc in
  let after := stats_after (verify_entry self acc indexed) in
  let k := if entry_is_approved self indexed then 1%nat else 0%nat in
  (approved after = approved before + k
   /\ rejected before <= rejected after <= rejected before + (1 - k)
   /\ total_verified after + approved before + rejected before
      = total_verified before + approved after + rejected after)%nat.
Proof.
  cbv zeta. destruct (verify_entry_step self acc indexed) as (_ & _ & ->).
  unfold entry_is_approved, decision.
  rewrite (result_ignores_counters self (make_stats 0 0 0) (stats_after acc)
             (prepare_item (fst indexed) (snd indexed)) None _ eq_refl).
  destruct (counters_step self (stats_after acc)
              (prepare_item (fst indexed) (snd indexed)) None)
    as [[Hs Hst]|[[Hs Hst]|(Hs & _ & Hst)]];
    unfold decision in Hs; rewrite Hs, Hst;
    cbn [status_is approved rejected total_verified];
    try rewrite (status_approved_is_not_rejected _ eq_refl);
    cbn; lia.
Qed.

Lemma batch_loop_counters
      {R : Type} `{PyFloat R} (self : engine R)
      (entries : list (nat * web_entry)) (acc : verified_data) :
  let before := stats_after acc in
  let after := stats_after (fold_left (verify_entry self) entries acc) in
  (approved after
   = approved before + len (filter (entry_is_approved self) entries)
   /\ rejected before <= rejected after
      <= rejected before
         + len (filter (fun p => negb (entry_is_approved self p)) entries)
   /\ total_verified after + approved before + rejected before
      = total_verified before + approved after + rejected after)%nat.
Proof.
  cbv zeta. revert acc. induction entries as [|e rest IH]; intros acc.
  - cbn. unfold len. simpl. lia.
  - cbn [fold_left filter].
    specialize (IH (verify_entry self acc e)).
    pose proof (verify_entry_counters self acc e) as Hstep. cbv zeta in Hstep.
    destruct (entry_is_approved self e); cbn [negb]; unfold len in *;
      cbn [List.length]; lia.
Qed.

(** X6.  After the batch loop the [approved] counter has grown by the
    length of the approved list; the [rejected] counter has grown by at
    most the length of the rejected list (entries rejected for
    insufficient content or after an exception are listed and not
    counted); [total_verified] has grown by the two growths together. *)
Theorem batch_counters_match_the_lists
        {R : Type} `{PyFloat R} (self : engine R) (stats : verification_stats)
        (dados_web : list web_entry) :
  let verified := _verify_all_data self stats dados_web in
  let after := stats_after verified in
  (approved after = approved stats + len (approved_data verified)
   /\ rejected stats <= rejected after
      <= rejected stats + len (rejected_data verified)
   /\ total_verified after
      = total_verified stats + (approved after - approved stats)
        + (rejected after - rejected stats)
   /\ total_verified after <= total_verified stats + len dados_web)%nat.
Proof.
  cbv zeta.
  destruct (batch_is_a_stable_partition_aux self stats dados_web) as [Ha Hr].
  pose proof (batch_loop_counters self (enumerate dados_web)
                {| approved_data := []; rejected_data := [];
                   stats_after := stats |}) as Hc.
  cbv zeta in Hc. cbn [stats_after] in Hc.
  fold (_verify_all_data self stats dados_web) in Hc.
  pose proof (batch_loop_files_all self (enumerate dados_web)
                {| approved_data := []; rejected_data := [];
                   stats_after := stats |}) as Hall.
  fold (_verify_all_data self stats dados_web) in Hall.
  rewrite enumerate_length in Hall. cbn [approved_data rejected_data] in Hall.
  rewrite Ha, Hr in *. unfold len in *. rewrite !length_map in *.
  cbn [List.length] in Hall. lia.
Qed.

(* ================================================================= *)
(** ** The ids of the prepared items *)

Lemma int_of_digits_of_uint_acc (d : Decimal.uint) (acc : nat) :
  fold_left (fun acc c => (10 * acc + digit_value c)%nat) (of_uint d) acc
  = Nat.of_uint_acc d acc.
Proof.
  revert acc. induction d; intros acc; cbn [of_uint fold_left Nat.of_uint_acc];
    try reflexivity; rewrite IHd; f_equal; rewrite Nat.tail_mul_spec;
    vm_compute digit_value; lia.
Qed.

Lemma int_of_digits_str_of_nat (n : nat) : int_of_digits (str_of_nat n) = n.
Proof.
  unfold int_of_digits, str_of_nat. rewrite int_of_digits_of_uint_acc.
  apply DecimalNat.Unsigned.of_to.
Qed.

Lemma int_of_digits_leading_zeros (k : nat) (s : pystr) :
  int_of_digits (repeat 48%N k ++ s) = int_of_digits s.
Proof.
  unfold int_of_digits. induction k as [|k IH]; [reflexivity|].
  cbn [repeat app fold_left]. exact IH.
Qed.

Lemma int_of_digits_format_03d (n : nat) : int_of_digits (format_03d n) = n.
Proof.
  unfold format_03d. rewrite int_of_digits_leading_zeros.
  apply int_of_digits_str_of_nat.
Qed.

(** X7.  The id the batch loop gives to the entry at index [idx] is
    "web_" followed by the decimal digits of [idx + 1], padded with zeros
    to at least three characters; the digits read back as [idx + 1], so
    the ids of a batch are pairwise distinct. *)
Theorem batch_ids_are_unique (dados_web : list web_entry) :
  (forall (idx : nat) (item : web_entry),
      Item.id (prepare_item idx item) = Some (u "web_" ++ format_03d (idx + 1))
      /\ int_of_digits (format_03d (idx + 1)) = (idx + 1)%nat
      /\ (3 <= len (format_03d (idx + 1)))%nat)
  /\ (forall (i j : nat) (item item' : web_entry),
         Item.id (prepare_item i item) = Item.id (prepare_item j item') ->
         i = j)
  /\ NoDup (map (fun p => Item.id (prepare_item (fst p) (snd p)))
                (enumerate dados_web)).
Proof.
  assert (Hinj : forall (i j : nat) (item item' : web_entry),
             Item.id (prepare_item i item) = Item.id (prepare_item j item') ->
             i = j).
  { intros i j item item' Heq. cbn [prepare_item Item.id] in Heq.
    injection Heq as Heq.
    apply (f_equal int_of_digits) in Heq.
    rewrite !int_of_digits_format_03d in Heq. lia. }
  split; [|split; [exact Hinj|]].
  - intros idx item. split; [reflexivity|].
    split; [apply int_of_digits_format_03d|].
    unfold format_03d, len. rewrite length_app, repeat_length.
    fold (len (str_of_nat (idx + 1))). unfold len. lia.
  - unfold enumerate.
    assert (Hgen : forall (xs : list web_entry) (start : nat),
               NoDup (map (fun p => Item.id (prepare_item (fst p) (snd p)))
                          (combine (seq start (len xs)) xs))).
    { induction xs as [|x xs IH]; intros start; [constructor|].
      cbn [len List.length seq combine map]. constructor; [|apply IH].
      intros Hin. apply in_map_iff in Hin.
      destruct Hin as ([k y] & Hid & Hin). cbn [fst snd] in Hid.
      apply Hinj in Hid. subst k.
      apply in_combine_l in Hin. apply in_seq in Hin. lia. }
    apply Hgen.
Qed.

(* ================================================================= *)
(** ** The engine as [__init__] builds it *)

Section DefaultEngine.
Context {R : Type} `{PyFloat R}.
Local Open Scope py_scope.

(** The overall risk of the basic detector is [risk_of_counts] at the
    numbers of detected terms and phrases, which are bounded by the
    lengths of the configured lists. *)
Lemma overall_risk_by_counts (config : Config.t R) (text : pystr) :
  truthy text = true ->
  exists n m : nat,
    (n <= len (Config.bias_keywords config))%nat
    /\ (m <= len (Config.disinformation_patterns config))%nat
    /\ Bias.overall_risk (detect_bias_disinformation config text)
       = Some (risk_of_counts n m).
Proof.
  intros Htext. unfold detect_bias_disinformation. rewrite Htext.
  cbn [negb Bias.overall_risk].
  exists (len (found_in (Config.bias_keywords config) (lower text))),
         (len (found_in (Config.disinformation_patterns config) (lower text))).
  split; [apply filter_length_le|]. split; [apply filter_length_le|].
  reflexivity.
Qed.

Lemma default_decision_by_counts (stats : verification_stats)
      (item_data : Item.t) (massive_data : option payload) :
  (forall n m : nat, (n <= 6)%nat -> (m <= 3)%nat ->
                     (risk_of_counts n m >=? lit 0.7) = false) ->
  (5 <= len (_extract_text_content item_data))%nat ->
  let d := decision (EnhancedSynthesisEngine _load_verifier_config) stats
                    item_data massive_data in
  Review.status d = Some (u "approved")
  /\ Review.reason d = Some (u "Análise padrão aprovada").
Proof.
  intros Hrisk Hlen d. subst d.
  set (text := _extract_text_content item_data) in *.
  rewrite (basic_decision_of_item
             (EnhancedSynthesisEngine _load_verifier_config)
             (Config.rules _load_verifier_config) stats item_data massive_data
             (analyze_sentiment text)
             (detect_bias_disinformation _load_verifier_config text)
             (analyze_context item_data massive_data)
             eq_refl Hlen eq_refl).
  rewrite basic_decision. cbn [Review.status Review.reason].
  assert (Htruthy : truthy text = true).
  { destruct text; [cbn [len List.length] in Hlen; lia | reflexivity]. }
  destruct (overall_risk_by_counts _load_verifier_config text Htruthy)
    as (n & m & Hn & Hm & Hr).
  unfold rule_risk. rewrite Hr. cbn [get].
  rewrite (Hrisk n m Hn Hm). split; reflexivity.
Qed.

End DefaultEngine.

Lemma risk_of_counts_binary64 (n m : nat) :
  (n <= 6)%nat -> (m <= 3)%nat ->
  leb (R:=float) (lit 0.7) (risk_of_counts n m) = false.
Proof.
  intros Hn Hm.
  do 7 (destruct n as [|n]; [do 4 (destruct m as [|m];
                                   [vm_compute; reflexivity|]); lia|]).
  lia.
Qed.

Lemma risk_of_counts_exact (n m : nat) :
  (n <= 6)%nat -> (m <= 3)%nat ->
  leb (R:=Q) (lit 0.7) (risk_of_counts n m) = false.
Proof.
  intros Hn Hm.
  do 7 (destruct n as [|n]; [do 4 (destruct m as [|m];
                                   [vm_compute; reflexivity|]); lia|]).
  lia.
Qed.

(** X8.  The engine built by [__init__] never rejects an item that has
    at least five characters of text: with the six bias terms and three
    phrases of the default configuration the overall risk stays below
    0.7, in exact arithmetic and in binary64, so the item is approved
    with the reason of the default rule. *)
Theorem default_engine_approves_sufficient_text
        (stats : verification_stats) (item_data : Item.t)
        (massive_data : option payload) :
  (5 <= len (_extract_text_content item_data))%nat ->
  let exact := decision (R:=Q) (EnhancedSynthesisEngine _load_verifier_config)
                        stats item_data massive_data in
  let binary64 :=
    decision (R:=float) (EnhancedSynthesisEngine _load_verifier_config)
             stats item_data massive_data in
  (Review.status exact = Some (u "approved")
   /\ Review.reason exact = Some (u "Análise padrão aprovada"))
  /\ (Review.status binary64 = Some (u "approved")
      /\ Review.reason binary64 = Some (u "Análise padrão aprovada")).
Proof.
  intros Hlen. split.
  - apply (default_decision_by_counts (R:=Q)); [|exact Hlen].
    exact risk_of_counts_exact.
  - apply (default_decision_by_counts (R:=float)); [|exact Hlen].
    exact risk_of_counts_binary64.
Qed.

Lemma default_engine_approves_sufficient_text_witness :
  (5 <= len (_extract_text_content Samples.plain))%nat
  /\ Review.status
       (decision (R:=float) (EnhancedSynthesisEngine _load_verifier_config)
                 Samples.no_stats Samples.plain None)
     = Some (u "approved").
Proof.
  split; [vm_compute; lia|].
  refine (proj1 (proj2 (default_engine_approves_sufficient_text
                          Samples.no_stats Samples.plain None _))).
  vm_compute; lia.
Defined.

(* ================================================================= *)
(** ** The basic sentiment analyzer, in exact arithmetic *)

Section ExactSentiment.
Local Open Scope Q_scope.

Lemma quotient_facts (d : Z) (w : nat) :
  (1 <= w)%nat ->
  let q := inject_Z d / inject_Z (Z.of_nat w) in
  0 < inject_Z (Z.of_nat w) /\ q * inject_Z (Z.of_nat w) == inject_Z d.
Proof.
  intros Hw q.
  assert (HW : 0 < inject_Z (Z.of_nat w)).
  { change 0 with (inject_Z 0). rewrite <- Zlt_Qlt. lia. }
  split; [exact HW|]. subst q. field. lra.
Qed.

Lemma polarity_above (d : Z) (w : nat) :
  (1 <= w)%nat ->
  negb (Qle_bool (inject_Z d / inject_Z (Z.of_nat w)) 0.05)
  = (Z.of_nat w <? 20 * d)%Z.
Proof.
  intros Hw. destruct (quotient_facts d w Hw) as [HW Hq].
  set (q := inject_Z d / inject_Z (Z.of_nat w)) in *.
  assert (H20 : inject_Z (20 * d) == 20 * inject_Z d).
  { rewrite inject_Z_mult. reflexivity. }
  destruct (Z.ltb_spec (Z.of_nat w) (20 * d)) as [Hlt|Hge];
    destruct (Qle_bool q 0.05) eqn:Hle; cbn [negb]; try reflexivity; exfalso.
  - apply Qle_bool_iff in Hle. rewrite Zlt_Qlt, H20 in Hlt. nra.
  - assert (Hgt : 0.05 < q).
    { apply Qnot_le_lt. intros Hc. apply Qle_bool_iff in Hc. congruence. }
    rewrite Zle_Qle, H20 in Hge. nra.
Qed.

Lemma polarity_below (d : Z) (w : nat) :
  (1 <= w)%nat ->
  negb (Qle_bool (-0.05) (inject_Z d / inject_Z (Z.of_nat w)))
  = (Z.of_nat w <? 20 * - d)%Z.
Proof.
  intros Hw. destruct (quotient_facts d w Hw) as [HW Hq].
  set (q := inject_Z d / inject_Z (Z.of_nat w)) in *.
  assert (H20 : inject_Z (20 * - d) == - (20 * inject_Z d)).
  { rewrite inject_Z_mult, inject_Z_opp. ring. }
  destruct (Z.ltb_spec (Z.of_nat w) (20 * - d)) as [Hlt|Hge];
    destruct (Qle_bool (-0.05) q) eqn:Hle; cbn [negb]; try reflexivity; exfalso.
  - apply Qle_bool_iff in Hle. rewrite Zlt_Qlt, H20 in Hlt. nra.
  - assert (Hgt : q < -0.05).
    { apply Qnot_le_lt. intros Hc. apply Qle_bool_iff in Hc. congruence. }
    rewrite Zle_Qle, H20 in Hge. nra.
Qed.

End ExactSentiment.

(** X9.  In exact arithmetic the class of a text with at least one word
    is decided by three integers: with [p] positive and [n] negative
    words found and [w] words in the text, it is positive when
    [20 (p - n) > w], negative when [20 (n - p) > w], neutral otherwise.
    A word list has seven entries and each counts once, so a text of 140
    words or more is neutral whatever it says. *)
Theorem sentiment_is_decided_by_counts (text : pystr) :
  let words := len (split (lower text)) in
  let positive := Z.of_nat (len (found_in positive_words (lower text))) in
  let negative := Z.of_nat (len (found_in negative_words (lower text))) in
  (1 <= words)%nat ->
  Sentiment.classification (analyze_sentiment (R:=Q) text)
  = Some (if (Z.of_nat words <? 20 * (positive - negative))%Z
          then u "positive"
          else if (Z.of_nat words <? 20 * (negative - positive))%Z
               then u "negative"
               else u "neutral")
  /\ ((140 <= words)%nat ->
      Sentiment.classification (analyze_sentiment (R:=Q) text)
      = Some (u "neutral")).
Proof.
  intros words positive negative Hw.
  assert (Hclass :
            Sentiment.classification (analyze_sentiment (R:=Q) text)
            = Some (if (Z.of_nat words <? 20 * (positive - negative))%Z
                    then u "positive"
                    else if (Z.of_nat words <? 20 * (negative - positive))%Z
                         then u "negative"
                         else u "neutral")).
  { unfold analyze_sentiment.
    assert (Htext : truthy text = true).
    { destruct text; [|reflexivity]. subst words. cbn in Hw. lia. }
    rewrite Htext. cbn [negb]. fold words.
    destruct (Nat.eqb_spec words 0) as [H0|_]; [lia|].
    cbn [Sentiment.classification].
    replace (Nat.max words 1) with words by lia.
    fold positive negative.
    cbn [lit of_int div ltb QFloat].
    rewrite (polarity_above (positive - negative) words Hw).
    rewrite (polarity_below (positive - negative) words Hw).
    replace (- (positive - negative))%Z with (negative - positive)%Z by lia.
    reflexivity. }
  split; [exact Hclass|].
  intros Hlong. rewrite Hclass.
  assert (Hp : (0 <= positive <= 7)%Z).
  { subst positive. split; [lia|].
    apply (Nat2Z.inj_le _ 7).
    apply (filter_length_le _ positive_words). }
  assert (Hn : (0 <= negative <= 7)%Z).
  { subst negative. split; [lia|].
    apply (Nat2Z.inj_le _ 7).
    apply (filter_length_le _ negative_words). }
  destruct (Z.ltb_spec (Z.of_nat words) (20 * (positive - negative)));
    [lia|].
  destruct (Z.ltb_spec (Z.of_nat words) (20 * (negative - positive)));
    [lia|reflexivity].
Qed.

Lemma sentiment_is_decided_by_counts_witness :
  (1 <= len (split (lower (u "um produto excelente"))))%nat
  /\ Sentiment.classification
       (analyze_sentiment (R:=Q) (u "um produto excelente"))
     = Some (u "positive").
Proof.
  split; [vm_compute; lia|].
  refine (proj1 (sentiment_is_decided_by_counts
                   (u "um produto excelente") _)).
  vm_compute; lia.
Defined.

(* ================================================================= *)
(** ** The batch report of the service *)

Section ReportCounts.
Context {R : Type} `{PyFloat R}.
Local Open Scope py_scope.

Lemma count_where_cons {A : Type} (p : A -> bool) (x : A) (xs : list A) :
  count_where p (x :: xs)
  = ((if p x then 1 else 0) + count_where p xs)%nat.
Proof. unfold count_where, len. cbn [filter]. destruct (p x); reflexivity. Qed.

Lemma count_where_le {A : Type} (p : A -> bool) (xs : list A) :
  (count_where p xs <= len xs)%nat.
Proof. apply filter_length_le. Qed.

Lemma statuses_exclude (r : Analysis.t R) :
  ((if has_status (u "approved") r then 1 else 0)
   + (if has_status (u "rejected") r then 1 else 0)
   + (if has_status (u "error") r then 1 else 0)
   + (if has_other_status r then 1 else 0) = 1)%nat.
Proof.
  unfold has_other_status, has_status, status_is.
  destruct (Review.status (review_of r)) as [s|]; [|reflexivity].
  destruct (streq s (u "approved")) eqn:Ha.
  { apply streq_true_iff in Ha. subst s. reflexivity. }
  destruct (streq s (u "rejected")) eqn:Hr.
  { apply streq_true_iff in Hr. subst s. reflexivity. }
  destruct (streq s (u "error")); reflexivity.
Qed.

(** X10.  The four counts of the report split the results: every result
    is counted once, as approved, as rejected, as an error, or as none of
    the three when its status is another string or is missing.  The
    overall status of a compiled report is 'approved' when more results
    are approved than rejected and 'rejected' otherwise, also when no
    result is rejected. *)
Theorem report_counts_split_the_results (results : list (Analysis.t R)) :
  let report := _compile_verification_result results in
  let s := Report.statistics report in
  Statistics.total_items_analyzed s = len results
  /\ (Statistics.items_approved s + Statistics.items_rejected s
      + Statistics.items_with_errors s + count_where has_other_status results
      = len results)%nat
  /\ Report.overall_status report
     = (if (Statistics.items_rejected s <? Statistics.items_approved s)%nat
        then u "approved" else u "rejected")
  /\ Report.detailed_results report = results.
Proof.
  cbn zeta. split; [reflexivity|]. split; [|split; reflexivity].
  cbn [_compile_verification_result Report.statistics statistics
       Statistics.items_approved Statistics.items_rejected
       Statistics.items_with_errors].
  induction results as [|r results IH]; [reflexivity|].
  rewrite !count_where_cons. cbn [len List.length].
  pose proof (statuses_exclude r) as Hone. unfold len in IH. lia.
Qed.

Lemma in_append_if (condition : bool) (note : pystr)
      (recommendations : list pystr) (s : pystr) :
  In s (append_if condition note recommendations) ->
  In s recommendations \/ (condition = true /\ s = note).
Proof.
  unfold append_if. destruct condition; [|intros Hin; left; exact Hin].
  intros Hin. apply in_app_or in Hin. destruct Hin as [Hin|[Heq|[]]];
    [left; exact Hin | right; split; [reflexivity | symmetry; exact Heq]].
Qed.

Lemma append_if_length (condition : bool) (note : pystr)
      (recommendations : list pystr) :
  (len recommendations <= len (append_if condition note recommendations)
   <= S (len recommendations))%nat.
Proof.
  unfold append_if, len. destruct condition; [|lia].
  rewrite length_app. cbn [List.length]. lia.
Qed.

(** The notes collected before the test for an empty list. *)
Lemma collected_notes (c1 c2 c4 : bool) (nb total : nat) (s : pystr) :
  (nb <= total)%nat ->
  In s (append_if c4 low_confidence_note
          (append_if (0 <? nb)%nat (high_bias_note nb)
             (append_if c2 negative_sentiment_note
                (append_if c1 rejection_warning [])))) ->
  s = rejection_warning \/ s = negative_sentiment_note
  \/ (exists n : nat, (1 <= n <= total)%nat /\ s = high_bias_note n)
  \/ s = low_confidence_note.
Proof.
  intros Hnb Hin.
  apply in_append_if in Hin.
  destruct Hin as [Hin|[_ Heq]]; [|right; right; right; exact Heq].
  apply in_append_if in Hin. destruct Hin as [Hin|[Hc Heq]].
  2: { right; right; left. exists nb. split; [|exact Heq].
       apply Nat.ltb_lt in Hc. lia. }
  apply in_append_if in Hin.
  destruct Hin as [Hin|[_ Heq]]; [|right; left; exact Heq].
  apply in_append_if in Hin. destruct Hin as [[]|[_ Heq]].
  left; exact Heq.
Qed.

Lemma approval_note_is_not_collected (c1 c2 c4 : bool) (nb : nat) :
  ~ In approval_note
       (append_if c4 low_confidence_note
          (append_if (0 <? nb)%nat (high_bias_note nb)
             (append_if c2 negative_sentiment_note
                (append_if c1 rejection_warning [])))).
Proof.
  intros Hin. apply (collected_notes c1 c2 c4 nb nb _ (le_n nb)) in Hin.
  destruct Hin as [Heq|[Heq|[(n & _ & Heq)|Heq]]];
    apply (f_equal (hd 0%N)) in Heq; vm_compute in Heq; discriminate.
Qed.

(** X11.  [_generate_recommendations] returns between one and four
    notes, each of them one of its five texts; the approval note is
    returned only alone, when none of the four conditions holds. *)
Theorem recommendations_are_never_empty (results : list (Analysis.t R)) :
  let notes := _generate_recommendations results in
  (1 <= len notes <= 4)%nat
  /\ (forall s : pystr,
         In s notes ->
         s = rejection_warning \/ s = negative_sentiment_note
         \/ (exists n : nat, (1 <= n <= len results)%nat /\ s = high_bias_note n)
         \/ s = low_confidence_note \/ s = approval_note)
  /\ (In approval_note notes -> notes = [approval_note]).
Proof.
  cbn zeta. unfold _generate_recommendations.
  match goal with
  | |- context [append_if ?c4 low_confidence_note
                  (append_if (0 <? ?nb)%nat _
                     (append_if ?c2 negative_sentiment_note
                        (append_if ?c1 rejection_warning []))) ] =>
      pose proof (collected_notes c1 c2 c4 nb (len results)) as Hin4;
      pose proof (approval_note_is_not_collected c1 c2 c4 nb) as Hno;
      pose proof (append_if_length c1 rejection_warning []) as H1;
      pose proof (append_if_length c2 negative_sentiment_note
                    (append_if c1 rejection_warning [])) as H2;
      pose proof (append_if_length (0 <? nb)%nat (high_bias_note nb)
                    (append_if c2 negative_sentiment_note
                       (append_if c1 rejection_warning []))) as H3;
      pose proof (append_if_length c4 low_confidence_note
                    (append_if (0 <? nb)%nat (high_bias_note nb)
                       (append_if c2 negative_sentiment_note
                          (append_if c1 rejection_warning [])))) as H4;
      assert (Hnb : (nb <= len results)%nat) by apply count_where_le;
      set (collected := append_if c4 low_confidence_note _) in *
  end.
  change (len (@nil pystr)) with 0%nat in H1.
  clearbody collected.
  destruct collected as [|note collected].
  - split; [cbn [len List.length]; lia|]. split; [|reflexivity].
    intros s [Heq|[]]. right; right; right; right. symmetry; exact Heq.
  - split; [cbn [len List.length] in *; lia|].
    split; [|intros Hin; contradiction].
    intros s Hin. apply (Hin4 s Hnb) in Hin.
    destruct Hin as [Heq|[Heq|[Heq|Heq]]];
      [left | right; left | right; right; left | right; right; right; left];
      exact Heq.
Qed.

End ReportCounts.

(* ================================================================= *)
(** ** The extracted text *)

Lemma lstrip_fixed_head (c : N) (r : pystr) :
  lstrip (c :: r) = c :: r -> isspace c = false.
Proof.
  intros Hfix. destruct (isspace c) eqn:Hc; [|reflexivity].
  cbn [lstrip] in Hfix. rewrite Hc in Hfix.
  pose proof (lstrip_length r) as Hle. rewrite Hfix in Hle.
  unfold len in Hle. cbn [List.length] in Hle. lia.
Qed.

Lemma lstrip_fixed_app (a b : pystr) :
  a <> [] -> lstrip a = a -> lstrip (a ++ b) = a ++ b.
Proof.
  intros Ha Hfix. destruct a as [|c r]; [contradiction|].
  apply lstrip_fixed_head in Hfix. cbn [app lstrip]. rewrite Hfix.
  reflexivity.
Qed.

Lemma rstrip_fixed_app (a b : pystr) :
  b <> [] -> rstrip b = b -> rstrip (a ++ b) = a ++ b.
Proof.
  intros Hb Hfix. unfold rstrip in *.
  assert (Hrev : lstrip (rev b) = rev b).
  { rewrite <- (rev_involutive (lstrip (rev b))), Hfix. reflexivity. }
  rewrite rev_app_distr, lstrip_fixed_app, <- rev_app_distr, rev_involutive;
    [reflexivity | | exact Hrev].
  intros Hnil. apply (f_equal (@rev N)) in Hnil.
  rewrite rev_involutive in Hnil. exact (Hb Hnil).
Qed.

Lemma strip_fixed (s : pystr) :
  strip s = s <-> lstrip s = s /\ rstrip s = s.
Proof.
  split.
  - intros Hfix.
    assert (Hl : lstrip s = s).
    { rewrite <- Hfix at 1. unfold strip. rewrite lstrip_rstrip_lstrip.
      exact Hfix. }
    split; [exact Hl|]. unfold strip in Hfix. rewrite Hl in Hfix. exact Hfix.
  - intros [Hl Hr]. unfold strip. rewrite Hl. exact Hr.
Qed.

(** Joining trimmed, non-empty parts gives a trimmed string. *)
Lemma join_of_trimmed_parts (sep : pystr) (parts : list pystr) :
  Forall (fun p => p <> [] /\ strip p = p) parts ->
  strip (join sep parts) = join sep parts
  /\ (parts <> [] -> join sep parts <> []).
Proof.
  induction 1 as [|p ps [Hp Hfix] Hall IH];
    [split; [reflexivity | intros Hn; exfalso; apply Hn; reflexivity]|].
  rewrite join_cons. destruct ps as [|q qs].
  { split; [exact Hfix | intros _; exact Hp]. }
  destruct IH as [IHfix IHne].
  assert (Hne : join sep (q :: qs) <> []) by (apply IHne; discriminate).
  apply strip_fixed in Hfix. destruct Hfix as [Hl Hr].
  apply strip_fixed in IHfix. destruct IHfix as [IHl IHr].
  split.
  - apply strip_fixed. split.
    + apply lstrip_fixed_app; assumption.
    + rewrite (app_assoc p sep). apply rstrip_fixed_app; assumption.
  - intros _ Hnil. apply app_eq_nil in Hnil. destruct Hnil as [Hnil _].
    exact (Hp Hnil).
Qed.

Lemma trimmed_values_are_trimmed (vs : list pystr) :
  Forall (fun p => p <> [] /\ strip p = p) (filter truthy (map strip vs)).
Proof.
  apply Forall_forall. intros p Hin. apply filter_In in Hin.
  destruct Hin as [Hin Hp]. apply in_map_iff in Hin.
  destruct Hin as (v & <- & _). split.
  - intros Hnil. rewrite Hnil in Hp. discriminate.
  - apply strip_idempotent.
Qed.

Lemma blank_values_are_dropped (vs : list pystr) :
  (forall v : pystr, In v vs -> strip v = []) ->
  filter truthy (map strip vs) = [].
Proof.
  induction vs as [|v vs IH]; intros Hall; [reflexivity|].
  cbn [map filter]. rewrite (Hall v (or_introl eq_refl)). cbn [truthy].
  apply IH. intros w Hin. apply Hall. right. exact Hin.
Qed.

(** X12.  The text [_extract_text_content] returns is the trimmed values
    of the five priority fields, blank ones left out, joined by single
    spaces: the final [strip] changes nothing.  The text is empty exactly
    when every field that is present is blank. *)
Theorem extracted_text_is_the_joined_values (item_data : Item.t) :
  let values :=
    flat_map (fun f => match Item.lookup item_data f with
                       | Some value => [value]
                       | None => []
                       end)
             priority_fields in
  _extract_text_content item_data
  = join (u " ") (filter truthy (map strip values))
  /\ (_extract_text_content item_data = []
      <-> forall (f : Field.t) (value : pystr),
          Item.lookup item_data f = Some value -> strip value = []).
Proof.
  cbn zeta.
  set (values := flat_map _ priority_fields).
  assert (Htext : _extract_text_content item_data
                  = join (u " ") (filter truthy (map strip values))).
  { unfold _extract_text_content. rewrite text_parts_loop. cbn [app].
    replace (filter truthy (map strip (flat_map _ priority_fields)))
      with (filter truthy (map strip values)).
    - apply (join_of_trimmed_parts (u " ")).
      apply trimmed_values_are_trimmed.
    - subst values. unfold priority_fields. cbn [flat_map].
      destruct item_data as [i c t d ti s o]. cbn [Item.lookup].
      destruct c as [[|? ?]|], t as [[|? ?]|], d as [[|? ?]|],
               ti as [[|? ?]|], s as [[|? ?]|]; reflexivity. }
  split; [exact Htext|]. rewrite Htext.
  destruct (join_of_trimmed_parts (u " ") _ (trimmed_values_are_trimmed values))
    as [_ Hne].
  split.
  - intros Hnil f value Hf.
    destruct (filter truthy (map strip values)) as [|p ps] eqn:Hparts;
      [|exfalso; apply Hne; [discriminate | exact Hnil]].
    destruct (strip value) as [|c r] eqn:Hv; [reflexivity|exfalso].
    assert (Hin : In (strip value) (filter truthy (map strip values))).
    { apply filter_In. split; [|rewrite Hv; reflexivity].
      apply in_map. subst values. apply in_flat_map. exists f.
      split; [destruct f; cbn; tauto | rewrite Hf; left; reflexivity]. }
    rewrite Hparts in Hin. exact Hin.
  - intros Hblank.
    assert (Hall : forall v : pystr, In v values -> strip v = []).
    { intros v Hin. subst values. apply in_flat_map in Hin.
      destruct Hin as (f & _ & Hin).
      destruct (Item.lookup item_data f) as [value|] eqn:Hf; [|destruct Hin].
      destruct Hin as [<-|[]]. exact (Hblank f value Hf). }
    rewrite (blank_values_are_dropped values Hall). reflexivity.
Qed.

(* ================================================================= *)
(** ** Rates and averages of the reports, in exact arithmetic *)

Section ExactReports.
Local Open Scope Q_scope.

Lemma count_as_rational (n : nat) : 0 <= inject_Z (Z.of_nat n).
Proof. change 0 with (inject_Z 0). rewrite <- Zle_Qle. lia. Qed.

Lemma ratio_in_unit_interval (a t : nat) :
  (a <= t)%nat -> (1 <= t)%nat ->
  0 <= inject_Z (Z.of_nat a) / inject_Z (Z.of_nat t) <= 1.
Proof.
  intros Hat Ht.
  assert (HT : 0 < inject_Z (Z.of_nat t)).
  { change 0 with (inject_Z 0). rewrite <- Zlt_Qlt. lia. }
  assert (HA : inject_Z (Z.of_nat a) <= inject_Z (Z.of_nat t)).
  { rewrite <- Zle_Qle. lia. }
  pose proof (count_as_rational a) as HA0.
  split.
  - apply Qle_shift_div_l; [exact HT | lra].
  - apply Qle_shift_div_r; [exact HT | lra].
Qed.

Lemma pysum_from_bounds (xs : list Q) (acc : Q) :
  Forall (fun x => 0 <= x <= 1) xs ->
  acc <= fold_left Qplus xs acc
  /\ fold_left Qplus xs acc <= acc + inject_Z (Z.of_nat (len xs)).
Proof.
  intros Hall. revert acc.
  induction Hall as [|x xs Hx Hall IH]; intros acc; cbn [fold_left].
  - change (inject_Z (Z.of_nat (len (@nil Q)))) with 0. split; lra.
  - destruct (IH (acc + x)) as [Hlo Hhi].
    assert (Hlen : inject_Z (Z.of_nat (len (x :: xs)))
                   == inject_Z (Z.of_nat (len xs)) + 1).
    { unfold len. cbn [List.length]. rewrite Nat2Z.inj_succ.
      unfold Z.succ. rewrite inject_Z_plus. reflexivity. }
    rewrite Hlen. split; lra.
Qed.

(** X13.  In exact arithmetic the rates of the three reports stay in
    their ranges: the approval rate of the compiled report is within
    [0, 100]; when every result carries a final confidence within
    [0, 1] (or none), the average confidence is within [0, 1] and the
    quality score within [0, 100]; and every result falls in exactly
    one of the three confidence classes of the summary. *)
Theorem report_rates_stay_in_range (results : list (Analysis.t Q)) :
  let report := _compile_verification_result results in
  let s := Report.statistics report in
  let summary := Report.verification_summary report in
  0 <= Statistics.approval_rate s <= 100
  /\ (Summary.high_confidence_items summary
      + Summary.medium_confidence_items summary
      + Summary.low_confidence_items summary = len results)%nat
  /\ (Forall (fun r => 0 <= summary_confidence r <= 1) results ->
      0 <= Statistics.average_confidence s <= 1
      /\ 0 <= Report.quality_score report <= 100).
Proof.
  cbn zeta.
  cbn [_compile_verification_result Report.statistics
       Report.verification_summary Report.quality_score].
  split; [|split].
  - unfold statistics. cbn [Statistics.approval_rate].
    destruct (Nat.ltb_spec 0 (len results)) as [Hpos|Hzero].
    + cbn [of_int div mul QFloat].
      pose proof (ratio_in_unit_interval
                    (count_where (has_status (u "approved")) results)
                    (len results)
                    (count_where_le _ results) Hpos) as Hratio.
      change (inject_Z 100) with 100. split; lra.
    + cbn [of_int QFloat]. change (inject_Z 0) with 0. split; lra.
  - unfold verification_summary.
    cbn [Summary.high_confidence_items Summary.medium_confidence_items
         Summary.low_confidence_items].
    induction results as [|r results IH]; [reflexivity|].
    rewrite !count_where_cons. cbn [len List.length]. unfold len in IH.
    cbn [lit leb ltb QFloat] in IH |- *.
    destruct (Qle_bool (summary_confidence r) 0.8) eqn:Hhigh;
      destruct (Qle_bool 0.5 (summary_confidence r)) eqn:Hlow;
      cbn [negb andb]; cbv beta iota; try lia.
    exfalso.
    assert (H1 : ~ summary_confidence r <= 0.8).
    { intros Hc. apply Qle_bool_iff in Hc. congruence. }
    assert (H2 : ~ 0.5 <= summary_confidence r).
    { intros Hc. apply Qle_bool_iff in Hc. congruence. }
    apply Qnot_le_lt in H1, H2. lra.
  - intros Hall.
    assert (Havg : 0 <= Statistics.average_confidence (statistics results)
                   <= 1).
    { unfold statistics. cbn [Statistics.average_confidence].
      destruct results as [|r results]; [cbn [map lit QFloat]; split; lra|].
      set (confidences := map _ (r :: results)).
      assert (Hlen : len confidences = len (r :: results)).
      { subst confidences. unfold len. apply length_map. }
      assert (Hconf : Forall (fun x => 0 <= x <= 1) confidences).
      { subst confidences. apply Forall_map.
        eapply Forall_impl; [|exact Hall]. intros a Ha.
        unfold summary_confidence in Ha.
        destruct (Review.final_confidence (review_of a)); cbn [get] in *;
          [exact Ha | split; vm_compute; discriminate]. }
      destruct confidences as [|c cs] eqn:Hcs; [discriminate|].
      rewrite <- Hcs in *. unfold pysum. cbn [of_int div add QFloat].
      destruct (pysum_from_bounds confidences (inject_Z 0) Hconf)
        as [Hlo Hhi].
      change (inject_Z 0) with 0 in *.
      assert (HT : 0 < inject_Z (Z.of_nat (len confidences))).
      { change 0 with (inject_Z 0). rewrite <- Zlt_Qlt, Hlen.
        unfold len. cbn [List.length]. lia. }
      split.
      - apply Qle_shift_div_l; [exact HT | lra].
      - apply Qle_shift_div_r; [exact HT | lra]. }
    split; [exact Havg|].
    cbn [of_int mul QFloat]. change (inject_Z 100) with 100. split; lra.
Qed.

Lemma report_rates_stay_in_range_witness :
  Forall (fun r : Analysis.t Q => 0 <= summary_confidence r <= 1)
         (Samples.engine_batch (R:=Q))
  /\ 0 <= Report.quality_score
            (_compile_verification_result (Samples.engine_batch (R:=Q)))
     <= 100.
Proof.
  assert (Hall : Forall (fun r : Analysis.t Q => 0 <= summary_confidence r <= 1)
                        (Samples.engine_batch (R:=Q))).
  { repeat (apply Forall_cons; [split; vm_compute; discriminate|]).
    apply Forall_nil. }
  split; [exact Hall|].
  exact (proj2 (proj2 (proj2 (report_rates_stay_in_range
                                (Samples.engine_batch (R:=Q)))) Hall)).
Defined.

End ExactReports.

Section ExactBatchRates.
Local Open Scope Q_scope.

Lemma ratio_grows_as_total_shrinks (a t n : nat) :
  (a <= t)%nat -> (t <= n)%nat ->
  0 <= inject_Z (Z.of_nat a) / inject_Z (Z.of_nat (Nat.max n 1))
  /\ inject_Z (Z.of_nat a) / inject_Z (Z.of_nat (Nat.max n 1))
     <= inject_Z (Z.of_nat a) / inject_Z (Z.of_nat (Nat.max t 1))
  /\ inject_Z (Z.of_nat a) / inject_Z (Z.of_nat (Nat.max t 1)) <= 1.
Proof.
  intros Hat Htn.
  destruct (ratio_in_unit_interval a (Nat.max n 1)) as [Hn0 Hn1]; [lia|lia|].
  destruct (ratio_in_unit_interval a (Nat.max t 1)) as [Ht0 Ht1]; [lia|lia|].
  split; [exact Hn0|]. split; [|exact Ht1].
  assert (HT : 0 < inject_Z (Z.of_nat (Nat.max t 1))).
  { change 0 with (inject_Z 0). rewrite <- Zlt_Qlt. lia. }
  assert (HN : 0 < inject_Z (Z.of_nat (Nat.max n 1))).
  { change 0 with (inject_Z 0). rewrite <- Zlt_Qlt. lia. }
  assert (HTN : inject_Z (Z.of_nat (Nat.max t 1))
                <= inject_Z (Z.of_nat (Nat.max n 1))).
  { rewrite <- Zle_Qle. lia. }
  set (x := inject_Z (Z.of_nat a) / inject_Z (Z.of_nat (Nat.max t 1))) in *.
  assert (Hx : x * inject_Z (Z.of_nat (Nat.max t 1)) == inject_Z (Z.of_nat a)).
  { subst x. field. lra. }
  apply Qle_shift_div_r; [exact HN|]. nra.
Qed.

(** X14.  For an engine with fresh counters the dict returned by
    [_verify_all_data] is consistent: its approved and rejected counts
    add up to its total, and its approval rate is within [0, 1].  The
    [approved] counter of the engine is the approved count of the dict,
    but the rate of [get_verification_stats] divides by the items that
    reached a decision only, so it is never below the rate of the dict
    (and at most 1). *)
Theorem batch_rates_are_consistent (self : engine Q)
        (dados_web : list web_entry) :
  let fresh := make_stats 0 0 0 in
  let report := verified_report self fresh dados_web in
  let counters :=
    get_verification_stats
      (stats_after (_verify_all_data self fresh dados_web)) in
  (VerifiedReport.approved_items report + VerifiedReport.rejected_items report
   = VerifiedReport.total_items report)%nat
  /\ EngineStats.approved counters = VerifiedReport.approved_items report
  /\ (EngineStats.total_verified counters
      <= VerifiedReport.total_items report)%nat
  /\ 0 <= VerifiedReport.approval_rate report
  /\ VerifiedReport.approval_rate report <= EngineStats.approval_rate counters
  /\ EngineStats.approval_rate counters <= 1.
Proof.
  cbn zeta.
  unfold verified_report, get_verification_stats.
  cbn [VerifiedReport.approved_items VerifiedReport.rejected_items
       VerifiedReport.total_items VerifiedReport.approval_rate
       EngineStats.approved EngineStats.total_verified
       EngineStats.approval_rate].
  pose proof (batch_loop_files_all self (enumerate dados_web)
                {| approved_data := []; rejected_data := [];
                   stats_after := make_stats 0 0 0 |}) as Hall.
  pose proof (batch_loop_counters self (enumerate dados_web)
                {| approved_data := []; rejected_data := [];
                   stats_after := make_stats 0 0 0 |}) as Hcount.
  destruct (batch_is_a_stable_partition_aux self (make_stats 0 0 0) dados_web)
    as [Happ Hrej].
  cbv zeta in Hcount.
  fold (_verify_all_data self (make_stats 0 0 0) dados_web) in Hall, Hcount.
  cbn [approved_data rejected_data stats_after approved rejected
       total_verified] in Hall, Hcount.
  rewrite enumerate_length in Hall.
  change (len (@nil web_entry)) with 0%nat in Hall.
  destruct Hcount as (Ha & Hr & Ht).
  assert (Hlen_a : len (filter (entry_is_approved self) (enumerate dados_web))
                   = len (approved_data
                            (_verify_all_data self (make_stats 0 0 0)
                                              dados_web))).
  { rewrite Happ. unfold len. rewrite length_map. reflexivity. }
  assert (Hlen_r : len (filter (fun p => negb (entry_is_approved self p))
                               (enumerate dados_web))
                   = len (rejected_data
                            (_verify_all_data self (make_stats 0 0 0)
                                              dados_web))).
  { rewrite Hrej. unfold len. rewrite length_map. reflexivity. }
  rewrite Hlen_a in Ha. rewrite Hlen_r in Hr.
  set (verified := _verify_all_data self (make_stats 0 0 0) dados_web) in *.
  split; [lia|]. split; [lia|]. split; [lia|].
  cbn [of_int div QFloat]. rewrite Ha. cbn [Nat.add].
  apply ratio_grows_as_total_shrinks; lia.
Qed.

End ExactBatchRates.

(* ================================================================= *)
(** ** The service: counters, report and failure *)

Section ServiceRun.
Context {R : Type} `{PyFloat R}.
Variable repr json_dumps : json -> pystr.
Variable process_item : Prepared.t -> PyDict.t -> outcome (Analysis.t R).

Lemma counted_nothing (stats : SessionStats.t) :
  Service.counted stats (@nil (Analysis.t R)) = stats.
Proof.
  destruct stats as [p a r]. unfold Service.counted, count_where, len.
  cbn [filter List.length SessionStats.items_processed
       SessionStats.items_approved SessionStats.items_rejected].
  rewrite !Nat.add_0_r. reflexivity.
Qed.

Lemma counted_one_more (stats : SessionStats.t)
      (results : list (Analysis.t R)) (result : Analysis.t R) :
  Service.count_item (Service.counted stats results) result
  = Service.counted stats (results ++ [result]).
Proof.
  unfold Service.count_item, Service.counted, count_where, has_status,
    status_is, len.
  rewrite !filter_app, !length_app. cbn [filter].
  destruct (Review.status (review_of result)) as [status|]; cbn [get].
  - destruct (streq status (u "approved")) eqn:Ha.
    + apply streq_true_iff in Ha. subst status.
      cbn [SessionStats.items_processed SessionStats.items_approved
           SessionStats.items_rejected].
      change (streq (u "approved") (u "rejected")) with false.
      cbn [List.length]. f_equal; lia.
    + destruct (streq status (u "rejected"));
        cbn [SessionStats.items_processed SessionStats.items_approved
             SessionStats.items_rejected List.length]; f_equal; lia.
  - change (streq (u "error") (u "approved")) with false.
    change (streq (u "error") (u "rejected")) with false.
    cbn [SessionStats.items_processed SessionStats.items_approved
         SessionStats.items_rejected List.length]. f_equal; lia.
Qed.

Lemma process_items_run (data : PyDict.t) (items : list Prepared.t)
      (stats : SessionStats.t) (seen : list (Analysis.t R)) :
  let out := Service.process_items process_item items data seen
                                   (Service.counted stats seen) in
  (exists results : list (Analysis.t R),
      Forall2 (fun item r => process_item item data = Ok r) items results
      /\ out = (Ok (seen ++ results), Service.counted stats (seen ++ results)))
  \/ (exists (done : list Prepared.t) (item : Prepared.t)
             (rest : list Prepared.t) (e : pystr)
             (results : list (Analysis.t R)),
         items = done ++ item :: rest
         /\ Forall2 (fun item r => process_item item data = Ok r) done results
         /\ process_item item data = Raise e
         /\ out = (Raise e, Service.counted stats (seen ++ results))).
Proof.
  cbv zeta. revert seen. induction items as [|item items IH]; intros seen.
  - left. exists []. split; [constructor|]. rewrite app_nil_r. reflexivity.
  - cbn [Service.process_items].
    destruct (process_item item data) as [result|e] eqn:Hitem.
    + rewrite counted_one_more.
      destruct (IH (seen ++ [result]))
        as [(results & Hall & Hout)
           |(done & item' & rest & e & results & Hitems & Hall & He & Hout)].
      * left. exists (result :: results).
        split; [constructor; assumption|].
        rewrite Hout, <- app_assoc. reflexivity.
      * right. exists (item :: done), item', rest, e, (result :: results).
        split; [rewrite Hitems; reflexivity|].
        split; [constructor; assumption|]. split; [exact He|].
        rewrite Hout, <- app_assoc. reflexivity.
    + right. exists [], item, items, e, [].
      split; [reflexivity|]. split; [constructor|]. split; [exact Hitem|].
      rewrite app_nil_r. reflexivity.
Qed.

(** X15.  A run of [process_session_data] ends in one of three ways.
    Without items it returns the empty result and counts nothing.  When
    the agent answers for every item, the report is compiled from its
    answers, in the order of the items, and the session counters grow by
    the numbers the report states.  When the agent raises, the error
    result reports no analysed item and one error, while the counters
    keep the items answered before the failure. *)
Theorem service_counters_follow_the_agent (data : PyDict.t)
        (stats : SessionStats.t) :
  let items := Service._prepare_data_for_analysis repr json_dumps data in
  let out :=
    Service.process_session_data repr json_dumps process_item data stats in
  (items = [] /\ out = (Service._create_empty_result, stats))
  \/ (exists results : list (Analysis.t R),
         items <> []
         /\ Forall2 (fun item r => process_item item data = Ok r) items results
         /\ out = ({| ServiceResult.report :=
                        _compile_verification_result results;
                      ServiceResult.error := None |},
                   Service.counted stats results))
  \/ (exists (done : list Prepared.t) (item : Prepared.t)
             (rest : list Prepared.t) (e : pystr)
             (results : list (Analysis.t R)),
         items = done ++ item :: rest
         /\ Forall2 (fun item r => process_item item data = Ok r) done results
         /\ process_item item data = Raise e
         /\ out = (Service._create_error_result e,
                   Service.counted stats results)).
Proof.
  cbv zeta. unfold Service.process_session_data.
  destruct (Service._prepare_data_for_analysis repr json_dumps data)
    as [|first others] eqn:Hitems.
  { left. split; reflexivity. }
  right.
  pose proof (process_items_run data (first :: others) stats []) as Hrun.
  cbv zeta in Hrun. rewrite counted_nothing in Hrun.
  destruct Hrun
    as [(results & Hall & Hout)
       |(done & item & rest & e & results & Hsplit & Hall & He & Hout)].
  - left. exists results. split; [discriminate|]. split; [exact Hall|].
    rewrite Hout. reflexivity.
  - right. exists done, item, rest, e, results.
    split; [exact Hsplit|]. split; [exact Hall|]. split; [exact He|].
    rewrite Hout. reflexivity.
Qed.

End ServiceRun.

(* ================================================================= *)
(** ** From the loader of the route to the service *)

Lemma set_keys (d : PyDict.t) (k key : pystr) (v : json) :
  In key (PyDict.keys (PyDict.set d k v)) -> key = k \/ In key (PyDict.keys d).
Proof.
  unfold PyDict.keys. induction d as [|[k' v'] d IH]; cbn [PyDict.set map fst].
  - intros [Heq|[]]. left. symmetry. exact Heq.
  - destruct (streq k' k) eqn:Hk; cbn [map fst In].
    + intros Hin. right. exact Hin.
    + intros [Heq|Hin]; [right; left; exact Heq|].
      destruct (IH Hin) as [Heq|Hin']; [left; exact Heq | right; right; exact Hin'].
Qed.

Lemma lookup_absent (d : PyDict.t) (key : pystr) :
  ~ In key (PyDict.keys d) -> PyDict.lookup d key = None.
Proof.
  unfold PyDict.keys. induction d as [|[k v] d IH]; intros Hout;
    [reflexivity|].
  cbn [PyDict.lookup]. destruct (streq k key) eqn:Hk.
  - apply streq_true_iff in Hk. exfalso. apply Hout. left. exact Hk.
  - apply IH. intros Hin. apply Hout. right. exact Hin.
Qed.

Lemma loaded_keys (found : pystr -> option PyDict.t)
      (sources : list (pystr * pystr)) (session_data : PyDict.t)
      (key : pystr) :
  In key (PyDict.keys (fold_left (Routes.load_source found) sources
                                 session_data)) ->
  In key (map snd sources) \/ In key (PyDict.keys session_data).
Proof.
  revert session_data.
  induction sources as [|[source_dir k] sources IH]; intros session_data Hin.
  - right. exact Hin.
  - cbn [fold_left] in Hin. apply IH in Hin. cbn [map snd In].
    destruct Hin as [Hin|Hin]; [left; right; exact Hin|].
    unfold Routes.load_source in Hin.
    destruct (found source_dir) as [[|file files]|];
      try (right; exact Hin).
    apply set_keys in Hin.
    destruct Hin as [Heq|Hin]; [left; left; symmetry; exact Heq|].
    right. exact Hin.
Qed.

Section RouteToService.
Context {R : Type} `{PyFloat R}.
Variable repr json_dumps : json -> pystr.
Variable process_item : Prepared.t -> PyDict.t -> outcome (Analysis.t R).

Lemma no_section_no_item (data : PyDict.t) :
  PyDict.lookup data (u "analysis_results") = None ->
  PyDict.lookup data (u "content_analysis") = None ->
  PyDict.lookup data (u "competitor_analysis") = None ->
  PyDict.lookup data (u "market_insights") = None ->
  PyDict.lookup data (u "web_research") = None ->
  Service._prepare_data_for_analysis repr json_dumps data = [].
Proof.
  intros Ha Hc Hk Hi Hw.
  unfold Service._prepare_data_for_analysis, Service.analysis_items,
    Service.content_items, Service.competitor_items, Service.insight_items,
    Service.web_items.
  rewrite Ha, Hc, Hk, Hi, Hw. reflexivity.
Qed.

(** X16.  The session data the route loads has no other keys than
    'modules', 'reports' and 'raw_data', and the service looks for its
    items under five other keys: whatever the files hold, no item is
    prepared, the agent is not called, the counters stay as they are and
    the result is the empty one, with the status 'no_data'. *)
Theorem route_sessions_have_no_items
        (session_found : bool) (found : pystr -> option PyDict.t)
        (data : PyDict.t) (stats : SessionStats.t) :
  Routes._load_session_data session_found found = Some data ->
  (forall key : pystr,
      In key (PyDict.keys data) ->
      In key [u "modules"; u "reports"; u "raw_data"])
  /\ data <> []
  /\ Service._prepare_data_for_analysis repr json_dumps data = []
  /\ Service.process_session_data repr json_dumps process_item data stats
     = (Service._create_empty_result, stats).
Proof.
  intros Hload. unfold Routes._load_session_data in Hload.
  destruct session_found; [|discriminate]. cbn [negb] in Hload.
  assert (Hkeys : forall key : pystr,
             In key (PyDict.keys data) ->
             In key [u "modules"; u "reports"; u "raw_data"]).
  { intros key Hin.
    destruct (fold_left (Routes.load_source found) Routes.data_sources [])
      as [|entry entries] eqn:Hfold; [discriminate|].
    injection Hload as Hdata. rewrite <- Hdata, <- Hfold in Hin.
    apply loaded_keys in Hin. destruct Hin as [Hin|[]]. exact Hin. }
  assert (Hnone : forall name : pystr,
             ~ In name [u "modules"; u "reports"; u "raw_data"] ->
             PyDict.lookup data name = None).
  { intros name Hout. apply lookup_absent. intros Hin. apply Hout.
    apply Hkeys. exact Hin. }
  assert (Hitems : Service._prepare_data_for_analysis repr json_dumps data
                   = []).
  { apply no_section_no_item; apply Hnone;
      intros [Heq|[Heq|[Heq|[]]]]; vm_compute in Heq; discriminate. }
  split; [exact Hkeys|]. split.
  { destruct (fold_left (Routes.load_source found) Routes.data_sources [])
      as [|entry entries]; [discriminate|].
    injection Hload as Hdata. rewrite <- Hdata. discriminate. }
  split; [exact Hitems|].
  unfold Service.process_session_data. rewrite Hitems. reflexivity.
Qed.

End RouteToService.

Lemma route_sessions_have_no_items_witness :
  let found := fun source_dir : pystr =>
                 if streq source_dir (u "modules")
                 then Some [(u "session_basic",
                             JDict [(u "status",
                                     JStr (u "ready_for_verification"))])]
                 else None in
  let data := [(u "modules",
                JDict [(u "session_basic",
                        JDict [(u "status",
                                JStr (u "ready_for_verification"))])])] in
  Routes._load_session_data true found = Some data
  /\ Service._prepare_data_for_analysis
       (fun _ => u "repr") (fun _ => u "dumps") data = [].
Proof.
  cbv zeta.
  set (found := fun source_dir : pystr =>
                  if streq source_dir (u "modules")
                  then Some [(u "session_basic",
                              JDict [(u "status",
                                      JStr (u "ready_for_verification"))])]
                  else None).
  set (data := [(u "modules",
                 JDict [(u "session_basic",
                         JDict [(u "status",
                                 JStr (u "ready_for_verification"))])])]).
  assert (Hload : Routes._load_session_data true found = Some data)
    by (vm_compute; reflexivity).
  split; [exact Hload|].
  exact (proj1 (proj2 (proj2 (route_sessions_have_no_items
                                (R:=Q) (fun _ => u "repr") (fun _ => u "dumps")
                                (fun _ _ => Raise (u "unused"))
                                true found data
                                (SessionStats.make 0 0 0) Hload)))).
Defined.

(* ================================================================= *)
(** ** The fenced JSON of a synthesis *)

Section Fences.
Import Synthesis.

Lemma startswith_app (s a b : pystr) :
  startswith s (a ++ b) = true -> startswith s a = true.
Proof.
  revert s. induction a as [|c a IH]; intros s Hs; [destruct s; reflexivity|].
  destruct s as [|d s]; [discriminate|].
  cbn [app startswith] in *. apply andb_true_iff in Hs.
  destruct Hs as [Hc Hs]. rewrite Hc. cbn [andb]. apply IH. exact Hs.
Qed.

Lemma startswith_itself (a b : pystr) : startswith (a ++ b) a = true.
Proof.
  induction a as [|c a IH]; [destruct b; reflexivity|].
  cbn [app startswith]. rewrite N.eqb_refl. exact IH.
Qed.

Lemma startswith_other_head (c h : N) (s needle : pystr) :
  (h =? c)%N = false -> startswith (c :: s) (h :: needle) = false.
Proof. intros Hc. cbn [startswith]. rewrite Hc. reflexivity. Qed.

(** No occurrence of the needle starts in a prefix that is free of the
    first character of the needle. *)
Lemma find_from_skips (h : N) (needle prefix rest : pystr) (i : nat) :
  forallb (fun c => negb (h =? c)%N) prefix = true ->
  find_from (h :: needle) (prefix ++ rest) i
  = find_from (h :: needle) rest (i + len prefix).
Proof.
  revert i. induction prefix as [|c prefix IH]; intros i Hfree.
  - cbn [app len List.length]. rewrite Nat.add_0_r. reflexivity.
  - cbn [forallb] in Hfree. apply andb_true_iff in Hfree.
    destruct Hfree as [Hc Hfree]. apply negb_true_iff in Hc.
    cbn [app]. cbn [find_from].
    rewrite (startswith_other_head c h (prefix ++ rest) needle Hc).
    rewrite (IH (S i) Hfree). f_equal. unfold len. cbn [List.length]. lia.
Qed.

Lemma rfind_from_keeps_later (needle x y : pystr) (i j : nat) :
  rfind_from needle y (i + len x) = Some j ->
  rfind_from needle (x ++ y) i = Some j.
Proof.
  revert i. induction x as [|c x IH]; intros i Hy.
  - cbn [app]. cbn [len List.length] in Hy. rewrite Nat.add_0_r in Hy.
    exact Hy.
  - cbn [app]. cbn [rfind_from].
    rewrite (IH (S i)); [reflexivity|].
    rewrite <- Hy. f_equal. unfold len. cbn [List.length]. lia.
Qed.

Lemma rfind_from_free (h : N) (needle s : pystr) (i : nat) :
  forallb (fun c => negb (h =? c)%N) s = true ->
  needle <> [] ->
  rfind_from (h :: needle) s i = None.
Proof.
  intros Hfree Hneedle. revert i.
  induction s as [|c s IH]; intros i.
  - cbn [rfind_from startswith]. reflexivity.
  - cbn [forallb] in Hfree. apply andb_true_iff in Hfree.
    destruct Hfree as [Hc Hfree]. apply negb_true_iff in Hc.
    cbn [rfind_from]. rewrite (IH Hfree (S i)).
    rewrite (startswith_other_head c h s needle Hc). reflexivity.
Qed.

Lemma rfind_from_cons (needle s : pystr) (c : N) (i : nat) :
  rfind_from needle (c :: s) i
  = match rfind_from needle s (S i) with
    | Some j => Some j
    | None => if startswith (c :: s) needle then Some i else None
    end.
Proof. reflexivity. Qed.

Lemma fence_needs_three_backticks (suffix : pystr) :
  forallb (fun c => negb (96 =? c)%N) suffix = true ->
  startswith (96%N :: suffix) [96%N; 96%N; 96%N] = false
  /\ startswith (96%N :: 96%N :: suffix) [96%N; 96%N; 96%N] = false.
Proof.
  intros Hfree. destruct suffix as [|c suffix]; [split; reflexivity|].
  cbn [forallb] in Hfree. apply andb_true_iff in Hfree.
  destruct Hfree as [Hc _]. apply negb_true_iff in Hc.
  cbn [startswith]. rewrite !N.eqb_refl, Hc. split; reflexivity.
Qed.

(** The closing fence, followed by text without a backtick, is the last
    occurrence of three backticks. *)
Lemma rfind_from_closing_fence (suffix : pystr) (i : nat) :
  forallb (fun c => negb (96 =? c)%N) suffix = true ->
  rfind_from fence (fence ++ suffix) i = Some i.
Proof.
  intros Hfree.
  change fence with [96%N; 96%N; 96%N]. cbn [app].
  destruct (fence_needs_three_backticks suffix Hfree) as [Hone Htwo].
  rewrite !rfind_from_cons.
  rewrite (rfind_from_free 96 [96%N; 96%N] suffix (S (S (S i))) Hfree)
    by discriminate.
  rewrite Hone, Htwo. cbn [startswith]. rewrite !N.eqb_refl.
  destruct suffix; reflexivity.
Qed.

Lemma find_from_here (needle hay : pystr) (i : nat) :
  startswith hay needle = true -> find_from needle hay i = Some i.
Proof. intros Hs. destruct hay; cbn [find_from]; rewrite Hs; reflexivity. Qed.

Lemma contains_after (needle prefix rest : pystr) :
  contains needle (prefix ++ needle ++ rest) = true.
Proof.
  induction prefix as [|c prefix IH].
  - cbn [app].
    pose proof (startswith_itself needle rest) as Hs.
    destruct (needle ++ rest); cbn [contains]; rewrite Hs; reflexivity.
  - cbn [app contains]. rewrite IH. apply orb_true_r.
Qed.

Lemma slice_of_the_middle (before middle after : pystr) :
  slice (before ++ middle ++ after) (Z.of_nat (len before))
        (Z.of_nat (len before + len middle))
  = middle.
Proof.
  unfold slice, slice_bound.
  destruct (Z.ltb_spec (Z.of_nat (len before)) 0) as [Hneg|_]; [lia|].
  destruct (Z.ltb_spec (Z.of_nat (len before + len middle)) 0) as [Hneg|_];
    [lia|].
  rewrite !Nat2Z.id. unfold len. rewrite !length_app.
  rewrite !Nat.min_l by lia.
  replace (List.length before + List.length middle - List.length before)%nat
    with (List.length middle) by lia.
  rewrite skipn_app, skipn_all, Nat.sub_diag. cbn [app skipn].
  rewrite firstn_app, firstn_all, Nat.sub_diag. cbn [firstn].
  apply app_nil_r.
Qed.

Lemma position_of_the_fences (prefix body suffix : pystr) :
  forallb (fun c => negb (96 =? c)%N) prefix = true ->
  forallb (fun c => negb (96 =? c)%N) suffix = true ->
  let text := prefix ++ opening_fence ++ body ++ fence ++ suffix in
  find opening_fence text = Z.of_nat (len prefix)
  /\ rfind fence text = Z.of_nat (len prefix + 7 + len body).
Proof.
  intros Hprefix Hsuffix text. subst text. split.
  - unfold find.
    change opening_fence
      with (96%N :: [96%N; 96%N; 106%N; 115%N; 111%N; 110%N]) at 1.
    rewrite (find_from_skips 96 _ prefix _ 0 Hprefix).
    rewrite find_from_here; [reflexivity|].
    apply (startswith_itself opening_fence).
  - unfold rfind.
    replace (prefix ++ opening_fence ++ body ++ fence ++ suffix)
      with ((prefix ++ opening_fence ++ body) ++ fence ++ suffix)
      by (rewrite <- !app_assoc; reflexivity).
    rewrite (rfind_from_keeps_later fence (prefix ++ opening_fence ++ body)
               (fence ++ suffix) 0
               (0 + len (prefix ++ opening_fence ++ body))).
    + f_equal. unfold len. rewrite !length_app.
      change (List.length opening_fence) with 7%nat. lia.
    + apply rfind_from_closing_fence. exact Hsuffix.
Qed.

Lemma rfind_from_finds (needle extension hay : pystr) (i : nat) :
  needle <> [] ->
  contains (needle ++ extension) hay = true ->
  exists j : nat, rfind_from needle hay i = Some j.
Proof.
  intros Hneedle. revert i. induction hay as [|c hay IH]; intros i Hin.
  - destruct needle as [|h needle]; [contradiction|discriminate].
  - rewrite rfind_from_cons. cbn [contains] in Hin.
    apply orb_true_iff in Hin. destruct Hin as [Hhere|Hlater].
    + apply startswith_app in Hhere. rewrite Hhere.
      destruct (rfind_from needle hay (S i)) as [j|]; eexists; reflexivity.
    + destruct (IH (S i) Hlater) as [j Hj]. rewrite Hj. exists j. reflexivity.
Qed.

Lemma rfind_of_a_fenced_text (text : pystr) :
  contains opening_fence text = true -> (0 <= rfind fence text)%Z.
Proof.
  intros Hfence. unfold rfind.
  destruct (rfind_from_finds fence (u "json") text 0) as [j Hj];
    [discriminate | exact Hfence |].
  rewrite Hj. lia.
Qed.

End Fences.

Section SynthesisResult.
Import Synthesis.
Variable json_loads : pystr -> outcome json.
Variable item_assignment_error : json -> pystr.
Variable generated_at : pystr.

Lemma lookup_after_set (d : PyDict.t) (key : pystr) (value : json) :
  PyDict.lookup (PyDict.set d key value) key = Some value.
Proof.
  induction d as [|[k v] d IH]; cbn [PyDict.set PyDict.lookup].
  - destruct (streq key key) eqn:Hk; [reflexivity|].
    assert (Hrefl : streq key key = true) by (apply streq_true_iff; reflexivity).
    congruence.
  - destruct (streq k key) eqn:Hk; cbn [PyDict.lookup]; rewrite Hk;
      [reflexivity | exact IH].
Qed.

(** X17.  A synthesis whose JSON stands between an opening and a closing
    fence, with no backtick before the first or after the second, is
    read as the trimmed text between the fences, whatever surrounds them
    and whatever the body holds; when that text parses to an object, the
    result is the object with the entry 'metadata_sintese' set. *)
Theorem fenced_body_is_parsed (prefix body suffix : pystr) :
  forallb (fun c => negb (96 =? c)%N) prefix = true ->
  forallb (fun c => negb (96 =? c)%N) suffix = true ->
  let text := prefix ++ opening_fence ++ body ++ fence ++ suffix in
  fenced_text text = strip body
  /\ (forall entries : PyDict.t,
         json_loads (strip body) = Ok (JDict entries) ->
         let result :=
           _process_synthesis_result json_loads item_assignment_error
                                     generated_at text in
         result = JDict (PyDict.set entries (u "metadata_sintese")
                                    (metadata_sintese generated_at))
         /\ exists fields : PyDict.t,
             result = JDict fields
             /\ PyDict.lookup fields (u "metadata_sintese")
                = Some (metadata_sintese generated_at)).
Proof.
  intros Hprefix Hsuffix text.
  destruct (position_of_the_fences prefix body suffix Hprefix Hsuffix)
    as [Hfind Hrfind].
  fold text in Hfind, Hrfind.
  assert (Htext : fenced_text text = strip body).
  { unfold fenced_text. rewrite Hfind, Hrfind. f_equal.
    subst text.
    replace (prefix ++ opening_fence ++ body ++ fence ++ suffix)
      with ((prefix ++ opening_fence) ++ body ++ fence ++ suffix)
      by (rewrite <- !app_assoc; reflexivity).
    replace (Z.of_nat (len prefix) + 7)%Z
      with (Z.of_nat (len (prefix ++ opening_fence))).
    2: { unfold len. rewrite length_app.
         change (List.length opening_fence) with 7%nat. lia. }
    replace (len prefix + 7 + len body)%nat
      with (len (prefix ++ opening_fence) + len body)%nat.
    2: { unfold len. rewrite length_app.
         change (List.length opening_fence) with 7%nat. lia. }
    apply slice_of_the_middle. }
  split; [exact Htext|].
  intros entries Hparsed. cbv zeta.
  assert (Hresult :
            _process_synthesis_result json_loads item_assignment_error
                                      generated_at text
            = JDict (PyDict.set entries (u "metadata_sintese")
                                (metadata_sintese generated_at))).
  { unfold _process_synthesis_result.
    replace (contains opening_fence text) with true
      by (symmetry; apply contains_after).
    rewrite Htext, Hparsed. reflexivity. }
  split; [exact Hresult|].
  eexists. split; [exact Hresult|]. apply lookup_after_set.
Qed.

(** X18.  When no fence closes after the opening one (the last three
    backticks of the text stand at or before the end of the opening
    fence), the text between the fences is empty, whatever follows the
    opening fence: with a parser that refuses the empty text, as
    [json.loads] does, the result is the error dict, not the parsed
    synthesis and not the fallback. *)
Theorem unterminated_fence_is_an_error (text e : pystr) :
  contains opening_fence text = true ->
  (rfind fence text <= find opening_fence text + 7)%Z ->
  json_loads [] = Raise e ->
  fenced_text text = []
  /\ _process_synthesis_result json_loads item_assignment_error generated_at
                               text
     = error_result text e.
Proof.
  intros Hfence Hlast Hempty.
  pose proof (rfind_of_a_fenced_text text Hfence) as Hfound.
  assert (Htext : fenced_text text = []).
  { unfold fenced_text, slice, slice_bound.
    destruct (Z.ltb_spec (find opening_fence text + 7) 0) as [Hneg|_]; [lia|].
    destruct (Z.ltb_spec (rfind fence text) 0) as [Hneg|_]; [lia|].
    replace (Nat.min (Z.to_nat (rfind fence text)) (len text)
             - Nat.min (Z.to_nat (find opening_fence text + 7)) (len text))%nat
      with 0%nat by lia.
    reflexivity. }
  split; [exact Htext|].
  unfold _process_synthesis_result. rewrite Hfence, Htext, Hempty.
  reflexivity.
Qed.

Lemma text_between_the_fences (prefix body suffix : pystr) :
  forallb (fun c => negb (96 =? c)%N) prefix = true ->
  forallb (fun c => negb (96 =? c)%N) suffix = true ->
  fenced_text (prefix ++ opening_fence ++ body ++ fence ++ suffix)
  = strip body.
Proof.
  intros Hprefix Hsuffix.
  destruct (position_of_the_fences prefix body suffix Hprefix Hsuffix)
    as [Hfind Hrfind].
  cbv zeta in Hfind, Hrfind.
  unfold fenced_text. rewrite Hfind, Hrfind. f_equal.
  replace (prefix ++ opening_fence ++ body ++ fence ++ suffix)
    with ((prefix ++ opening_fence) ++ body ++ fence ++ suffix)
    by (rewrite <- !app_assoc; reflexivity).
  replace (Z.of_nat (len prefix) + 7)%Z
    with (Z.of_nat (len (prefix ++ opening_fence))).
  2: { unfold len. rewrite length_app.
       change (List.length opening_fence) with 7%nat. lia. }
  replace (len prefix + 7 + len body)%nat
    with (len (prefix ++ opening_fence) + len body)%nat.
  2: { unfold len. rewrite length_app.
       change (List.length opening_fence) with 7%nat. lia. }
  apply slice_of_the_middle.
Qed.

(** X19.  Between fences only an object is accepted.  When the text
    between an opening and a closing fence (no backtick before the first
    or after the second) parses to a value that is not an object, an
    array for one, the result is the error dict with the message of the
    failed item assignment, although the parse succeeded; the same JSON
    text given alone, without fences, is returned as the parsed value. *)
Theorem fenced_value_must_be_an_object
        (prefix body suffix : pystr) (value : json) :
  forallb (fun c => negb (96 =? c)%N) prefix = true ->
  forallb (fun c => negb (96 =? c)%N) suffix = true ->
  json_loads (strip body) = Ok value ->
  is_object value = false ->
  contains opening_fence (strip body) = false ->
  let text := prefix ++ opening_fence ++ body ++ fence ++ suffix in
  _process_synthesis_result json_loads item_assignment_error generated_at text
  = error_result text (item_assignment_error value)
  /\ _process_synthesis_result json_loads item_assignment_error generated_at
                               (strip body)
     = value.
Proof.
  intros Hprefix Hsuffix Hparsed Hvalue Hplain text. split.
  - unfold _process_synthesis_result.
    replace (contains opening_fence text) with true
      by (symmetry; apply contains_after).
    subst text.
    rewrite (text_between_the_fences prefix body suffix Hprefix Hsuffix).
    rewrite Hparsed.
    destruct value as [| | | | |entries]; try reflexivity. discriminate.
  - unfold _process_synthesis_result. rewrite Hplain, Hparsed. reflexivity.
Qed.

End SynthesisResult.

Lemma fenced_body_is_parsed_witness :
  let prefix := u "Segue a síntese:" ++ [10%N] in
  let body := [10%N] ++ u "{}" ++ [10%N] in
  let suffix := [10%N] ++ u "Fim." in
  forallb (fun c => negb (96 =? c)%N) prefix = true
  /\ forallb (fun c => negb (96 =? c)%N) suffix = true
  /\ Synthesis.fenced_text
       (prefix ++ Synthesis.opening_fence ++ body ++ Synthesis.fence ++ suffix)
     = u "{}".
Proof.
  cbv zeta. split; [vm_compute; reflexivity|].
  split; [vm_compute; reflexivity|].
  exact (proj1 (fenced_body_is_parsed
                  Synthesis.sample_loads (fun _ => u "TypeError") (u "now")
                  (u "Segue a síntese:" ++ [10%N]) ([10%N] ++ u "{}" ++ [10%N])
                  ([10%N] ++ u "Fim.") eq_refl eq_refl)).
Defined.

Lemma unterminated_fence_is_an_error_witness :
  let text := Synthesis.opening_fence ++ [10%N] ++ u "{}" in
  contains Synthesis.opening_fence text = true
  /\ (Synthesis.rfind Synthesis.fence text
      <= Synthesis.find Synthesis.opening_fence text + 7)%Z
  /\ Synthesis._process_synthesis_result
       Synthesis.sample_loads (fun _ => u "TypeError") (u "now") text
     = Synthesis.error_result
         text (u "Expecting value: line 1 column 1 (char 0)").
Proof.
  cbv zeta.
  assert (Hfence : contains Synthesis.opening_fence
                            (Synthesis.opening_fence ++ [10%N] ++ u "{}")
                   = true) by (vm_compute; reflexivity).
  assert (Hlast : (Synthesis.rfind Synthesis.fence
                     (Synthesis.opening_fence ++ [10%N] ++ u "{}")
                   <= Synthesis.find Synthesis.opening_fence
                        (Synthesis.opening_fence ++ [10%N] ++ u "{}") + 7)%Z)
    by (vm_compute; discriminate).
  split; [exact Hfence|]. split; [exact Hlast|].
  exact (proj2 (unterminated_fence_is_an_error
                  Synthesis.sample_loads (fun _ => u "TypeError") (u "now")
                  (Synthesis.opening_fence ++ [10%N] ++ u "{}")
                  (u "Expecting value: line 1 column 1 (char 0)")
                  Hfence Hlast eq_refl)).
Defined.

Lemma fenced_value_must_be_an_object_witness :
  let prefix := u "Lista:" ++ [10%N] in
  let body := [10%N] ++ u "[]" ++ [10%N] in
  let suffix := [10%N] in
  let text := prefix ++ Synthesis.opening_fence ++ body ++ Synthesis.fence
                     ++ suffix in
  forallb (fun c => negb (96 =? c)%N) prefix = true
  /\ Synthesis.sample_loads_array (strip body) = Ok (JList [])
  /\ Synthesis._process_synthesis_result
       Synthesis.sample_loads_array (fun _ => u "TypeError") (u "now") text
     = Synthesis.error_result text (u "TypeError")
  /\ Synthesis._process_synthesis_result
       Synthesis.sample_loads_array (fun _ => u "TypeError") (u "now")
       (strip body)
     = JList [].
Proof.
  cbv zeta. split; [vm_compute; reflexivity|].
  split; [vm_compute; reflexivity|].
  exact (fenced_value_must_be_an_object
           Synthesis.sample_loads_array (fun _ => u "TypeError") (u "now")
           (u "Lista:" ++ [10%N]) ([10%N] ++ u "[]" ++ [10%N]) [10%N]
           (JList []) eq_refl eq_refl eq_refl eq_refl eq_refl).
Defined.

(* ================================================================= *)
(** ** The ids of the prepared items *)

Lemma map_fst_enumerate {A : Type} (xs : list A) :
  map fst (enumerate xs) = seq 0 (len xs).
Proof.
  unfold enumerate. generalize 0%nat.
  induction xs as [|x xs IH]; intros start; [reflexivity|].
  cbn [len List.length seq combine map fst]. f_equal. apply IH.
Qed.

Lemma str_of_nat_injective (i j : nat) : str_of_nat i = str_of_nat j -> i = j.
Proof.
  intros Heq. apply (f_equal int_of_digits) in Heq.
  rewrite !int_of_digits_str_of_nat in Heq. exact Heq.
Qed.

Lemma nodup_map_injective {A B : Type} (f : A -> B) (xs : list A) :
  (forall x y : A, f x = f y -> x = y) -> NoDup xs -> NoDup (map f xs).
Proof.
  intros Hinj. induction 1 as [|x xs Hout Hxs IH]; cbn [map]; constructor.
  - intros Hin. apply in_map_iff in Hin. destruct Hin as (y & Heq & Hin).
    apply Hinj in Heq. subst y. exact (Hout Hin).
  - exact IH.
Qed.

Lemma enumerate_keys_are_distinct {A : Type} (xs : list A) :
  NoDup (map (fun indexed : nat * A => str_of_nat (fst indexed))
             (enumerate xs)).
Proof.
  rewrite <- (map_map fst str_of_nat), map_fst_enumerate.
  apply nodup_map_injective; [exact str_of_nat_injective | apply seq_NoDup].
Qed.

(** A loop that appends at most one item for each entry, with an id made
    of a prefix and the key of the entry. *)
Lemma keyed_section_ids {A : Type} (prefix : pystr) (key : A -> pystr)
      (f : A -> list Prepared.t) (xs : list A) :
  (forall (x : A) (item : Prepared.t),
      In item (f x) ->
      f x = [item] /\ Prepared.id item = prefix ++ key x) ->
  NoDup (map key xs) ->
  NoDup (map Prepared.id (flat_map f xs))
  /\ (forall item : Prepared.t,
         In item (flat_map f xs) ->
         exists x : A, In x xs /\ Prepared.id item = prefix ++ key x).
Proof.
  intros Hf. induction xs as [|x xs IH]; intros Hkeys.
  - split; [constructor | intros item []].
  - inversion Hkeys as [|k ks Hout Hrest]; subst.
    destruct (IH Hrest) as [IHnodup IHin].
    assert (Hin : forall item : Prepared.t,
               In item (flat_map f (x :: xs)) ->
               exists y : A, In y (x :: xs)
                             /\ Prepared.id item = prefix ++ key y).
    { intros item Hitem. cbn [flat_map] in Hitem.
      apply in_app_or in Hitem. destruct Hitem as [Hitem|Hitem].
      - exists x. split; [left; reflexivity|]. apply (Hf x item Hitem).
      - destruct (IHin item Hitem) as (y & Hy & Hid).
        exists y. split; [right; exact Hy | exact Hid]. }
    split; [|exact Hin].
    cbn [flat_map]. destruct (f x) as [|item others] eqn:Hfx;
      [exact IHnodup|].
    destruct (Hf x item) as [Hone Hid]; [rewrite Hfx; left; reflexivity|].
    rewrite Hfx in Hone. injection Hone as Hothers. subst others.
    cbn [app map]. constructor; [|exact IHnodup].
    intros Hdup. apply in_map_iff in Hdup.
    destruct Hdup as (item' & Hid' & Hitem').
    destruct (IHin item' Hitem') as (y & Hy & Hidy).
    apply Hout. rewrite Hid, Hidy in Hid'. apply app_inv_head in Hid'.
    rewrite <- Hid'. apply in_map. exact Hy.
Qed.

Lemma flat_map_of_singletons {A B : Type} (g : A -> B) (xs : list A) :
  flat_map (fun x => [g x]) xs = map g xs.
Proof.
  induction xs as [|x xs IH]; [reflexivity|].
  cbn [flat_map map app]. rewrite IH. reflexivity.
Qed.

(** Appending a section whose ids start with three characters that no
    earlier id starts with. *)
Lemma append_tagged_ids (earlier section : list pystr)
      (tags : list pystr) (tag : pystr) :
  NoDup earlier ->
  (forall a : pystr, In a earlier -> In (firstn 3 a) tags) ->
  NoDup section ->
  (forall a : pystr, In a section -> firstn 3 a = tag) ->
  ~ In tag tags ->
  NoDup (earlier ++ section)
  /\ (forall a : pystr,
         In a (earlier ++ section) -> In (firstn 3 a) (tags ++ [tag])).
Proof.
  intros Hearlier Htags Hsection Htag Hnew. split.
  - apply NoDup_app; [exact Hearlier | exact Hsection |].
    intros a Ha Hb. apply Hnew. rewrite <- (Htag a Hb). apply Htags. exact Ha.
  - intros a Ha. apply in_or_app. apply in_app_or in Ha.
    destruct Ha as [Ha|Ha]; [left; apply Htags; exact Ha|].
    right. left. symmetry. apply Htag. exact Ha.
Qed.

Section PreparedIds.
Context {R : Type} `{PyFloat R}.
Variable repr json_dumps : json -> pystr.

Ltac empty_section := split; [constructor | intros ? []].

Ltac tagged_by Hsection :=
  split; [exact (proj1 Hsection)|];
  let item := fresh "item" in
  let Hitem := fresh "Hitem" in
  let Hid := fresh "Hid" in
  intros item Hitem;
  destruct (proj2 Hsection item Hitem) as (? & _ & Hid);
  rewrite Hid; reflexivity.

Lemma analysis_ids (data : PyDict.t) :
  NoDup (map Prepared.id (Service.analysis_items repr data))
  /\ (forall item : Prepared.t,
         In item (Service.analysis_items repr data) ->
         firstn 3 (Prepared.id item) = u "ana").
Proof.
  unfold Service.analysis_items.
  destruct (PyDict.lookup data (u "analysis_results"))
    as [[| | | |analysis_data|]|]; try empty_section.
  match goal with
  | |- NoDup (map _ (flat_map ?f _)) /\ _ =>
      pose proof (keyed_section_ids
                    (u "analysis_")
                    (fun indexed : nat * json => str_of_nat (fst indexed))
                    f (enumerate analysis_data)) as Hsection
  end.
  assert (Hready := fun Hf => Hsection Hf
                                (enumerate_keys_are_distinct analysis_data)).
  clear Hsection.
  assert (Hsection := Hready ltac:(
    intros [i item] prepared Hin;
    destruct item as [| | | | |[|entry entries]]; try destruct Hin;
    try contradiction; subst; split; reflexivity)).
  tagged_by Hsection.
Qed.

Lemma content_ids (data : PyDict.t) :
  (forall entries : PyDict.t,
      PyDict.lookup data (u "content_analysis") = Some (JDict entries) ->
      NoDup (PyDict.keys entries)) ->
  NoDup (map Prepared.id (Service.content_items json_dumps data))
  /\ (forall item : Prepared.t,
         In item (Service.content_items json_dumps data) ->
         firstn 3 (Prepared.id item) = u "con").
Proof.
  intros Hkeys. unfold Service.content_items.
  destruct (PyDict.lookup data (u "content_analysis"))
    as [[| | | | |content_data]|]; try empty_section.
  specialize (Hkeys content_data eq_refl).
  match goal with
  | |- NoDup (map _ (flat_map ?f _)) /\ _ =>
      pose proof (keyed_section_ids (u "content_") fst f content_data)
        as Hsection
  end.
  assert (Hready := fun Hf => Hsection Hf Hkeys). clear Hsection.
  assert (Hsection := Hready ltac:(
    intros [key value] prepared Hin;
    destruct value as [| | |[|c s]| |[|entry entries]]; try destruct Hin;
    try contradiction; subst; split; reflexivity)).
  tagged_by Hsection.
Qed.

Lemma competitor_ids (data : PyDict.t) :
  (forall entries : PyDict.t,
      PyDict.lookup data (u "competitor_analysis") = Some (JDict entries) ->
      NoDup (PyDict.keys entries)) ->
  NoDup (map Prepared.id (Service.competitor_items json_dumps data))
  /\ (forall item : Prepared.t,
         In item (Service.competitor_items json_dumps data) ->
         firstn 3 (Prepared.id item) = u "com").
Proof.
  intros Hkeys. unfold Service.competitor_items.
  destruct (PyDict.lookup data (u "competitor_analysis"))
    as [[| | | | |comp_data]|]; try empty_section.
  specialize (Hkeys comp_data eq_refl).
  match goal with
  | |- NoDup (map _ (flat_map ?f _)) /\ _ =>
      pose proof (keyed_section_ids (u "competitor_") fst f comp_data)
        as Hsection
  end.
  assert (Hready := fun Hf => Hsection Hf Hkeys). clear Hsection.
  assert (Hsection := Hready ltac:(
    intros [key value] prepared Hin;
    destruct value as [| | | | |[|entry entries]]; try destruct Hin;
    try contradiction; subst; split; reflexivity)).
  tagged_by Hsection.
Qed.

Lemma insight_ids (data : PyDict.t) :
  (forall entries : PyDict.t,
      PyDict.lookup data (u "market_insights") = Some (JDict entries) ->
      NoDup (PyDict.keys entries)) ->
  NoDup (map Prepared.id (Service.insight_items repr data))
  /\ (forall item : Prepared.t,
         In item (Service.insight_items repr data) ->
         firstn 3 (Prepared.id item) = u "ins").
Proof.
  intros Hkeys. unfold Service.insight_items.
  destruct (PyDict.lookup data (u "market_insights"))
    as [[| | | |insights|insights]|]; try empty_section.
  - match goal with
    | |- context [map ?g (enumerate insights)] =>
        rewrite <- (flat_map_of_singletons g (enumerate insights))
    end.
    match goal with
    | |- NoDup (map _ (flat_map ?f _)) /\ _ =>
        pose proof (keyed_section_ids
                      (u "insight_")
                      (fun indexed : nat * json => str_of_nat (fst indexed))
                      f (enumerate insights)) as Hsection
    end.
    assert (Hready := fun Hf => Hsection Hf
                                  (enumerate_keys_are_distinct insights)).
    clear Hsection.
    assert (Hsection := Hready ltac:(
      intros [i insight] prepared Hin; destruct Hin as [Hin|[]];
      subst; split; reflexivity)).
    tagged_by Hsection.
  - specialize (Hkeys insights eq_refl).
    match goal with
    | |- context [map ?g insights] =>
        rewrite <- (flat_map_of_singletons g insights)
    end.
    match goal with
    | |- NoDup (map _ (flat_map ?f _)) /\ _ =>
        pose proof (keyed_section_ids (u "insight_") fst f insights)
          as Hsection
    end.
    assert (Hready := fun Hf => Hsection Hf Hkeys). clear Hsection.
    assert (Hsection := Hready ltac:(
      intros [key value] prepared Hin; destruct Hin as [Hin|[]];
      subst; split; reflexivity)).
    tagged_by Hsection.
Qed.

Lemma web_ids (data : PyDict.t) :
  (forall entries : PyDict.t,
      PyDict.lookup data (u "web_research") = Some (JDict entries) ->
      NoDup (PyDict.keys entries)) ->
  NoDup (map Prepared.id (Service.web_items repr data))
  /\ (forall item : Prepared.t,
         In item (Service.web_items repr data) ->
         firstn 3 (Prepared.id item) = u "web").
Proof.
  intros Hkeys. unfold Service.web_items.
  destruct (PyDict.lookup data (u "web_research"))
    as [[| | | | |web_data]|]; try empty_section.
  specialize (Hkeys web_data eq_refl).
  match goal with
  | |- NoDup (map _ (flat_map ?f _)) /\ _ =>
      pose proof (keyed_section_ids (u "web_") fst f web_data) as Hsection
  end.
  assert (Hready := fun Hf => Hsection Hf Hkeys). clear Hsection.
  assert (Hsection := Hready ltac:(
    intros [source content] prepared Hin;
    destruct (json_truthy content); try destruct Hin;
    try contradiction; subst; split; reflexivity)).
  tagged_by Hsection.
Qed.

Lemma tagged_ids (items : list Prepared.t) (tag : pystr) :
  (forall item : Prepared.t,
      In item items -> firstn 3 (Prepared.id item) = tag) ->
  forall a : pystr, In a (map Prepared.id items) -> firstn 3 a = tag.
Proof.
  intros Htag a Ha. apply in_map_iff in Ha. destruct Ha as (item & <- & Hin).
  apply Htag. exact Hin.
Qed.

Ltac new_tag :=
  let Hin := fresh "Hin" in
  intros Hin; cbn [In app] in Hin;
  repeat (destruct Hin as [Hin|Hin]; [vm_compute in Hin; discriminate|]);
  exact Hin.

(** X20.  No two prepared items share an id: within a section the ids
    are made of the index or of the key of the entry, and the prefixes of
    the five sections differ within their first three characters.  The
    keys of a section that is a dict are distinct, as in every Python
    dict. *)
Theorem prepared_ids_are_unique (data : PyDict.t) :
  (forall (name : pystr) (entries : PyDict.t),
      PyDict.lookup data name = Some (JDict entries) ->
      NoDup (PyDict.keys entries)) ->
  NoDup (map Prepared.id
             (Service._prepare_data_for_analysis repr json_dumps data))
  /\ (forall item : Prepared.t,
         In item (Service._prepare_data_for_analysis repr json_dumps data) ->
         In (firstn 3 (Prepared.id item))
            [u "ana"; u "con"; u "com"; u "ins"; u "web"]).
Proof.
  intros Hkeys. unfold Service._prepare_data_for_analysis. cbn [app].
  destruct (analysis_ids data) as [Ha Hta].
  destruct (content_ids data (Hkeys (u "content_analysis"))) as [Hc Htc].
  destruct (competitor_ids data (Hkeys (u "competitor_analysis")))
    as [Hk Htk].
  destruct (insight_ids data (Hkeys (u "market_insights"))) as [Hi Hti].
  destruct (web_ids data (Hkeys (u "web_research"))) as [Hw Htw].
  assert (H1 : forall a : pystr,
             In a (map Prepared.id (Service.analysis_items repr data)) ->
             In (firstn 3 a) [u "ana"]).
  { intros a Hin. left. symmetry. exact (tagged_ids _ _ Hta a Hin). }
  destruct (append_tagged_ids _ _ _ _ Ha H1 Hc (tagged_ids _ _ Htc))
    as [N2 H2]; [new_tag|].
  destruct (append_tagged_ids _ _ _ _ N2 H2 Hk (tagged_ids _ _ Htk))
    as [N3 H3]; [new_tag|].
  destruct (append_tagged_ids _ _ _ _ N3 H3 Hi (tagged_ids _ _ Hti))
    as [N4 H4]; [new_tag|].
  destruct (append_tagged_ids _ _ _ _ N4 H4 Hw (tagged_ids _ _ Htw))
    as [N5 H5]; [new_tag|].
  rewrite !map_app. split; [exact N5|].
  intros item Hin. apply (H5 (Prepared.id item)).
  rewrite <- !map_app. apply in_map. exact Hin.
Qed.

End PreparedIds.

(** The prepared items of a sample: an item of [analysis_results] keeps
    its own 'content' and 'title', or gets [str(item)] and 'Item n'; a
    string of [content_analysis] is its own content, a dict is dumped. *)
Lemma prepared_fields_of_a_sample :
  map (fun item => (Prepared.id item, Prepared.content item,
                    Prepared.title item))
      (Service._prepare_data_for_analysis
         (fun _ => u "repr") (fun _ => u "dumps")
         [ (u "analysis_results",
            JList [JDict [(u "content", JStr (u "primeiro"));
                          (u "title", JStr (u "um"))];
                   JDict [(u "nota", JStr (u "sem texto"))]]);
           (u "content_analysis",
            JDict [(u "resumo", JStr (u "txt"));
                   (u "dados", JDict [(u "a", JNull)])]) ])
  = [ (u "analysis_0", JStr (u "primeiro"), Some (JStr (u "um")));
      (u "analysis_1", JStr (u "repr"), Some (JStr (u "Item 2")));
      (u "content_resumo", JStr (u "txt"), None);
      (u "content_dados", JStr (u "dumps"), None) ].
Proof. vm_compute. reflexivity. Qed.

Lemma prepared_ids_are_unique_witness :
  let data :=
    [ (u "analysis_results",
       JList [JDict [(u "content", JStr (u "primeiro"))];
              JNull;
              JDict [(u "title", JStr (u "terceiro"))]]);
      (u "web_research",
       JDict [(u "0", JStr (u "pagina")); (u "vazio", JStr [])]) ] in
  map Prepared.id
      (Service._prepare_data_for_analysis
         (fun _ => u "repr") (fun _ => u "dumps") data)
  = [u "analysis_0"; u "analysis_2"; u "web_0"]
  /\ NoDup (map Prepared.id
                (Service._prepare_data_for_analysis
                   (fun _ => u "repr") (fun _ => u "dumps") data)).
Proof.
  cbv zeta. split; [vm_compute; reflexivity|].
  refine (proj1 (prepared_ids_are_unique
                   (fun _ => u "repr") (fun _ => u "dumps") _ _)).
  intros name entries Hlookup.
  cbn [PyDict.lookup] in Hlookup.
  destruct (streq (u "analysis_results") name); [discriminate|].
  destruct (streq (u "web_research") name); [|discriminate].
  injection Hlookup as <-.
  unfold PyDict.keys. cbn [map fst].
  constructor; [|constructor; [intros []|constructor]].
  intros [Heq|[]]. vm_compute in Heq. discriminate.
Defined.
